(** * Sales leaderboard client: ledger accumulation, ranking, zones, phone
      normalisation and registration

    A shallow embedding of the logic of [src/app/auth.tsx] (the
    registration and login screen) and of the leaderboard page of
    [src/app/(tabs)/_layout.tsx], and the properties of the specification
    that concern them.

    Modelling conventions.
    - A JavaScript [string] is a [string] of 8-bit characters, the code
      units below 256.  [\d] is an ASCII digit; white space is the ASCII
      white space and the no-break space.
    - A JavaScript [number] is a double.  The numbers that the handlers
      meet come from integers, so [JS.number] has the doubles whose value
      is an integer, the two infinities and [NaN]; the two zeros are one
      number, no handler tells them apart.  The store holds a count as an
      integer, which reaches the client as a JSON number: the client
      reads it as the nearest double ([JS.toNumber]), adds doubles
      ([JS.add]) and sends a finite total as it is.  JSON writes [NaN]
      and the infinities as [null]; the counts of the data model are
      numbers, and a row whose count is [null] is refused.  The zone of
      a count is computed on its value, an integer.
    - A [Date] is the invalid date or the fields of its time value in
      UTC, which is what [toISOString] renders and what the form shows.
      [localFields] gives the fields in the time zone of the device,
      those of the calendar that the date picker and the header of the
      page show.
    - The hosted store is a pair of tables.  A request to it is either
      served, or not served at all and answered with [{ data: null,
      error }]; which one is decided by the environment ([net]).  The
      constraints of the deployed schema are not part of the sources: a
      request that such a constraint refuses is a request that is not
      served.
    - A handler is a function from the world to the way it ends and the
      world after it.  *)

From stdpp Require Import gmap strings list sorting.
From Stdlib Require Import ZArith Ascii String.

Local Open Scope string_scope.
Local Open Scope Z_scope.

(** ** The parts of the JavaScript library that the sources use *)

Module JS.

(** [\d]: an ASCII digit. *)
Definition isDigit (c : ascii) : bool :=
  let n := Z.of_N (N_of_ascii c) in (48 <=? n) && (n <=? 57).

(** White space and line terminators among the code units below 256:
    tab to carriage return, the space and the no-break space. *)
Definition isWhiteSpace (c : ascii) : bool :=
  let n := Z.of_N (N_of_ascii c) in
  ((9 <=? n) && (n <=? 13)) || (n =? 32) || (n =? 160).

Fixpoint all (p : ascii -> bool) (s : string) : bool :=
  match s with
  | EmptyString => true
  | String c r => p c && all p r
  end.

Fixpoint keep (p : ascii -> bool) (s : string) : string :=
  match s with
  | EmptyString => EmptyString
  | String c r => if p c then String c (keep p r) else keep p r
  end.

Fixpoint skip (n : nat) (s : string) : string :=
  match n, s with
  | O, _ => s
  | S _, EmptyString => EmptyString
  | S n', String _ r => skip n' r
  end.

Fixpoint take (n : nat) (s : string) : string :=
  match n, s with
  | O, _ => EmptyString
  | S _, EmptyString => EmptyString
  | S n', String c r => String c (take n' r)
  end.

(** [s.startsWith(p)] *)
Fixpoint startsWith (s p : string) {struct p} : bool :=
  match p, s with
  | EmptyString, _ => true
  | String _ _, EmptyString => false
  | String a p', String b s' => Ascii.eqb a b && startsWith s' p'
  end.

(** [s.substring(a, b)] and [s.substring(a)] for indices that are
    natural numbers; [substring] swaps its arguments when [a > b]. *)
Definition substring (a b : nat) (s : string) : string :=
  if (b <? a)%nat then take (a - b) (skip b s) else take (b - a) (skip a s).

Definition substringFrom (a : nat) (s : string) : string := skip a s.

(** [s.slice(a, b)] for indices that are natural numbers. *)
Definition slice (a b : nat) (s : string) : string := take (b - a) (skip a s).

(** [s.replace(pat, rep)] with a string pattern: the first occurrence. *)
Fixpoint replace (pat rep s : string) : string :=
  if startsWith s pat then rep ++ skip (String.length pat) s
  else match s with
       | EmptyString => EmptyString
       | String c r => String c (replace pat rep r)
       end.

(** [s.replace(/\D/g, '')] *)
Definition removeNonDigits (s : string) : string := keep isDigit s.

Fixpoint trimStart (s : string) : string :=
  match s with
  | EmptyString => EmptyString
  | String c r => if isWhiteSpace c then trimStart r else s
  end.

Fixpoint trimEnd (s : string) : string :=
  match s with
  | EmptyString => EmptyString
  | String c r =>
      match trimEnd r with
      | EmptyString =>
          if isWhiteSpace c then EmptyString else String c EmptyString
      | r' => String c r'
      end
  end.

Definition trim (s : string) : string := trimEnd (trimStart s).

(** The value of a character as a digit of the given radix. *)
Definition digitValue (radix : Z) (c : ascii) : option Z :=
  let n := Z.of_N (N_of_ascii c) in
  let v :=
    if (48 <=? n) && (n <=? 57) then Some (n - 48)
    else if (97 <=? n) && (n <=? 122) then Some (n - 87)
    else if (65 <=? n) && (n <=? 90) then Some (n - 55)
    else None in
  match v with
  | Some d => if d <? radix then Some d else None
  | None => None
  end.

(** The longest prefix of digits, read in the radix; [acc] is [None]
    as long as no digit was read. *)
Fixpoint parseDigits (radix : Z) (acc : option Z) (s : string) : option Z :=
  match s with
  | EmptyString => acc
  | String c r =>
      match digitValue radix c with
      | Some d => parseDigits radix (Some (radix * default 0 acc + d)) r
      | None => acc
      end
  end.

(** A number whose value is an integer, an infinity, or [NaN]. *)
Inductive number :=
| NaN
| Finite (z : Z)
| Infinity
| NegInfinity.

(** The double nearest to the integer [n], which is not negative, were
    the exponent of a double not bounded: the integers of up to 53 bits
    are doubles; a longer one keeps its 53 leading bits [q] and is
    rounded to the nearer of the two multiples of [2 ^ e] around it, to
    the one with the even [q] when it is half way. *)
Definition roundToDouble (n : Z) : Z :=
  let e := Z.log2 n - 52 in
  if e <=? 0 then n
  else
    let q := n / 2 ^ e in
    let r := n mod 2 ^ e in
    let half := 2 ^ (e - 1) in
    if (r <? half) || ((r =? half) && Z.even q) then q * 2 ^ e
    else (q + 1) * 2 ^ e.

(** The number for the integer [z]: the nearest double, and an infinity
    from [2 ^ 1024] on, which is past the largest double. *)
Definition toNumber (z : Z) : number :=
  if 0 <=? z then
    let m := roundToDouble z in
    if 2 ^ 1024 <=? m then Infinity else Finite m
  else
    let m := roundToDouble (- z) in
    if 2 ^ 1024 <=? m then NegInfinity else Finite (- m).

(** The integer that [parseInt(s)] without a radix reads: leading white
    space, a sign, the prefix [0x] for radix 16, then digits.  [None]
    when there is no digit.  (Past 20 significant decimal digits the
    standard lets an engine read the later digits as 0; the model reads
    them all.) *)
Definition mathInt (s : string) : option Z :=
  let s0 := trimStart s in
  let '(sign, s1) :=
    match s0 with
    | String "-" r => (-1, r)
    | String "+" r => (1, r)
    | _ => (1, s0)
    end in
  let '(radix, s2) :=
    if startsWith s1 "0x" || startsWith s1 "0X" then (16, skip 2 s1)
    else (10, s1) in
  Z.mul sign <$> parseDigits radix None s2.

(** [parseInt(s)]: the number for the integer that was read, and [NaN]
    when there is no digit. *)
Definition parseInt (s : string) : number :=
  match mathInt s with
  | Some z => toNumber z
  | None => NaN
  end.

Definition isNaN (x : number) : bool :=
  match x with
  | NaN => true
  | _ => false
  end.

(** [a < b] *)
Definition ltb (a b : number) : bool :=
  match a, b with
  | Finite x, Finite y => x <? y
  | Finite _, Infinity => true
  | NegInfinity, Finite _ => true
  | NegInfinity, Infinity => true
  | _, _ => false
  end.

(** [a + b]: the sum of two doubles is the double nearest to the sum of
    their values. *)
Definition add (a b : number) : number :=
  match a, b with
  | Finite x, Finite y => toNumber (x + y)
  | Infinity, Finite _ | Finite _, Infinity | Infinity, Infinity => Infinity
  | NegInfinity, Finite _ | Finite _, NegInfinity
  | NegInfinity, NegInfinity => NegInfinity
  | _, _ => NaN
  end.

(** The value of a number in the JSON text of a request, where
    [JSON.stringify] writes what is not finite as [null] ([None]). *)
Definition toJSON (x : number) : option Z :=
  match x with
  | Finite z => Some z
  | _ => None
  end.

Arguments roundToDouble : simpl never.
Arguments toNumber : simpl never.

End JS.

(** ** [auth.tsx]: the phone number field *)

(** [/^[17]\d{8}$/.test(s)] *)
Definition test_17_d8 (s : string) : bool :=
  match s with
  | EmptyString => false
  | String c r =>
      (bool_decide (c = "1"%char) || bool_decide (c = "7"%char))
      && Nat.eqb (String.length r) 8 && JS.all JS.isDigit r
  end.

(** [/^\d+$/.test(s)] *)
Definition test_digits (s : string) : bool :=
  negb (bool_decide (s = "")) && JS.all JS.isDigit s.

Definition formatPhoneNumber (phone : string) : string :=
  if negb (JS.startsWith phone "+254") then "+254"
  else
    let digits := JS.removeNonDigits (JS.substringFrom 4 phone) in
    let limitedDigits := JS.substring 0 9 digits in
    "+254" ++ limitedDigits.

(** ** The hosted store and the environment of the client *)

(** A row of [users].  The columns that the store fills by default and
    that no handler below reads ([created_at], [updated_at]) are left
    out. *)
Module Users.
Record row := {
  id : string;
  name : string;
  phone_number : string;
  id_number : string;
  password : string;
  is_admin : bool;
}.
End Users.

(** A row of [sales] without its key: the table is a finite map from the
    conflict key [(user_id, month_year)] of the upsert to the rest of the
    row. *)
Module Sales.
Record row := {
  connections : Z;
  updated_at : string;
}.
End Sales.

Record Db := {
  users : list Users.row;
  sales : gmap (string * string) Sales.row;
}.

(** The fields of a time value in UTC.  [month] is the calendar month,
    1 to 12. *)
Record UTCFields := {
  year : Z;
  month : Z;
  day : Z;
  hours : Z;
  minutes : Z;
  seconds : Z;
  milliseconds : Z;
}.

(** A [Date] object: a time value, or the invalid date. *)
Inductive Date :=
| InvalidDate
| TimeValue (t : UTCFields).

(** Why a request was not served. *)
Inductive Fault :=
| Unreachable
| ForeignKeyViolation
| UniqueViolation
| PermissionDenied.

Record PostgrestError := { code : string }.

Definition fault_error (f : Fault) : PostgrestError :=
  {| code := match f with
             | Unreachable => ""
             | ForeignKeyViolation => "23503"
             | UniqueViolation => "23505"
             | PermissionDenied => "42501"
             end |}.

(** The error of [.single()] when the result is not exactly one row. *)
Definition PGRST116 : PostgrestError := {| code := "PGRST116" |}.

(** The error of a row that has [null] where the table wants a value. *)
Definition notNullViolation : PostgrestError := {| code := "23502" |}.

(** What a request resolves to: [{ data, error }]. *)
Record Response (A : Type) := {
  data : option A;
  error : option PostgrestError;
}.
Arguments data {A} _.
Arguments error {A} _.

Definition ok {A : Type} (a : A) : Response A :=
  {| data := Some a; error := None |}.
Definition failed {A : Type} (e : PostgrestError) : Response A :=
  {| data := None; error := Some e |}.

(** The world of a handler: the store, the session store of the device
    ([AsyncStorage]), the fate of the coming requests ([None]: served;
    an exhausted list serves everything), the clock, and the identifiers
    the store generates for new users. *)
Record World := {
  db : Db;
  session : gmap string string;
  net : list (option Fault);
  now : UTCFields;
  uuids : nat -> string;
  issued : nat;
}.

Definition set_db (d : Db) (w : World) : World :=
  {| db := d; session := session w; net := net w; now := now w;
     uuids := uuids w; issued := issued w |}.
Definition set_session (s : gmap string string) (w : World) : World :=
  {| db := db w; session := s; net := net w; now := now w;
     uuids := uuids w; issued := issued w |}.
Definition set_net (n : list (option Fault)) (w : World) : World :=
  {| db := db w; session := session w; net := n; now := now w;
     uuids := uuids w; issued := issued w |}.
Definition set_issued (i : nat) (w : World) : World :=
  {| db := db w; session := session w; net := net w; now := now w;
     uuids := uuids w; issued := i |}.

(** Handlers are [async] functions over the world. *)
Definition M (A : Type) : Type := World -> A * World.
Definition ret {A : Type} (a : A) : M A := fun w => (a, w).
Definition bind {A B : Type} (m : M A) (k : A -> M B) : M B :=
  fun w => let '(a, w') := m w in k a w'.

Notation "x <~ m ;; k" := (bind m (fun x => k))
  (at level 100, m at next level, right associativity).

(** One request: the environment decides whether it is served. *)
Definition request {A : Type} (serve : World -> Response A * World)
  : M (Response A) :=
  fun w =>
    match net w with
    | Some f :: rest => (failed (fault_error f), set_net rest w)
    | None :: rest => serve (set_net rest w)
    | [] => serve w
    end.

(** [.single()] *)
Definition single {A : Type} (rows : list A) : Response A :=
  match rows with
  | [r] => ok r
  | _ => failed PGRST116
  end.

(** [from('users').select(..).eq(column, value).single()] *)
Definition select_user_single (column : Users.row -> string) (value : string)
  : M (Response Users.row) :=
  request (fun w =>
    (single (filter (fun u => column u = value) (users (db w))), w)).

(** [from('users').insert([payload]).select().single()]: the store
    generates the identifier, which is the primary key. *)
Definition insert_user (phone name id_number password : string)
  (is_admin : bool) : M (Response Users.row) :=
  request (fun w =>
    let r := {| Users.id := uuids w (issued w); Users.name := name;
                Users.phone_number := phone; Users.id_number := id_number;
                Users.password := password; Users.is_admin := is_admin |} in
    if bool_decide (Users.id r ∈ Users.id <$> users (db w))
    then (failed (fault_error UniqueViolation), set_issued (S (issued w)) w)
    else (ok r,
          set_issued (S (issued w))
            (set_db {| users := users (db w) ++ [r];
                       sales := sales (db w) |} w))).

(** [from('sales').select('connections').eq('user_id', u)
     .eq('month_year', m).single()]; the count is the JSON number of the
    response. *)
Definition select_sale_single (user_id month_year : string) : M (Response Z) :=
  request (fun w =>
    (match sales (db w) !! (user_id, month_year) with
     | Some r => ok (Sales.connections r)
     | None => failed PGRST116
     end, w)).

(** [from('sales').upsert(row, { onConflict: 'user_id,month_year' })];
    [connections] is the count as the JSON text of the request has it: a
    number, or [null], which the counts of the table do not take. *)
Definition upsert_sale (user_id : string) (connections : option Z)
  (month_year updated_at : string) : M (Response unit) :=
  request (fun w =>
    match connections with
    | None => (failed notNullViolation, w)
    | Some c =>
        ({| data := None; error := None |},
         set_db {| users := users (db w);
                   sales := <[(user_id, month_year) :=
                                {| Sales.connections := c;
                                   Sales.updated_at := updated_at |}]>
                              (sales (db w)) |} w)
    end).

(** [AsyncStorage.setItem(key, value)] *)
Definition setItem (key value : string) : M unit :=
  fun w => (tt, set_session (<[key := value]> (session w)) w).

(** ** [Date.prototype.toISOString] *)

Definition digitChar (d : Z) : ascii := ascii_of_N (Z.to_N (48 + d)).

(** The last [width] decimal digits of [n], most significant first. *)
Fixpoint padDigits (width : nat) (n : Z) : string :=
  match width with
  | O => ""
  | S w => padDigits w (n / 10) ++ String (digitChar (n mod 10)) ""
  end.

(** Four digits for the years 0 to 9999, a sign and six digits for the
    others. *)
Definition isoYear (y : Z) : string :=
  if (0 <=? y) && (y <=? 9999) then padDigits 4 y
  else (if y <? 0 then "-" else "+") ++ padDigits 6 (Z.abs y).

Definition isoString (t : UTCFields) : string :=
  isoYear (year t) ++ "-" ++ padDigits 2 (month t) ++ "-"
  ++ padDigits 2 (day t) ++ "T" ++ padDigits 2 (hours t) ++ ":"
  ++ padDigits 2 (minutes t) ++ ":" ++ padDigits 2 (seconds t) ++ "."
  ++ padDigits 3 (milliseconds t) ++ "Z".

(** [None]: the [RangeError] of the invalid date. *)
Definition toISOString (d : Date) : option string :=
  match d with
  | InvalidDate => None
  | TimeValue t => Some (isoString t)
  end.




(** ** The calendar of the device *)




(** An error object [{ [key]: message }]: a field with a message is a
    key of the object. *)
Definition addError (key : string) (message : option string)
  (errors : gmap string string) : gmap string string :=
  match message with
  | Some m => <[key := m]> errors
  | None => errors
  end.

(** [Object.keys(errors).length === 0] *)
Definition noKeys (errors : gmap string string) : bool :=
  bool_decide (size errors = 0%nat).

(** ** [auth.tsx]: validation and registration *)

Module Auth.

Record FormData := {
  idNumber : string;
  phoneNumber : string;
  name : string;
  password : string;
  confirmPassword : string;
}.

Definition idNumberError (formData : FormData) : option string :=
  if bool_decide (JS.trim (idNumber formData) = "")
  then Some "ID number is required"
  else if (String.length (JS.trim (idNumber formData)) <? 8)%nat
  then Some "ID number must be at least 8 digits"
  else if negb (test_digits (JS.trim (idNumber formData)))
  then Some "ID number must contain only digits"
  else None.

Definition phoneNumberError (formData : FormData) : option string :=
  if bool_decide (JS.trim (phoneNumber formData) = "")
  then Some "Phone number is required"
  else
    let phoneDigits := JS.replace "+254" "" (phoneNumber formData) in
    if negb (test_17_d8 phoneDigits)
    then Some "Please enter 9 digits after +254 (starting with 1 or 7)"
    else None.

Definition nameError (formData : FormData) : option string :=
  if bool_decide (JS.trim (name formData) = "")
  then Some "Name is required"
  else if (String.length (JS.trim (name formData)) <? 2)%nat
  then Some "Name must be at least 2 characters"
  else None.

Definition passwordError (formData : FormData) : option string :=
  if bool_decide (JS.trim (password formData) = "")
  then Some "Password is required"
  else if (String.length (password formData) <? 6)%nat
  then Some "Password must be at least 6 characters"
  else None.

Definition confirmPasswordError (formData : FormData) : option string :=
  if bool_decide (JS.trim (confirmPassword formData) = "")
  then Some "Please confirm your password"
  else if negb (bool_decide (password formData = confirmPassword formData))
  then Some "Passwords do not match"
  else None.

Definition whenRegistering (isLogin : bool) (e : option string)
  : option string :=
  if isLogin then None else e.

(** The object [newErrors] that [validateForm] builds. *)
Definition newErrors (isLogin : bool) (formData : FormData)
  : gmap string string :=
  addError "confirmPassword"
    (whenRegistering isLogin (confirmPasswordError formData))
    (addError "password" (passwordError formData)
       (addError "name" (whenRegistering isLogin (nameError formData))
          (addError "phoneNumber" (phoneNumberError formData)
             (addError "idNumber"
                (whenRegistering isLogin (idNumberError formData)) ∅)))).

Definition validateForm (isLogin : bool) (formData : FormData) : bool :=
  noKeys (newErrors isLogin formData).

(** The value that registration and login send to the store. *)
Definition fullPhoneNumber (formData : FormData) : string :=
  let phoneDigits := JS.replace "+254" "" (phoneNumber formData) in
  "+254" ++ phoneDigits.

(** What the phone field holds after the text [text] was typed into it
    ([onChangeText]). *)
Definition typePhone (text : string) (formData : FormData) : FormData :=
  {| idNumber := idNumber formData;
     phoneNumber := formatPhoneNumber text;
     name := name formData;
     password := password formData;
     confirmPassword := confirmPassword formData |}.

(** The ways [handleRegister] ends.  The button of the form runs
    [handleRegister] when [isLogin] is false. *)
Inductive RegisterOutcome :=
| Invalid
| PhoneTaken
| IdNumberTaken
| RegistrationFailed
| Registered (id : string).

Definition handleRegister (formData : FormData) : M RegisterOutcome :=
  if negb (validateForm false formData) then ret Invalid
  else
    existingUser <~
      select_user_single Users.phone_number (fullPhoneNumber formData) ;;
    match data existingUser with
    | Some _ => ret PhoneTaken
    | None =>
        existingId <~
          select_user_single Users.id_number (JS.trim (idNumber formData)) ;;
        match data existingId with
        | Some _ => ret IdNumberTaken
        | None =>
            r <~ insert_user (fullPhoneNumber formData)
                   (JS.trim (name formData)) (JS.trim (idNumber formData))
                   (password formData) false ;;
            match error r, data r with
            | None, Some u =>
                _ <~ setItem "userId" (Users.id u) ;;
                _ <~ setItem "userName" (Users.name u) ;;
                ret (Registered (Users.id u))
            | _, _ => ret RegistrationFailed
            end
        end
    end.

End Auth.

(** The pattern of a stored phone number: [+254], then nine digits of
    which the first is 1 or 7. *)
Definition isStoredPhone (s : string) : bool :=
  JS.startsWith s "+254" && test_17_d8 (JS.skip 4 s).

(** ** [(tabs)/_layout.tsx]: the leaderboard page *)

Module Home.

Record zoneColorTable := {
  red : string;
  yellow : string;
  orange : string;
  lightGreen : string;
  darkGreen : string;
}.

Definition zoneColors : zoneColorTable :=
  {| red := "#EF4444"; yellow := "#F59E0B"; orange := "#F97316";
     lightGreen := "#10B981"; darkGreen := "#059669" |}.

Definition getZoneColor (connections : Z) : string :=
  if connections <? 5 then red zoneColors
  else if connections <=? 10 then yellow zoneColors
  else if connections <=? 15 then orange zoneColors
  else if connections <=? 20 then lightGreen zoneColors
  else darkGreen zoneColors.

(** A row of the leaderboard query, as the JSON text of the response
    has it: [user_id, connections, users!inner(name)]. *)
Module Joined.
Record row := {
  user_id : string;
  connections : Z;
  users : option string;
}.
End Joined.

Module Item.
Record LeaderboardItem := {
  user_id : string;
  name : string;
  connections : JS.number;
  rank : Z;
}.
End Item.

(** The order clause [{ ascending: false }] on [connections]. *)
Definition descending (a b : Joined.row) : Prop :=
  Joined.connections b <= Joined.connections a.

#[global] Instance descending_dec : RelDecision descending.
Proof. intros a b. unfold descending. apply _. Defined.

(** The inner join of one row of [sales] with [users]. *)
Definition joinUser (us : list Users.row) (month_year : string)
  (kv : string * string * Sales.row) : option Joined.row :=
  let '((uid, my), r) := kv in
  if bool_decide (my = month_year) then
    match List.find (fun u => bool_decide (Users.id u = uid)) us with
    | Some u => Some {| Joined.user_id := uid;
                        Joined.connections := Sales.connections r;
                        Joined.users := Some (Users.name u) |}
    | None => None
    end
  else None.

(** The rows that the leaderboard query selects: the sales of the
    month, joined, in the order of the order clause. *)
Definition leaderboardRows (d : Db) (month_year : string) : list Joined.row :=
  merge_sort descending
    (omap (joinUser (users d) month_year) (map_to_list (sales d))).

(** [from('sales').select('user_id, connections, users!inner(name)')
     .eq('month_year', m).order('connections', { ascending: false })] *)
Definition select_leaderboard (month_year : string)
  : M (Response (list Joined.row)) :=
  request (fun w => (ok (leaderboardRows (db w) month_year), w)).

(** [x || 0] on a number: 0 for [NaN] and for 0. *)
Definition orZero (x : JS.number) : JS.number :=
  match x with
  | JS.NaN => JS.Finite 0
  | JS.Finite z => if z =? 0 then JS.Finite 0 else x
  | _ => x
  end.

(** [item.users?.name || 'Unknown'] *)
Definition nameOrUnknown (users : option string) : string :=
  match users with
  | Some n => if bool_decide (n = "") then "Unknown" else n
  | None => "Unknown"
  end.

(** [(data || []).map((item, index) => ({ ..., rank: index + 1 }))];
    [item.connections] is the number that the client has read for the
    count of the row. *)
Definition rankedData (data : option (list Joined.row))
  : list Item.LeaderboardItem :=
  imap (fun index item =>
          {| Item.user_id := Joined.user_id item;
             Item.name := nameOrUnknown (Joined.users item);
             Item.connections :=
               orZero (JS.toNumber (Joined.connections item));
             Item.rank := Z.of_nat index + 1 |})
       (default [] data).

Definition newDate : M UTCFields := fun w => (now w, w).

Inductive FetchOutcome :=
| FetchFailed
| Loaded (leaderboard : list Item.LeaderboardItem).

(** [d.toISOString().slice(0, 7)] of a time value. *)
Definition monthString (t : UTCFields) : string := JS.slice 0 7 (isoString t).

Definition fetchLeaderboard : M FetchOutcome :=
  today <~ newDate ;;
  let currentMonth := monthString today in
  r <~ select_leaderboard currentMonth ;;
  match error r with
  | Some _ => ret FetchFailed
  | None => ret (Loaded (rankedData (data r)))
  end.

Record ModalFormData := {
  user_id : string;
  connections : string;
  date : option Date;
}.

Definition connectionsError (formData : ModalFormData) : option string :=
  if bool_decide (JS.trim (connections formData) = "")
  then Some "Connections are required"
  else
    let n := JS.parseInt (connections formData) in
    if JS.isNaN n || JS.ltb n (JS.Finite 0)
    then Some "Please enter a valid number (0 or greater)"
    else None.

(** The object [errors] that [validateForm] builds. *)
Definition formErrors (formData : ModalFormData) : gmap string string :=
  addError "date"
    (match date formData with
     | Some _ => None
     | None => Some "Please select a date"
     end)
    (addError "connections" (connectionsError formData)
       (addError "user_id"
          (if bool_decide (user_id formData = "")
           then Some "Please select a sales agent" else None) ∅)).

Definition validateForm (formData : ModalFormData) : bool :=
  noKeys (formErrors formData).

(** The month bucket of a submission: [date.toISOString().slice(0, 7)]. *)
Definition monthOf (d : Date) : option string :=
  JS.slice 0 7 <$> toISOString d.

(** By descending [connections], on the items of the leaderboard: the
    earlier item is not below the later. *)
Definition itemsDescending (a b : Item.LeaderboardItem) : Prop :=
  JS.ltb (Item.connections a) (Item.connections b) = false.

(** The ways [handleSubmit] ends; a saved submission refreshes the
    leaderboard. *)
Inductive SubmitOutcome :=
| Rejected
| SubmitFailed
| Saved (refresh : FetchOutcome).

Definition handleSubmit (formData : ModalFormData) : M SubmitOutcome :=
  if negb (validateForm formData) then ret Rejected
  else
    (* a date that [validateForm] has seen; [toISOString] throws on the
       invalid date, and the [catch] reports the failure *)
    match date formData ≫= monthOf with
    | None => ret SubmitFailed
    | Some currentMonth =>
        existing <~ select_sale_single (user_id formData) currentMonth ;;
        if match error existing with
           | Some fetchError =>
               negb (bool_decide (code fetchError = "PGRST116"))
           | None => false
           end
        then ret SubmitFailed
        else
          (* [existingData.connections] is the number that the client has
             read for the count of the record *)
          let currentConnections :=
            match data existing with
            | Some c => JS.toNumber c
            | None => JS.Finite 0
            end in
          let newConnections := JS.parseInt (connections formData) in
          let updatedConnections :=
            JS.add currentConnections newConnections in
          today <~ newDate ;;
          r <~ upsert_sale (user_id formData) (JS.toJSON updatedConnections)
                 currentMonth (isoString today) ;;
          match error r with
          | Some _ => ret SubmitFailed
          | None =>
              refresh <~ fetchLeaderboard ;;
              ret (Saved refresh)
          end
    end.

(** Submissions made one after the other. *)
Fixpoint submitAll (forms : list ModalFormData) : M (list SubmitOutcome) :=
  match forms with
  | [] => ret []
  | formData :: rest =>
      o <~ handleSubmit formData ;;
      os <~ submitAll rest ;;
      ret (o :: os)
  end.

End Home.


(** The coming request is served. *)
Definition served (w : World) : Prop :=
  match net w with
  | Some _ :: _ => False
  | _ => True
  end.

(** A store that serves every coming request. *)
Definition reliable (w : World) : Prop := Forall (fun f => f = None) (net w).

(** The stored total of a key, if the key has a record. *)
Definition storedConnections (w : World) (user_id month_year : string)
  : option Z :=
  Sales.connections <$> sales (db w) !! (user_id, month_year).

(** The total that a submission computes for the key of its month: the
    number that the client reads for the stored total, 0 without a
    record, plus the number of the form. *)
Definition newTotal (w : World) (formData : Home.ModalFormData)
  (month_year : string) : JS.number :=
  JS.add
    (JS.toNumber
       (default 0 (storedConnections w (Home.user_id formData) month_year)))
    (JS.parseInt (Home.connections formData)).

(** The world after a submission that was saved with the total [total]. *)
Definition savedWorld (formData : Home.ModalFormData) (month_year : string)
  (total : Z) (w : World) : World :=
  set_db {| users := users (db w);
            sales := <[(Home.user_id formData, month_year) :=
                         {| Sales.connections := total;
                            Sales.updated_at := isoString (now w) |}]>
                       (sales (db w)) |} w.

(** The form submits the non-negative delta [delta] to the key
    [(user_id, month_year)]: [delta] is the integer that the text of the
    form writes. *)
Definition submits (user_id month_year : string)
  (formData : Home.ModalFormData) (delta : Z) : Prop :=
  Home.user_id formData = user_id
  /\ Home.date formData ≫= Home.monthOf = Some month_year
  /\ JS.mathInt (Home.connections formData) = Some delta
  /\ 0 <= delta.

(** The delta that a form submits. *)
Definition deltaOf (formData : Home.ModalFormData) : Z :=
  default 0 (JS.mathInt (Home.connections formData)).

(** The count up to which every integer is a double: [2 ^ 53].  From
    there on a double has an even value. *)
Definition maxExact : Z := 2 ^ 53.

(** The integers that are doubles: the client reads them as they are. *)
Definition isDouble (z : Z) : Prop := JS.toNumber z = JS.Finite z.

(** The form of the modal, filled in. *)
Definition filledForm (user_id connections : string) (t : UTCFields)
  : Home.ModalFormData :=
  {| Home.user_id := user_id; Home.connections := connections;
     Home.date := Some (TimeValue t) |}.

(** The rendering [YYYY-MM] of the year and month of a time value. *)
Definition yearMonth (t : UTCFields) : string :=
  padDigits 4 (year t) ++ "-" ++ padDigits 2 (month t).

(** The invariant of [users]: no phone number and no ID number is held
    by two users. *)
Definition uniqueUsers (d : Db) : Prop :=
  NoDup (Users.phone_number <$> users d) /\ NoDup (Users.id_number <$> users d).

(** ** Sample data *)

Definition sampleForm : Auth.FormData :=
  {| Auth.idNumber := "87654321"; Auth.phoneNumber := "+254712345678";
     Auth.name := "Amina"; Auth.password := "secret";
     Auth.confirmPassword := "secret" |}.

Definition sampleTime : UTCFields :=
  {| year := 2025; month := 8; day := 3; hours := 10; minutes := 0;
     seconds := 5; milliseconds := 7 |}.

Definition sampleUser (id name phone id_number : string) : Users.row :=
  {| Users.id := id; Users.name := name; Users.phone_number := phone;
     Users.id_number := id_number; Users.password := "secret";
     Users.is_admin := false |}.

Definition sampleSale (connections : Z) : Sales.row :=
  {| Sales.connections := connections;
     Sales.updated_at := "2025-08-01T08:00:00.000Z" |}.

Definition sampleUsers : list Users.row :=
  [sampleUser "a" "Ann" "+254711111111" "11111111";
   sampleUser "b" "Bob" "+254722222222" "22222222";
   sampleUser "c" "Cy" "+254133333333" "33333333"].

Definition sampleWorld : World :=
  {| db := {| users := sampleUsers;
              sales := <[("a", "2025-08") := sampleSale 30]>
                         (<[("b", "2025-08") := sampleSale 10]>
                            (<[("c", "2025-08") := sampleSale 30]>
                               (<[("c", "2025-07") := sampleSale 99]> ∅))) |};
     session := ∅; net := []; now := sampleTime;
     uuids := fun n => "user-" ++ padDigits 4 (Z.of_nat n); issued := 0 |}.

Definition emptyWorld : World :=
  {| db := {| users := sampleUsers; sales := ∅ |};
     session := ∅; net := [None]; now := sampleTime;
     uuids := fun n => "user-" ++ padDigits 4 (Z.of_nat n); issued := 0 |}.

Definition sampleLeaderboard : list Home.Item.LeaderboardItem :=
  [{| Home.Item.user_id := "c"; Home.Item.name := "Cy";
      Home.Item.connections := JS.Finite 30; Home.Item.rank := 1 |};
   {| Home.Item.user_id := "a"; Home.Item.name := "Ann";
      Home.Item.connections := JS.Finite 30; Home.Item.rank := 2 |};
   {| Home.Item.user_id := "b"; Home.Item.name := "Bob";
      Home.Item.connections := JS.Finite 10; Home.Item.rank := 3 |}].

Definition sampleLater : UTCFields :=
  {| year := 2025; month := 8; day := 29; hours := 23; minutes := 59;
     seconds := 59; milliseconds := 999 |}.







(** Two submissions to a key without a record: [2 ^ 53], then 1. *)
Definition largeForms : list Home.ModalFormData :=
  [filledForm "b" "9007199254740992" sampleTime;
   filledForm "b" "1" sampleLater].

(** Three submissions, with the large delta first and with it last. *)
Definition largeFirst : list Home.ModalFormData :=
  [filledForm "b" "9007199254740992" sampleTime;
   filledForm "b" "1" sampleTime;
   filledForm "b" "1" sampleLater].

(** A store in which the record of [b] holds [2 ^ 53 + 1], which is not
    a double: the client reads it as [2 ^ 53]. *)
Definition oddWorld : World :=
  set_db {| users := sampleUsers;
            sales := <[("b", "2025-08") := sampleSale 9007199254740993]> ∅ |}
    sampleWorld.

Definition largeLast : list Home.ModalFormData :=
  [filledForm "b" "1" sampleTime;
   filledForm "b" "1" sampleLater;
   filledForm "b" "9007199254740992" sampleTime].

(** A registration with the phone number of a user of [sampleUsers],
    and a world whose coming request, the lookup of that phone number, is
    not served. *)
Definition duplicateForm : Auth.FormData :=
  {| Auth.idNumber := "87654321"; Auth.phoneNumber := "+254711111111";
     Auth.name := "Amina"; Auth.password := "secret";
     Auth.confirmPassword := "secret" |}.

Definition lookupFails : World := set_net [Some Unreachable] sampleWorld.

(** A store in which a phone number is already held by two users. *)
Definition twiceWorld : World :=
  set_db {| users := sampleUsers
                     ++ [sampleUser "d" "Dee" "+254711111111" "44444444"];
            sales := ∅ |} sampleWorld.

(** ** The rest of the screens *)

(** [AsyncStorage.getItem(key)] and [AsyncStorage.removeItem(key)] *)
Definition getItem (key : string) : M (option string) :=
  fun w => (session w !! key, w).

Definition removeItem (key : string) : M unit :=
  fun w => (tt, set_session (delete key (session w)) w).

(** [if (s)] on a string or [null]. *)
Definition truthy (s : option string) : bool :=
  match s with
  | Some v => negb (bool_decide (v = ""))
  | None => false
  end.

Definition withName (name : string) (u : Users.row) : Users.row :=
  {| Users.id := Users.id u; Users.name := name;
     Users.phone_number := Users.phone_number u;
     Users.id_number := Users.id_number u;
     Users.password := Users.password u; Users.is_admin := Users.is_admin u |}.

Definition withPassword (password : string) (u : Users.row) : Users.row :=
  {| Users.id := Users.id u; Users.name := Users.name u;
     Users.phone_number := Users.phone_number u;
     Users.id_number := Users.id_number u;
     Users.password := password; Users.is_admin := Users.is_admin u |}.

(** [from('users').update(patch).eq('id', id)]: the patch is applied to
    the rows of that identifier; no row is not an error. *)
Definition update_user (patch : Users.row -> Users.row) (id : string)
  : M (Response unit) :=
  request (fun w =>
    ({| data := None; error := None |},
     set_db {| users := (fun u => if bool_decide (Users.id u = id)
                                  then patch u else u) <$> users (db w);
               sales := sales (db w) |} w)).

(** *** [auth.tsx]: login, and the start of the application *)

Module AuthPage.

(** The ID number field, [onChangeText]. *)
Definition typeIdNumber (text : string) (formData : Auth.FormData)
  : Auth.FormData :=
  {| Auth.idNumber := JS.removeNonDigits text;
     Auth.phoneNumber := Auth.phoneNumber formData;
     Auth.name := Auth.name formData;
     Auth.password := Auth.password formData;
     Auth.confirmPassword := Auth.confirmPassword formData |}.

(** The ways [handleLogin] ends.  The button of the form runs
    [handleLogin] when [isLogin] is true.  The [catch] of the handler is
    for an exception of the session store, which the model does not
    have. *)
Inductive LoginOutcome :=
| LoginInvalid
| PhoneNotFound
| WrongPassword
| LoggedIn (id : string).

Definition handleLogin (formData : Auth.FormData) : M LoginOutcome :=
  if negb (Auth.validateForm true formData) then ret LoginInvalid
  else
    r <~ select_user_single Users.phone_number
           (Auth.fullPhoneNumber formData) ;;
    match error r, data r with
    | None, Some user =>
        if negb (bool_decide (Users.password user = Auth.password formData))
        then ret WrongPassword
        else
          _ <~ setItem "userId" (Users.id user) ;;
          _ <~ setItem "userName" (Users.name user) ;;
          ret (LoggedIn (Users.id user))
    | _, _ => ret PhoneNotFound
    end.

End AuthPage.

Module RootLayout.

(** [checkSession] of [RootLayout]: the initial route. *)
Definition checkSession : M string :=
  userId <~ getItem "userId" ;;
  if truthy userId then
    r <~ select_user_single Users.id (default "" userId) ;;
    match data r, error r with
    | Some _, None => ret "(tabs)"
    | _, _ => ret "auth"
    end
  else ret "auth".

End RootLayout.

(** *** [(tabs)/_layout.tsx]: the tabs and the profile page *)

Module TabLayout.

Definition handleLogout : M unit :=
  _ <~ removeItem "userId" ;;
  removeItem "userName".

End TabLayout.

Module Profile.

Record UserProfile := {
  id : string;
  name : string;
  is_admin : bool;
}.

Record FormData := {
  formName : string;
  currentPassword : string;
  newPassword : string;
  confirmPassword : string;
}.

Definition nameError (formData : FormData) : option string :=
  if bool_decide (JS.trim (formName formData) = "")
  then Some "Name is required"
  else if (String.length (JS.trim (formName formData)) <? 2)%nat
  then Some "Name must be at least 2 characters long"
  else if (50 <? String.length (JS.trim (formName formData)))%nat
  then Some "Name must be less than 50 characters"
  else None.

Definition validateNameForm (formData : FormData) : bool :=
  noKeys (addError "name" (nameError formData) ∅).

(** The object [errors] that [validatePasswordForm] builds; the last
    assignment to [errors.newPassword] replaces an earlier one. *)
Definition passwordErrors (formData : FormData) : gmap string string :=
  addError "newPassword"
    (if bool_decide (currentPassword formData = newPassword formData)
     then Some "New password must be different from current password"
     else None)
    (addError "confirmPassword"
       (if bool_decide (confirmPassword formData = "")
        then Some "Please confirm your new password"
        else if negb (bool_decide (newPassword formData
                                   = confirmPassword formData))
        then Some "Passwords do not match"
        else None)
       (addError "newPassword"
          (if bool_decide (newPassword formData = "")
           then Some "New password is required"
           else if (String.length (newPassword formData) <? 6)%nat
           then Some "New password must be at least 6 characters"
           else None)
          (addError "currentPassword"
             (if bool_decide (currentPassword formData = "")
              then Some "Current password is required" else None) ∅))).

Definition validatePasswordForm (formData : FormData) : bool :=
  noKeys (passwordErrors formData).

Inductive LoadOutcome :=
| NoSession
| ProfileLoadFailed
| ProfileLoaded (userProfile : UserProfile).

Definition loadUserProfile : M LoadOutcome :=
  userId <~ getItem "userId" ;;
  if negb (truthy userId) then ret NoSession
  else
    r <~ select_user_single Users.id (default "" userId) ;;
    match error r, data r with
    | None, Some userData =>
        ret (ProfileLoaded {| id := Users.id userData;
                              name := Users.name userData;
                              is_admin := Users.is_admin userData |})
    | _, _ =>
        _ <~ removeItem "userId" ;;
        ret ProfileLoadFailed
    end.

Inductive NameOutcome :=
| NameInvalid
| NameUpdateFailed
| NameUpdated.

(** [userProfile] is the state of the page; [userProfile!.id] throws
    when it is [null], before a request is made. *)
Definition handleUpdateName (userProfile : option UserProfile)
  (formData : FormData) : M NameOutcome :=
  if negb (validateNameForm formData) then ret NameInvalid
  else
    match userProfile with
    | None => ret NameUpdateFailed
    | Some profile =>
        r <~ update_user (withName (JS.trim (formName formData)))
               (id profile) ;;
        match error r with
        | Some _ => ret NameUpdateFailed
        | None => ret NameUpdated
        end
    end.

Inductive PasswordOutcome :=
| PasswordInvalid
| CurrentPasswordIncorrect
| PasswordChangeFailed
| PasswordChanged.

Definition handleChangePassword (userProfile : option UserProfile)
  (formData : FormData) : M PasswordOutcome :=
  if negb (validatePasswordForm formData) then ret PasswordInvalid
  else
    match userProfile with
    | None => ret PasswordChangeFailed
    | Some profile =>
        r <~ select_user_single Users.id (id profile) ;;
        match error r, data r with
        | None, Some userData =>
            if negb (bool_decide (Users.password userData
                                  = currentPassword formData))
            then ret CurrentPasswordIncorrect
            else
              r' <~ update_user (withPassword (newPassword formData))
                      (id profile) ;;
              match error r' with
              | Some _ => ret PasswordChangeFailed
              | None => ret PasswordChanged
              end
        | _, _ => ret PasswordChangeFailed
        end
    end.

(** The logout of the profile page, once confirmed. *)
Definition handleLogout : M unit := removeItem "userId".

End Profile.

(** *** [(tabs)/_layout.tsx]: more of the leaderboard page *)

Module HomePage.

(** The connections field, [onChangeText]: [text.replace(/[^0-9]/g, '')]. *)
Definition typeConnections (text : string) (formData : Home.ModalFormData)
  : Home.ModalFormData :=
  {| Home.user_id := Home.user_id formData;
     Home.connections := JS.keep JS.isDigit text;
     Home.date := Home.date formData |}.

Record User := {
  id : string;
  name : string;
}.

Definition selectUser (user : User) (formData : Home.ModalFormData)
  : Home.ModalFormData :=
  {| Home.user_id := id user;
     Home.connections := Home.connections formData;
     Home.date := Home.date formData |}.

(** [formatDate] of the form; [None] is the [RangeError] of the invalid
    date. *)
Definition formatDate (date : option Date) : option string :=
  match date with
  | None => Some "Select a date"
  | Some d => JS.slice 0 10 <$> toISOString d
  end.


Inductive UsersOutcome :=
| UsersFailed
| UsersLoaded (users : list User).

Inductive SessionOutcome :=
| SessionExpired
| UserLoadFailed
| SessionChecked (isAdmin : bool) (leaderboard : Home.FetchOutcome)
    (users : UsersOutcome).

(** The order of [.order('name')] is the collation of the column, which
    is not part of the sources. *)
Section Collation.

Context (collate : relation string) `{!RelDecision collate}.

Definition byName (a b : User) : Prop := collate (name a) (name b).

#[global] Instance byName_dec : RelDecision byName.
Proof. intros a b. unfold byName. apply _. Defined.

(** [from('users').select('id, name').order('name')] *)
Definition select_users : M (Response (list User)) :=
  request (fun w =>
    (ok (merge_sort byName
           ((fun u => {| id := Users.id u; name := Users.name u |})
              <$> users (db w))), w)).

Definition fetchUsers : M UsersOutcome :=
  r <~ select_users ;;
  match error r with
  | Some _ => ret UsersFailed
  | None => ret (UsersLoaded (default [] (data r)))
  end.

(** [checkSession] of the leaderboard page.  The two fetches are started
    without [await] and run side by side; neither writes to the store
    or reads what the other leaves, and each request is answered on its
    own, so that the model runs them one after the other, in the order
    in which they are started. *)
Definition checkSession : M SessionOutcome :=
  userId <~ getItem "userId" ;;
  if negb (truthy userId) then ret SessionExpired
  else
    r <~ select_user_single Users.id (default "" userId) ;;
    match error r, data r with
    | None, Some userData =>
        leaderboard <~ Home.fetchLeaderboard ;;
        users <~ fetchUsers ;;
        ret (SessionChecked (bool_decide (Users.is_admin userData = true))
               leaderboard users)
    | _, _ =>
        _ <~ removeItem "userId" ;;
        ret UserLoadFailed
    end.

End Collation.

End HomePage.

(** The users after [update(patch).eq('id', id)]. *)
Definition patchedUsers (patch : Users.row -> Users.row) (id : string)
  (us : list Users.row) : list Users.row :=
  (fun u => if bool_decide (Users.id u = id) then patch u else u) <$> us.

(** The user and the count of each entry of a leaderboard. *)
Definition leaderboardPairs (leaderboard : list Home.Item.LeaderboardItem)
  : list (string * JS.number) :=
  (fun item => (Home.Item.user_id item, Home.Item.connections item))
    <$> leaderboard.

(** The requests to come, [n], after a request of [w] was served. *)
Definition servedRest (w : World) (n : list (option Fault)) : Prop :=
  net w = None :: n \/ net w = [] /\ n = [].

(** The row that a registration inserts. *)
Definition newUser (formData : Auth.FormData) (w : World) : Users.row :=
  {| Users.id := uuids w (issued w);
     Users.name := JS.trim (Auth.name formData);
     Users.phone_number := Auth.fullPhoneNumber formData;
     Users.id_number := JS.trim (Auth.idNumber formData);
     Users.password := Auth.password formData;
     Users.is_admin := false |}.

(** The world after a registration, but for the requests to come. *)
Definition registeredWorld (formData : Auth.FormData) (w : World) : World :=
  set_session (<["userName" := JS.trim (Auth.name formData)]>
                 (<["userId" := uuids w (issued w)]> (session w)))
    (set_issued (S (issued w))
       (set_db {| users := users (db w) ++ [newUser formData w];
                  sales := sales (db w) |} w)).

(** The session after a login or a registration of the user. *)
Definition loggedInSession (u : Users.row) (w : World) : World :=
  set_session (<["userName" := Users.name u]>
                 (<["userId" := Users.id u]> (session w))) w.

Definition sampleProfile : Profile.UserProfile :=
  {| Profile.id := "a"; Profile.name := "Ann"; Profile.is_admin := false |}.

Definition samplePasswordForm : Profile.FormData :=
  {| Profile.formName := "Ann"; Profile.currentPassword := "secret";
     Profile.newPassword := "letmein"; Profile.confirmPassword := "letmein" |}.

Definition blankPasswordForm : Profile.FormData :=
  {| Profile.formName := "Ann"; Profile.currentPassword := "secret";
     Profile.newPassword := "      "; Profile.confirmPassword := "      " |}.

(** A world with the session of user [a], and the same when the coming
    request is not served. *)
Definition sessionWorld : World :=
  set_session (<["userName" := "Ann"]> (<["userId" := "a"]> ∅)) sampleWorld.

Definition offlineWorld : World := set_net [Some Unreachable] sessionWorld.

Definition sampleLogin (phone password : string) : Auth.FormData :=
  {| Auth.idNumber := ""; Auth.phoneNumber := phone; Auth.name := "";
     Auth.password := password; Auth.confirmPassword := "" |}.

(** * Properties *)

(** ** Strings *)

Section StringFacts.

Variable p : ascii -> bool.

Lemma all_keep (s : string) : JS.all p (JS.keep p s) = true.
Proof.
  induction s as [|c r IH]; simpl; [reflexivity|].
  destruct (p c) eqn:Hc; simpl; [rewrite Hc|]; auto.
Qed.

Lemma keep_all (s : string) : JS.all p s = true -> JS.keep p s = s.
Proof.
  induction s as [|c r IH]; simpl; [reflexivity|].
  intros [Hc Hr]%andb_true_iff. rewrite Hc, IH; auto.
Qed.

Lemma all_take (n : nat) (s : string) :
  JS.all p s = true -> JS.all p (JS.take n s) = true.
Proof.
  revert s; induction n as [|n IH]; intros [|c r]; simpl; auto.
  intros [Hc Hr]%andb_true_iff. rewrite Hc; simpl; auto.
Qed.

Lemma all_app (s t : string) :
  JS.all p (s ++ t) = JS.all p s && JS.all p t.
Proof.
  induction s as [|c r IH]; simpl; [reflexivity|].
  rewrite IH. apply andb_assoc.
Qed.

End StringFacts.

(** A string that starts with [p] is [p] and the rest. *)
Lemma startsWith_skip (s p : string) :
  JS.startsWith s p = true -> s = p ++ JS.skip (String.length p) s.
Proof.
  revert s; induction p as [|a p IH]; intros s; [reflexivity|].
  destruct s as [|b s]; [discriminate|]. cbn [JS.startsWith].
  intros [Hab Hs]%andb_true_iff. apply Ascii.eqb_eq in Hab. subst b.
  cbn [String.length JS.skip].
  change (String a p ++ JS.skip (String.length p) s)
    with (String a (p ++ JS.skip (String.length p) s)).
  f_equal. now apply IH.
Qed.

Lemma length_take (n : nat) (s : string) :
  (String.length (JS.take n s) <= n)%nat.
Proof.
  revert s; induction n as [|n IH]; intros [|c r]; simpl; try lia.
  specialize (IH r). lia.
Qed.

Lemma take_short (n : nat) (s : string) :
  (String.length s <= n)%nat -> JS.take n s = s.
Proof.
  revert s; induction n as [|n IH]; intros [|c r]; simpl; auto; try lia.
  intros H. rewrite IH; auto. lia.
Qed.

Lemma trimStart_empty (s : string) :
  JS.trimStart s = "" <-> JS.all JS.isWhiteSpace s = true.
Proof.
  induction s as [|c r IH]; simpl; [tauto|].
  destruct (JS.isWhiteSpace c); simpl; [exact IH|].
  split; discriminate.
Qed.

Lemma trimStart_all (s : string) :
  JS.all JS.isWhiteSpace (JS.trimStart s) = JS.all JS.isWhiteSpace s.
Proof.
  induction s as [|c r IH]; simpl; [reflexivity|].
  destruct (JS.isWhiteSpace c) eqn:Hc; simpl; [exact IH|].
  now rewrite Hc.
Qed.

Lemma trimEnd_empty (s : string) :
  JS.trimEnd s = "" <-> JS.all JS.isWhiteSpace s = true.
Proof.
  induction s as [|c r IH]; simpl; [tauto|].
  destruct (JS.trimEnd r) eqn:Hr.
  - destruct (JS.isWhiteSpace c); simpl; [tauto|]. split; discriminate.
  - split; [discriminate|].
    intros [_ H]%andb_true_iff. apply IH in H. discriminate.
Qed.

(** [s.trim()] is empty exactly for a string of white space. *)
Lemma trim_empty (s : string) :
  JS.trim s = "" <-> JS.all JS.isWhiteSpace s = true.
Proof. unfold JS.trim. now rewrite trimEnd_empty, trimStart_all. Qed.

(** ** Numbers *)

Lemma roundToDouble_exact (n : Z) :
  0 <= n <= 2 ^ 53 -> JS.roundToDouble n = n.
Proof.
  intros [H0 Hn]. unfold JS.roundToDouble.
  destruct (Z.eq_dec n (2 ^ 53)) as [->|Hne]; [vm_compute; reflexivity|].
  assert (Hlog : Z.log2 n < 53).
  { destruct (Z.eq_dec n 0) as [->|H1]; [simpl; lia|].
    apply Z.log2_lt_pow2; lia. }
  destruct (Z.leb_spec (Z.log2 n - 52) 0); [reflexivity|lia].
Qed.

(** The two multiples of [2 ^ e] around [n], when [n] has more than 53
    bits. *)
Lemma roundToDouble_cases (n : Z) :
  2 ^ 53 <= n ->
  let e := Z.log2 n - 52 in
  let q := n / 2 ^ e in
  let r := n mod 2 ^ e in
  0 < e /\ 2 ^ 52 <= q < 2 ^ 53 /\ 0 <= r < 2 ^ e /\ n = q * 2 ^ e + r
  /\ (JS.roundToDouble n = q * 2 ^ e
      /\ (r < 2 ^ (e - 1) \/ r = 2 ^ (e - 1) /\ Z.even q = true)
      \/ JS.roundToDouble n = (q + 1) * 2 ^ e
         /\ (2 ^ (e - 1) < r \/ r = 2 ^ (e - 1) /\ Z.even q = false)).
Proof.
  intros Hn e q r.
  assert (Hpos : 0 < n) by (pose proof (Z.pow_pos_nonneg 2 53); lia).
  pose proof (Z.log2_spec n Hpos) as [Hlo Hhi].
  assert (Hk : 53 <= Z.log2 n).
  { apply Z.log2_le_pow2; [exact Hpos|exact Hn]. }
  assert (He : 0 < e) by (subst e; lia).
  assert (Hpe : 0 < 2 ^ e) by (apply Z.pow_pos_nonneg; lia).
  assert (Hsplit : 2 ^ Z.log2 n = 2 ^ 52 * 2 ^ e).
  { rewrite <- Z.pow_add_r by lia. f_equal. subst e. lia. }
  assert (Hsplit' : 2 ^ Z.succ (Z.log2 n) = 2 ^ 53 * 2 ^ e).
  { rewrite <- Z.pow_add_r by lia. f_equal. subst e. lia. }
  pose proof (Z.div_mod n (2 ^ e) ltac:(lia)) as Hdm.
  pose proof (Z.mod_pos_bound n (2 ^ e) Hpe) as Hr.
  fold q r in Hdm, Hr.
  assert (Hq : 2 ^ 52 <= q < 2 ^ 53).
  { split.
    - subst q. apply Z.div_le_lower_bound; [exact Hpe|]. lia.
    - subst q. apply Z.div_lt_upper_bound; [exact Hpe|]. lia. }
  split; [exact He|]. split; [exact Hq|]. split; [exact Hr|].
  split; [lia|].
  unfold JS.roundToDouble. fold e. fold q. fold r.
  destruct (Z.leb_spec e 0); [lia|].
  destruct (Z.ltb_spec r (2 ^ (e - 1))); cbn [orb].
  - left. split; [reflexivity|now left].
  - destruct (Z.eqb_spec r (2 ^ (e - 1))); cbn [andb].
    + destruct (Z.even q) eqn:Hev.
      * left. split; [reflexivity|now right].
      * right. split; [reflexivity|now right].
    + right. split; [reflexivity|left; lia].
Qed.

Lemma roundToDouble_bounds (n : Z) :
  2 ^ 53 <= n ->
  2 ^ Z.log2 n <= JS.roundToDouble n <= 2 ^ (Z.log2 n + 1).
Proof.
  intros Hn.
  destruct (roundToDouble_cases n Hn) as (He & Hq & Hr & Hdec & Hround).
  set (e := Z.log2 n - 52) in *.
  set (q := n / 2 ^ e) in *.
  assert (Hpe : 0 < 2 ^ e) by (apply Z.pow_pos_nonneg; lia).
  assert (H1 : 2 ^ Z.log2 n = 2 ^ 52 * 2 ^ e).
  { rewrite <- Z.pow_add_r by lia. f_equal. subst e. lia. }
  assert (H2 : 2 ^ (Z.log2 n + 1) = 2 ^ 53 * 2 ^ e).
  { rewrite <- Z.pow_add_r by lia. f_equal. subst e. lia. }
  rewrite H1, H2.
  destruct Hround as [[-> _]|[-> _]]; nia.
Qed.

Lemma roundToDouble_nonneg (n : Z) : 0 <= n -> 0 <= JS.roundToDouble n.
Proof.
  intros Hn. destruct (Z.le_gt_cases n (2 ^ 53)) as [H|H].
  - now rewrite roundToDouble_exact.
  - pose proof (roundToDouble_bounds n ltac:(lia)) as [Hlo _].
    pose proof (Z.pow_pos_nonneg 2 (Z.log2 n) ltac:(lia)
                  (Z.log2_nonneg n)). lia.
Qed.

(** Rounding keeps the order. *)
Lemma roundToDouble_mono (a b : Z) :
  0 <= a <= b -> JS.roundToDouble a <= JS.roundToDouble b.
Proof.
  intros [Ha Hab].
  destruct (Z.le_gt_cases b (2 ^ 53)) as [Hb|Hb].
  { rewrite !roundToDouble_exact by lia. exact Hab. }
  destruct (Z.le_gt_cases a (2 ^ 53)) as [Ha53|Ha53].
  { rewrite (roundToDouble_exact a) by lia.
    pose proof (roundToDouble_bounds b ltac:(lia)) as [Hlo _].
    assert (2 ^ 53 <= 2 ^ Z.log2 b).
    { apply Z.pow_le_mono_r; [lia|]. apply Z.log2_le_pow2; lia. }
    lia. }
  destruct (Z.eq_dec (Z.log2 a) (Z.log2 b)) as [Hk|Hk].
  - destruct (roundToDouble_cases a ltac:(lia)) as (He & Hqa & Hra & Hda & Hrounda).
    destruct (roundToDouble_cases b ltac:(lia)) as (_ & Hqb & Hrb & Hdb & Hroundb).
    rewrite Hk in *.
    set (e := Z.log2 b - 52) in *.
    set (qa := a / 2 ^ e) in *. set (qb := b / 2 ^ e) in *.
    set (ra := a mod 2 ^ e) in *. set (rb := b mod 2 ^ e) in *.
    assert (Hpe : 0 < 2 ^ e) by (apply Z.pow_pos_nonneg; lia).
    assert (Hq : qa <= qb) by (subst qa qb; apply Z.div_le_mono; lia).
    destruct (Z.eq_dec qa qb) as [Heq|Hne].
    + rewrite Heq in *.
      assert (Hr : ra <= rb) by nia.
      destruct Hrounda as [[-> _]|[-> Hup]];
        destruct Hroundb as [[-> Hdown]|[-> _]]; try nia.
      destruct Hup as [Hup|[Hup Hodd]]; destruct Hdown as [Hdown|[Hdown Hev]];
        try lia; congruence.
    + assert (qa + 1 <= qb) by lia.
      destruct Hrounda as [[-> _]|[-> _]];
        destruct Hroundb as [[-> _]|[-> _]]; nia.
  - assert (Hlt : Z.log2 a < Z.log2 b).
    { pose proof (Z.log2_le_mono a b Hab). lia. }
    pose proof (roundToDouble_bounds a ltac:(lia)) as [_ Hhi].
    pose proof (roundToDouble_bounds b ltac:(lia)) as [Hlo _].
    assert (2 ^ (Z.log2 a + 1) <= 2 ^ Z.log2 b)
      by (apply Z.pow_le_mono_r; lia).
    lia.
Qed.

Lemma roundToDouble_multiple (e q : Z) :
  0 < e -> 2 ^ 52 <= q < 2 ^ 53 ->
  JS.roundToDouble (q * 2 ^ e) = q * 2 ^ e.
Proof.
  intros He Hq.
  assert (Hpe : 0 < 2 ^ e) by (apply Z.pow_pos_nonneg; lia).
  assert (Hlog : Z.log2 (q * 2 ^ e) = 52 + e).
  { apply Z.log2_unique; [lia|].
    rewrite Z.pow_succ_r, Z.pow_add_r by lia. nia. }
  unfold JS.roundToDouble. rewrite Hlog.
  replace (52 + e - 52) with e by lia.
  destruct (Z.leb_spec e 0); [reflexivity|].
  rewrite Z.div_mul, Z.mod_mul by lia.
  assert (0 < 2 ^ (e - 1)) by (apply Z.pow_pos_nonneg; lia).
  destruct (Z.ltb_spec 0 (2 ^ (e - 1))); [reflexivity|lia].
Qed.

(** What rounding gives is a double: rounding it again changes nothing. *)
Lemma roundToDouble_idempotent (n : Z) :
  0 <= n -> JS.roundToDouble (JS.roundToDouble n) = JS.roundToDouble n.
Proof.
  intros Hn. destruct (Z.le_gt_cases n (2 ^ 53)) as [H|H].
  { rewrite !(roundToDouble_exact n) by lia. reflexivity. }
  destruct (roundToDouble_cases n ltac:(lia)) as (He & Hq & Hr & Hd & Hround).
  set (e := Z.log2 n - 52) in *. set (q := n / 2 ^ e) in *.
  destruct Hround as [[-> _]|[-> _]].
  - apply roundToDouble_multiple; lia.
  - destruct (Z.eq_dec (q + 1) (2 ^ 53)) as [->|Hne].
    + replace (2 ^ 53 * 2 ^ e) with (2 ^ 52 * 2 ^ (e + 1))
        by (rewrite Z.pow_add_r by lia; lia).
      apply roundToDouble_multiple; lia.
    + apply roundToDouble_multiple; lia.
Qed.

Lemma toNumber_exact (z : Z) :
  - 2 ^ 53 <= z <= 2 ^ 53 -> JS.toNumber z = JS.Finite z.
Proof.
  intros Hz. unfold JS.toNumber.
  destruct (Z.leb_spec 0 z).
  - rewrite roundToDouble_exact by lia.
    destruct (Z.leb_spec (2 ^ 1024) z); [lia|reflexivity].
  - rewrite roundToDouble_exact by lia.
    destruct (Z.leb_spec (2 ^ 1024) (- z)); [lia|]. f_equal. lia.
Qed.

(** A number that [toNumber] gives is read back as it is. *)
Lemma toNumber_idempotent (z d : Z) :
  JS.toNumber z = JS.Finite d -> JS.toNumber d = JS.Finite d.
Proof.
  unfold JS.toNumber at 1.
  destruct (Z.leb_spec 0 z) as [Hz|Hz].
  - destruct (Z.leb_spec (2 ^ 1024) (JS.roundToDouble z)) as [|Hlt];
      [discriminate|]. intros [= <-].
    pose proof (roundToDouble_nonneg z Hz) as H0.
    unfold JS.toNumber. destruct (Z.leb_spec 0 (JS.roundToDouble z)); [|lia].
    rewrite roundToDouble_idempotent by exact Hz.
    destruct (Z.leb_spec (2 ^ 1024) (JS.roundToDouble z)); [lia|reflexivity].
  - destruct (Z.leb_spec (2 ^ 1024) (JS.roundToDouble (- z))) as [|Hlt];
      [discriminate|]. intros [= <-].
    pose proof (roundToDouble_nonneg (- z) ltac:(lia)) as H0.
    unfold JS.toNumber.
    destruct (Z.leb_spec 0 (- JS.roundToDouble (- z))) as [Hle|Hgt].
    + assert (Hzero : JS.roundToDouble (- z) = 0) by lia.
      rewrite Hzero. reflexivity.
    + rewrite Z.opp_involutive.
      rewrite roundToDouble_idempotent by lia.
      destruct (Z.leb_spec (2 ^ 1024) (JS.roundToDouble (- z)));
        [lia|reflexivity].
Qed.

(** [toNumber] keeps the order: the number of the larger integer is not
    below the number of the smaller. *)
Lemma toNumber_mono (a b : Z) :
  a <= b -> JS.ltb (JS.toNumber b) (JS.toNumber a) = false.
Proof.
  intros Hab. unfold JS.toNumber.
  destruct (Z.leb_spec 0 a) as [Ha|Ha], (Z.leb_spec 0 b) as [Hb|Hb]; try lia.
  - pose proof (roundToDouble_mono a b ltac:(lia)) as Hm.
    destruct (Z.leb_spec (2 ^ 1024) (JS.roundToDouble a)),
      (Z.leb_spec (2 ^ 1024) (JS.roundToDouble b)); cbn [JS.ltb];
      try reflexivity; lia.
  - pose proof (roundToDouble_nonneg (- a) ltac:(lia)) as H1.
    pose proof (roundToDouble_nonneg b Hb) as H2.
    destruct (Z.leb_spec (2 ^ 1024) (JS.roundToDouble (- a))),
      (Z.leb_spec (2 ^ 1024) (JS.roundToDouble b)); cbn [JS.ltb];
      try reflexivity; lia.
  - pose proof (roundToDouble_mono (- b) (- a) ltac:(lia)) as Hm.
    destruct (Z.leb_spec (2 ^ 1024) (JS.roundToDouble (- a))),
      (Z.leb_spec (2 ^ 1024) (JS.roundToDouble (- b))); cbn [JS.ltb];
      try reflexivity; lia.
Qed.

(** From [2 ^ 1024] on, the number of an integer is [Infinity]. *)
Lemma toNumber_infinite (z : Z) : 2 ^ 1024 <= z -> JS.toNumber z = JS.Infinity.
Proof.
  intros Hz.
  assert (H1024 : 2 ^ 53 <= 2 ^ 1024) by (apply Z.pow_le_mono_r; lia).
  assert (Hpos : 0 < 2 ^ 53) by (apply Z.pow_pos_nonneg; lia).
  pose proof (roundToDouble_bounds z ltac:(lia)) as [Hlo _].
  assert (Hlog : 2 ^ 1024 <= 2 ^ Z.log2 z).
  { apply Z.pow_le_mono_r; [lia|]. apply Z.log2_le_pow2; lia. }
  unfold JS.toNumber. destruct (Z.leb_spec 0 z); [|lia].
  destruct (Z.leb_spec (2 ^ 1024) (JS.roundToDouble z)); [reflexivity|lia].
Qed.

Lemma toNumber_zero : JS.toNumber 0 = JS.Finite 0.
Proof. reflexivity. Qed.

Lemma toNumber_nonneg (z d : Z) :
  0 <= z -> JS.toNumber z = JS.Finite d -> 0 <= d.
Proof.
  intros Hz. unfold JS.toNumber. destruct (Z.leb_spec 0 z); [|lia].
  destruct (Z.leb_spec (2 ^ 1024) (JS.roundToDouble z)); [discriminate|].
  intros [= <-]. now apply roundToDouble_nonneg.
Qed.

(** The number of an integer that is not negative is not negative, and
    it is not [NaN]. *)
Lemma toNumber_nonneg_cases (z : Z) :
  0 <= z ->
  (exists d, JS.toNumber z = JS.Finite d /\ 0 <= d)
  \/ JS.toNumber z = JS.Infinity.
Proof.
  intros Hz. unfold JS.toNumber. destruct (Z.leb_spec 0 z); [|lia].
  destruct (Z.leb_spec (2 ^ 1024) (JS.roundToDouble z)); [now right|].
  left. eexists. split; [reflexivity|]. now apply roundToDouble_nonneg.
Qed.


Lemma isDouble_exact (z : Z) : - maxExact <= z <= maxExact -> isDouble z.
Proof. apply toNumber_exact. Qed.

(** ** Decimal digits *)

Lemma digitChar_code (d : Z) :
  0 <= d <= 9 -> Z.of_N (N_of_ascii (digitChar d)) = 48 + d.
Proof.
  intros H. unfold digitChar. rewrite N_ascii_embedding by lia. lia.
Qed.

Lemma isDigit_digitChar (d : Z) :
  0 <= d <= 9 -> JS.isDigit (digitChar d) = true.
Proof.
  intros H. unfold JS.isDigit. rewrite digitChar_code by exact H.
  apply andb_true_intro; split; apply Z.leb_le; lia.
Qed.


Lemma isDigit_last (n : Z) : JS.isDigit (digitChar (n mod 10)) = true.
Proof. apply isDigit_digitChar. Z.div_mod_to_equations; lia. Qed.

Lemma isDigit_cases (c : ascii) :
  JS.isDigit c = true ->
  exists d, 0 <= d <= 9 /\ c = digitChar d.
Proof.
  intros H. exists (Z.of_N (N_of_ascii c) - 48).
  unfold JS.isDigit in H. apply andb_true_iff in H as [H1 H2].
  apply Z.leb_le in H1, H2. split; [lia|].
  unfold digitChar.
  replace (48 + (Z.of_N (N_of_ascii c) - 48)) with (Z.of_N (N_of_ascii c))
    by lia.
  now rewrite N2Z.id, ascii_N_embedding.
Qed.

Lemma digit_cases (d : Z) :
  0 <= d <= 9 ->
  d = 0 \/ d = 1 \/ d = 2 \/ d = 3 \/ d = 4 \/ d = 5 \/ d = 6 \/ d = 7
  \/ d = 8 \/ d = 9.
Proof. lia. Qed.

Lemma digitValue_digitChar (d : Z) :
  0 <= d <= 9 -> JS.digitValue 10 (digitChar d) = Some d.
Proof.
  intros H. pose proof (digit_cases d H) as Hd.
  repeat (destruct Hd as [->|Hd]; [reflexivity|]). now subst.
Qed.

(** A text of digits is read in radix 10. *)
Lemma mathInt_digits (s : string) :
  JS.all JS.isDigit s = true -> JS.mathInt s = JS.parseDigits 10 None s.
Proof.
  intros Hs. transitivity (Z.mul 1 <$> JS.parseDigits 10 None s);
    [|destruct (JS.parseDigits 10 None s) as [z|]; simpl;
      [f_equal; lia|reflexivity]].
  destruct s as [|c r]; [reflexivity|]. cbn [JS.all] in Hs.
  apply andb_true_iff in Hs as [Hc Hr].
  apply isDigit_cases in Hc as (d & Hd & ->).
  pose proof (digit_cases d Hd) as Hd'.
  destruct Hd' as [->|Hd'].
  - destruct r as [|c2 r2]; [reflexivity|].
    cbn [JS.all] in Hr. apply andb_true_iff in Hr as [Hc2 _].
    apply isDigit_cases in Hc2 as (e & He & ->).
    pose proof (digit_cases e He) as He'.
    repeat (destruct He' as [->|He']; [reflexivity|]). now subst.
  - repeat (destruct Hd' as [->|Hd']; [reflexivity|]). now subst.
Qed.

(** The number that a text of digits is read as: the number for the
    integer that the digits write in radix 10. *)
Lemma parseInt_digits (s : string) :
  JS.all JS.isDigit s = true ->
  JS.parseInt s = match JS.parseDigits 10 None s with
                  | Some z => JS.toNumber z
                  | None => JS.NaN
                  end.
Proof. intros Hs. unfold JS.parseInt. now rewrite mathInt_digits. Qed.

Lemma all_padDigits (k : nat) (n : Z) :
  JS.all JS.isDigit (padDigits k n) = true.
Proof.
  revert n; induction k as [|k IH]; intros n; [reflexivity|].
  cbn [padDigits]. rewrite all_app, IH. cbn [JS.all]. now rewrite isDigit_last.
Qed.

Lemma parseDigits_snoc (s : string) (c : ascii) (d : Z) :
  JS.all JS.isDigit s = true -> JS.digitValue 10 c = Some d ->
  forall acc,
    JS.parseDigits 10 acc (s ++ String c "")
    = Some (10 * default 0 (JS.parseDigits 10 acc s) + d).
Proof.
  intros Hs Hc. induction s as [|a r IH]; intros acc.
  - change ("" ++ String c "") with (String c "").
    cbn [JS.parseDigits]. now rewrite Hc.
  - cbn [JS.all] in Hs. apply andb_true_iff in Hs as [Ha Hr].
    apply isDigit_cases in Ha as (e & He & ->).
    change (String (digitChar e) r ++ String c "")
      with (String (digitChar e) (r ++ String c "")).
    cbn [JS.parseDigits]. rewrite digitValue_digitChar by exact He.
    now apply IH.
Qed.

Lemma parseDigits_padDigits (k : nat) (n : Z) :
  JS.parseDigits 10 None (padDigits (S k) n) = Some (n mod 10 ^ Z.of_nat (S k)).
Proof.
  revert n; induction k as [|k IH]; intros n.
  - cbn [padDigits].
    change ("" ++ String (digitChar (n mod 10)) "")
      with (String (digitChar (n mod 10)) "").
    cbn [JS.parseDigits].
    rewrite digitValue_digitChar by (Z.div_mod_to_equations; lia).
    simpl. f_equal.
  - change (padDigits (S (S k)) n)
      with (padDigits (S k) (n / 10) ++ String (digitChar (n mod 10)) "").
    rewrite (parseDigits_snoc _ _ (n mod 10)).
    + rewrite IH. simpl default. f_equal.
      rewrite (Nat2Z.inj_succ (S k)), Z.pow_succ_r by lia.
      rewrite Z.rem_mul_r by lia. lia.
    + apply all_padDigits.
    + apply digitValue_digitChar. Z.div_mod_to_equations; lia.
Qed.

(** Every non-negative delta is written by a text of digits. *)
Lemma delta_text (delta : Z) :
  0 <= delta ->
  exists text, JS.all JS.isDigit text = true /\ JS.mathInt text = Some delta.
Proof.
  intros Hd. exists (padDigits (S (Z.to_nat delta)) delta).
  split; [apply all_padDigits|].
  rewrite mathInt_digits by apply all_padDigits.
  rewrite parseDigits_padDigits. f_equal. apply Z.mod_small.
  split; [exact Hd|].
  rewrite Nat2Z.inj_succ, Z2Nat.id by exact Hd.
  pose proof (Z.pow_gt_lin_r 10 (Z.succ delta)). lia.
Qed.

(** ** The phone field *)

(** What [formatPhoneNumber] returns: the prefix and at most nine digits. *)
Lemma formatPhoneNumber_shape (s : string) :
  exists d, formatPhoneNumber s = "+254" ++ d
            /\ (String.length d <= 9)%nat /\ JS.all JS.isDigit d = true.
Proof.
  unfold formatPhoneNumber.
  destruct (JS.startsWith s "+254"); simpl negb; cbv iota.
  - eexists; split; [reflexivity|]. cbn [JS.substring Nat.ltb Nat.leb Nat.sub].
    split; [apply length_take|].
    apply all_take, all_keep.
  - exists "". repeat split. simpl; lia.
Qed.

Lemma formatPhoneNumber_fixed (d : string) :
  (String.length d <= 9)%nat -> JS.all JS.isDigit d = true ->
  formatPhoneNumber ("+254" ++ d) = "+254" ++ d.
Proof.
  intros Hlen Hd. unfold formatPhoneNumber.
  change (JS.startsWith ("+254" ++ d) "+254") with true.
  cbn [negb JS.substringFrom JS.skip append JS.substring Nat.ltb Nat.leb
       Nat.sub].
  unfold JS.removeNonDigits. rewrite keep_all by assumption.
  now rewrite take_short.
Qed.

Lemma addError_empty (key : string) (e : option string)
  (errors : gmap string string) :
  addError key e errors = ∅ <-> e = None /\ errors = ∅.
Proof.
  destruct e as [m|]; simpl.
  - split; [|intros [? _]; discriminate].
    intros H. exfalso. exact (insert_non_empty errors key m H).
  - split; [now intros ->|now intros [_ ->]].
Qed.

Lemma noKeys_true (errors : gmap string string) :
  noKeys errors = true <-> errors = ∅.
Proof.
  unfold noKeys. rewrite bool_decide_eq_true. apply map_size_empty_iff.
Qed.

Lemma auth_validateForm_true (isLogin : bool) (formData : Auth.FormData) :
  Auth.validateForm isLogin formData = true <->
  Auth.whenRegistering isLogin (Auth.idNumberError formData) = None
  /\ Auth.phoneNumberError formData = None
  /\ Auth.whenRegistering isLogin (Auth.nameError formData) = None
  /\ Auth.passwordError formData = None
  /\ Auth.whenRegistering isLogin (Auth.confirmPasswordError formData) = None.
Proof.
  unfold Auth.validateForm, Auth.newErrors.
  rewrite noKeys_true, !addError_empty. tauto.
Qed.

Lemma phoneNumberError_None (formData : Auth.FormData) :
  Auth.phoneNumberError formData = None ->
  test_17_d8 (JS.replace "+254" "" (Auth.phoneNumber formData)) = true.
Proof.
  unfold Auth.phoneNumberError.
  destruct (bool_decide _); [discriminate|].
  destruct (test_17_d8 _); [reflexivity|discriminate].
Qed.

Lemma phoneNumberError_prefixed (formData : Auth.FormData) (d : string) :
  Auth.phoneNumber formData = "+254" ++ d ->
  Auth.phoneNumberError formData = None <-> test_17_d8 d = true.
Proof.
  intros Hp. unfold Auth.phoneNumberError. rewrite Hp.
  assert (Htrim : JS.trim ("+254" ++ d) <> "").
  { rewrite trim_empty. simpl. discriminate. }
  rewrite bool_decide_eq_false_2 by exact Htrim.
  change (JS.replace "+254" "" ("+254" ++ d)) with d.
  destruct (test_17_d8 d); simpl; split; congruence.
Qed.

(** C10: [formatPhoneNumber] is idempotent, and what it returns is
    always the prefix [+254] followed by at most nine characters, all of
    which are digits. *)
Theorem formatPhoneNumber_idempotent (s : string) :
  formatPhoneNumber (formatPhoneNumber s) = formatPhoneNumber s
  /\ exists d, formatPhoneNumber s = "+254" ++ d
               /\ (String.length d <= 9)%nat
               /\ JS.all JS.isDigit d = true.
Proof.
  destruct (formatPhoneNumber_shape s) as (d & Hs & Hlen & Hd).
  split; [|now exists d].
  rewrite Hs. now apply formatPhoneNumber_fixed.
Qed.

Lemma fullPhoneNumber_typed (text : string) (formData : Auth.FormData) :
  Auth.fullPhoneNumber (Auth.typePhone text formData) = formatPhoneNumber text.
Proof.
  unfold Auth.fullPhoneNumber, Auth.typePhone; cbn [Auth.phoneNumber].
  destruct (formatPhoneNumber_shape text) as (d & -> & _).
  reflexivity.
Qed.

Lemma isStoredPhone_prefixed (d : string) :
  isStoredPhone ("+254" ++ d) = test_17_d8 d.
Proof. reflexivity. Qed.

(** The text [0712345678] is not normalised to a stored value: the
    field falls back to the bare prefix, which validation rejects, as it
    rejects the digits typed so far after the prefix. *)
Lemma phone_local_format_rejected :
  formatPhoneNumber "0712345678" = "+254"
  /\ isStoredPhone (formatPhoneNumber "0712345678") = false
  /\ Auth.validateForm false sampleForm = true
  /\ Auth.validateForm false (Auth.typePhone "0712345678" sampleForm) = false
  /\ Auth.validateForm false (Auth.typePhone "+25471" sampleForm) = false.
Proof. repeat split; vm_compute; reflexivity. Qed.

(** Nine digits of which the first is 1 or 7 are nine digits. *)
Lemma test_17_d8_digits (d : string) :
  test_17_d8 d = true -> String.length d = 9%nat /\ JS.all JS.isDigit d = true.
Proof.
  destruct d as [|c r]; [discriminate|]. cbn [test_17_d8 String.length JS.all].
  intros [[Hc Hlen]%andb_true_iff Hr]%andb_true_iff.
  apply Nat.eqb_eq in Hlen. split; [now rewrite Hlen|].
  rewrite Hr, andb_true_r.
  apply orb_true_iff in Hc as [Hc|Hc]; apply bool_decide_eq_true in Hc;
    now subst c.
Qed.

(** The phone check of a form whose field was typed: it passes exactly
    when the field has the pattern of a stored phone number. *)
Lemma phoneNumberError_typed (text : string) (formData : Auth.FormData) :
  Auth.phoneNumberError (Auth.typePhone text formData) = None <->
  isStoredPhone (formatPhoneNumber text) = true.
Proof.
  destruct (formatPhoneNumber_shape text) as (d & Hs & _).
  rewrite (phoneNumberError_prefixed _ d) by exact Hs.
  now rewrite Hs, isStoredPhone_prefixed.
Qed.

Lemma validateForm_typed_rejects (isLogin : bool) (text : string)
  (formData : Auth.FormData) :
  isStoredPhone (formatPhoneNumber text) = false ->
  Auth.validateForm isLogin (Auth.typePhone text formData) = false.
Proof.
  intros Hno. apply not_true_is_false.
  intros (_ & Hp & _)%auth_validateForm_true.
  apply phoneNumberError_typed in Hp. congruence.
Qed.

(** The phone number that a valid form sends has the pattern. *)
Lemma validateForm_stored_phone (isLogin : bool) (formData : Auth.FormData) :
  Auth.validateForm isLogin formData = true ->
  isStoredPhone (Auth.fullPhoneNumber formData) = true.
Proof.
  intros (_ & Hp & _)%auth_validateForm_true.
  apply phoneNumberError_None in Hp.
  unfold Auth.fullPhoneNumber. now rewrite isStoredPhone_prefixed.
Qed.

(** ** Zones *)

(** C3: the zone of a count is fixed by the thresholds: below 5 red,
    5 to 10 yellow, 11 to 15 orange, 16 to 20 light green, above 20 dark
    green; so 4 is red, 5 and 10 yellow, 11 and 15 orange, 16 and 20 light
    green, 21 dark green, and the five zones are distinct. *)
Theorem getZoneColor_bands (connections : Z) :
  (connections < 5 ->
   Home.getZoneColor connections = Home.red Home.zoneColors)
  /\ (5 <= connections <= 10 ->
      Home.getZoneColor connections = Home.yellow Home.zoneColors)
  /\ (11 <= connections <= 15 ->
      Home.getZoneColor connections = Home.orange Home.zoneColors)
  /\ (16 <= connections <= 20 ->
      Home.getZoneColor connections = Home.lightGreen Home.zoneColors)
  /\ (20 < connections ->
      Home.getZoneColor connections = Home.darkGreen Home.zoneColors)
  /\ Home.getZoneColor 4 = Home.red Home.zoneColors
  /\ Home.getZoneColor 5 = Home.yellow Home.zoneColors
  /\ Home.getZoneColor 10 = Home.yellow Home.zoneColors
  /\ Home.getZoneColor 11 = Home.orange Home.zoneColors
  /\ Home.getZoneColor 15 = Home.orange Home.zoneColors
  /\ Home.getZoneColor 16 = Home.lightGreen Home.zoneColors
  /\ Home.getZoneColor 20 = Home.lightGreen Home.zoneColors
  /\ Home.getZoneColor 21 = Home.darkGreen Home.zoneColors
  /\ NoDup [Home.red Home.zoneColors; Home.yellow Home.zoneColors;
            Home.orange Home.zoneColors; Home.lightGreen Home.zoneColors;
            Home.darkGreen Home.zoneColors].
Proof.
  unfold Home.getZoneColor.
  repeat apply conj; try reflexivity;
    try (intros ?; repeat case_match; try reflexivity; lia).
  apply (bool_decide_unpack _). vm_compute. reflexivity.
Qed.

Lemma getZoneColor_bands_witness :
  Home.getZoneColor 4 = "#EF4444" /\ Home.getZoneColor 12 = "#F97316".
Proof.
  split.
  - apply (proj1 (getZoneColor_bands 4)). lia.
  - apply (proj1 (proj2 (proj2 (getZoneColor_bands 12)))). lia.
Defined.

(** ** Requests *)

Lemma set_net_same (w : World) : set_net (net w) w = w.
Proof. now destruct w. Qed.

(** A request is refused without an effect, or served in the same world
    but for the fate of the requests to come. *)
Lemma request_cases {A : Type} (serve : World -> Response A * World)
  (w : World) :
  (exists f n, net w = Some f :: n
               /\ request serve w = (failed (fault_error f), set_net n w))
  \/ (exists n, (net w = None :: n \/ net w = [] /\ n = [])
                /\ request serve w = serve (set_net n w)).
Proof.
  unfold request. destruct (net w) as [|[f|] n] eqn:Hn.
  - right. exists []. split; [now right|]. now rewrite <- Hn, set_net_same.
  - left. now exists f, n.
  - right. exists n. split; [now left|reflexivity].
Qed.

Lemma request_served {A : Type} (serve : World -> Response A * World)
  (w : World) :
  served w -> exists n, (net w = None :: n \/ net w = [] /\ n = [])
                        /\ request serve w = serve (set_net n w).
Proof.
  intros Hs.
  destruct (request_cases serve w) as [(f & n & Hn & _)|H]; [|exact H].
  unfold served in Hs. now rewrite Hn in Hs.
Qed.

Lemma reliable_served (w : World) : reliable w -> served w.
Proof.
  unfold reliable, served. destruct (net w) as [|[f|] n]; auto.
  intros H. now inversion H.
Qed.

Lemma reliable_rest (w : World) (n : list (option Fault)) :
  reliable w -> net w = None :: n \/ net w = [] /\ n = [] ->
  Forall (fun f => f = None) n.
Proof.
  unfold reliable. intros H [Hn|[Hn ->]]; rewrite Hn in H; [|constructor].
  now inversion H.
Qed.

(** ** The leaderboard *)

#[local] Instance descending_total : Total Home.descending.
Proof. intros a b. unfold Home.descending. lia. Qed.

#[local] Instance descending_trans : Transitive Home.descending.
Proof. intros a b c. unfold Home.descending. lia. Qed.

Lemma StronglySorted_imap {A B : Type} (R : relation A) (R' : relation B)
  (l : list A) :
  StronglySorted R l ->
  forall f : nat -> A -> B,
    (forall i j a b, R a b -> R' (f i a) (f j b)) ->
    StronglySorted R' (imap f l).
Proof.
  induction 1 as [|a l Hl IH Ha]; intros f Hf; simpl; constructor.
  - apply IH. intros i j; apply Hf.
  - apply Forall_forall. intros y (i & b & -> & Hb)%elem_of_lookup_imap.
    apply Hf. rewrite Forall_forall in Ha. apply Ha.
    eapply list_elem_of_lookup_2, Hb.
Qed.

(** [x || 0] changes nothing on the number of an integer. *)
Lemma orZero_id (z : Z) : Home.orZero (JS.toNumber z) = JS.toNumber z.
Proof.
  destruct (JS.toNumber z) as [|d| |] eqn:Hz; try reflexivity.
  - unfold JS.toNumber in Hz. repeat case_match; discriminate.
  - unfold Home.orZero. destruct (Z.eqb_spec d 0); congruence.
Qed.

Lemma rankedData_sorted (data : list Home.Joined.row) :
  StronglySorted Home.descending data ->
  StronglySorted Home.itemsDescending (Home.rankedData (Some data)).
Proof.
  intros H. unfold Home.rankedData; simpl.
  apply (StronglySorted_imap Home.descending); [exact H|].
  intros i j a b Hab. unfold Home.itemsDescending; simpl.
  rewrite !orZero_id. now apply toNumber_mono.
Qed.

Lemma rankedData_rank (data : option (list Home.Joined.row)) (i : nat)
  (item : Home.Item.LeaderboardItem) :
  Home.rankedData data !! i = Some item ->
  Home.Item.rank item = Z.of_nat i + 1.
Proof.
  unfold Home.rankedData. rewrite list_lookup_imap.
  destruct (default [] data !! i); simpl; [|discriminate].
  now intros [= <-].
Qed.

Lemma imap_ignore {A B : Type} (f : nat -> A -> B) (g : A -> B) (l : list A) :
  (forall i x, f i x = g x) -> imap f l = g <$> l.
Proof.
  intros H. rewrite <- imap_const. apply imap_ext. intros i x _. apply H.
Qed.

Lemma rankedData_user_id (data : list Home.Joined.row) :
  Home.Item.user_id <$> Home.rankedData (Some data)
  = Home.Joined.user_id <$> data.
Proof.
  unfold Home.rankedData; simpl.
  rewrite fmap_imap. now apply imap_ignore.
Qed.

Lemma rankedData_connections (data : list Home.Joined.row) :
  Home.Item.connections <$> Home.rankedData (Some data)
  = (fun r => JS.toNumber (Home.Joined.connections r)) <$> data.
Proof.
  unfold Home.rankedData; simpl.
  rewrite fmap_imap. apply imap_ignore. intros i x; simpl. apply orZero_id.
Qed.

(** What [fetchLeaderboard] does: one request, and the ranked rows of
    the current month when it is served. *)
Lemma fetchLeaderboard_cases (w : World) :
  exists n,
    (exists f, net w = Some f :: n
               /\ Home.fetchLeaderboard w = (Home.FetchFailed, set_net n w))
    \/ ((net w = None :: n \/ net w = [] /\ n = [])
        /\ Home.fetchLeaderboard w
           = (Home.Loaded (Home.rankedData
                (Some (Home.leaderboardRows (db w) (Home.monthString (now w))))),
              set_net n w)).
Proof.
  unfold Home.fetchLeaderboard, bind, Home.newDate, Home.select_leaderboard.
  destruct (request_cases
    (fun w0 => (ok (Home.leaderboardRows (db w0) (Home.monthString (now w))), w0)) w)
    as [(f & n & Hn & ->)|(n & Hn & ->)]; exists n.
  - left. exists f. now split.
  - right. now split.
Qed.

Lemma omap_none {A B : Type} (f : A -> option B) (l : list A) :
  (forall x, x ∈ l -> f x = None) -> omap f l = [].
Proof.
  induction l as [|a l IH]; intros H; simpl; [reflexivity|].
  rewrite (H a) by apply list_elem_of_here.
  apply IH. intros x Hx. apply H. now apply list_elem_of_further.
Qed.

Lemma leaderboardRows_empty (d : Db) (month_year : string) :
  (forall user_id, sales d !! (user_id, month_year) = None) ->
  Home.leaderboardRows d month_year = [].
Proof.
  intros Hnone. unfold Home.leaderboardRows.
  rewrite omap_none; [reflexivity|].
  intros [[uid my] r] Hin%elem_of_map_to_list. unfold Home.joinUser.
  case_bool_decide as Hmy; [|reflexivity].
  subst my. rewrite Hnone in Hin. discriminate.
Qed.

(** C7: when the store holds no sales row of the current month and
    answers the request, [fetchLeaderboard] loads the empty leaderboard;
    that is a result, not a failure, and nothing is written. *)
Theorem fetchLeaderboard_empty (w : World) :
  served w ->
  (forall user_id, sales (db w) !! (user_id, Home.monthString (now w)) = None) ->
  exists w', Home.fetchLeaderboard w = (Home.Loaded [], w') /\ db w' = db w.
Proof.
  intros Hs Hnone.
  destruct (fetchLeaderboard_cases w) as (n & [(f & Hn & _)|(_ & Hw)]).
  - unfold served in Hs. now rewrite Hn in Hs.
  - exists (set_net n w). split; [|reflexivity].
    now rewrite Hw, leaderboardRows_empty.
Qed.

Lemma fetchLeaderboard_empty_witness :
  exists w', Home.fetchLeaderboard emptyWorld = (Home.Loaded [], w')
             /\ db w' = db emptyWorld.
Proof.
  apply (fetchLeaderboard_empty emptyWorld).
  - exact I.
  - intros user_id. apply lookup_empty.
Defined.

(** ** Submissions *)

Lemma home_validateForm_true (formData : Home.ModalFormData) :
  Home.validateForm formData = true <->
  Home.user_id formData <> ""
  /\ Home.connectionsError formData = None
  /\ Home.date formData <> None.
Proof.
  unfold Home.validateForm, Home.formErrors.
  rewrite noKeys_true, !addError_empty.
  case_bool_decide; destruct (Home.date formData); intuition congruence.
Qed.

(** The connections of a form pass validation when they are read as a
    finite number that is not negative, or as [Infinity]. *)
Lemma connectionsError_None (formData : Home.ModalFormData) :
  Home.connectionsError formData = None <->
  (exists d, JS.parseInt (Home.connections formData) = JS.Finite d /\ 0 <= d)
  \/ JS.parseInt (Home.connections formData) = JS.Infinity.
Proof.
  unfold Home.connectionsError. case_bool_decide as Htrim.
  - apply trim_empty, trimStart_empty in Htrim.
    assert (Hnan : JS.parseInt (Home.connections formData) = JS.NaN)
      by (unfold JS.parseInt, JS.mathInt; now rewrite Htrim).
    rewrite Hnan. split; [discriminate|]. intros [(d & ? & _)|?]; discriminate.
  - destruct (JS.parseInt (Home.connections formData)) as [|d| |];
      cbn [JS.isNaN JS.ltb orb].
    + split; [discriminate|]. intros [(d & ? & _)|?]; discriminate.
    + destruct (Z.ltb_spec d 0).
      * split; [discriminate|]. intros [(d' & [= <-] & ?)|?]; [lia|discriminate].
      * split; [|reflexivity]. intros _. left. exists d. now split.
    + split; [|reflexivity]. intros _. now right.
    + split; [discriminate|]. intros [(d & ? & _)|?]; discriminate.
Qed.

Lemma not_reliable_fault (w : World) (f : Fault) (n : list (option Fault)) :
  net w = Some f :: n -> ~ reliable w.
Proof. unfold reliable. intros -> H. now inversion H. Qed.

(** The three ways of [handleSubmit]: rejected by validation without a
    request; failed, with the store as it was (which takes an invalid
    date, a total that is not finite, or a request that is not served);
    saved, with the total of the key replaced by the new total. *)
Lemma handleSubmit_cases (formData : Home.ModalFormData) (w : World) :
  (Home.validateForm formData = false
   /\ Home.handleSubmit formData w = (Home.Rejected, w))
  \/ (Home.validateForm formData = true
      /\ exists n, Home.handleSubmit formData w
                   = (Home.SubmitFailed, set_net n w)
                   /\ (reliable w ->
                       Home.date formData ≫= Home.monthOf = None
                       \/ exists month_year,
                            Home.date formData ≫= Home.monthOf
                            = Some month_year
                            /\ JS.toJSON (newTotal w formData month_year)
                               = None))
  \/ (Home.validateForm formData = true
      /\ exists month_year total refresh n,
           Home.date formData ≫= Home.monthOf = Some month_year
           /\ newTotal w formData month_year = JS.Finite total
           /\ Home.handleSubmit formData w
              = (Home.Saved refresh,
                 set_net n (savedWorld formData month_year total w))
           /\ (reliable w -> Forall (fun f => f = None) n)).
Proof.
  destruct (Home.validateForm formData) eqn:Hv;
    [right|left; split; [reflexivity|];
           unfold Home.handleSubmit; now rewrite Hv].
  remember (Home.handleSubmit formData w) as res eqn:Hres.
  unfold Home.handleSubmit in Hres. rewrite Hv in Hres. cbn [negb] in Hres.
  destruct (Home.date formData ≫= Home.monthOf) as [m|] eqn:Hm;
    [|left; split; [reflexivity|]; exists (net w);
      rewrite set_net_same; split; [assumption|now left]].
  unfold bind at 1 in Hres. unfold select_sale_single in Hres.
  match type of Hres with
  | context [request ?s w] =>
      destruct (request_cases s w) as [(f & n & Hn & Hr)|(n & Hn & Hr)];
      rewrite Hr in Hres; clear Hr
  end.
  { left. split; [reflexivity|]. exists n. split; [now destruct f|].
    intros Hrel. now apply not_reliable_fault in Hn. }
  cbv beta iota in Hres. cbn [db set_net sales] in Hres.
  assert (Hc : forall r0 : Response Z,
    r0 = match sales (db w) !! (Home.user_id formData, m) with
         | Some r => ok (Sales.connections r)
         | None => failed PGRST116
         end ->
    match error r0 with
    | Some fetchError => negb (bool_decide (code fetchError = "PGRST116"))
    | None => false
    end = false
    /\ JS.add match data r0 with
              | Some c => JS.toNumber c
              | None => JS.Finite 0
              end (JS.parseInt (Home.connections formData))
       = newTotal w formData m).
  { intros r0 ->. unfold newTotal, storedConnections.
    now destruct (sales (db w) !! _). }
  destruct (Hc _ eq_refl) as [Hc1 Hc2]. rewrite Hc1, Hc2 in Hres.
  clear Hc Hc1 Hc2.
  unfold bind at 1, Home.newDate, upsert_sale in Hres.
  unfold bind at 1 in Hres.
  match type of Hres with
  | context [request ?s ?w0] =>
      destruct (request_cases s w0) as [(f & n1 & Hn1 & Hr)|(n1 & Hn1 & Hr)];
      rewrite Hr in Hres; clear Hr
  end.
  { left. split; [reflexivity|]. exists n1. split; [exact Hres|].
    intros Hrel. apply (reliable_rest w n) in Hrel; [|exact Hn].
    cbn [net set_net] in Hn1. rewrite Hn1 in Hrel. now inversion Hrel. }
  cbv beta iota in Hres.
  destruct (JS.toJSON (newTotal w formData m)) as [total|] eqn:Htotal;
    cbn [error failed] in Hres.
  2:{ left. split; [reflexivity|]. exists n1. split; [exact Hres|].
      intros _. right. now exists m. }
  assert (Ht : newTotal w formData m = JS.Finite total).
  { destruct (newTotal w formData m); try discriminate.
    now injection Htotal as ->. }
  unfold bind at 1 in Hres.
  assert (Hrel : reliable w -> forall n2,
            (n1 = None :: n2 \/ n1 = [] /\ n2 = []) ->
            Forall (fun f => f = None) n2).
  { intros Hrel n2 Hn2. apply (reliable_rest w n) in Hrel; [|exact Hn].
    apply (reliable_rest (set_net n w) n1) in Hn1; [|exact Hrel].
    apply (reliable_rest (set_net n1 w) n2); assumption. }
  match type of Hres with
  | context [Home.fetchLeaderboard ?w0] =>
      destruct (fetchLeaderboard_cases w0) as (n2 & [(f & Hn2 & Hr)|(Hn2 & Hr)]);
      rewrite Hr in Hres; clear Hr
  end.
  - right. split; [reflexivity|]. exists m, total, Home.FetchFailed, n2.
    repeat split; [exact Ht|exact Hres|].
    intros Hw. apply (reliable_rest w n) in Hw; [|exact Hn].
    apply (reliable_rest (set_net n w) n1) in Hn1; [|exact Hw].
    cbn [net set_net set_db] in Hn2. rewrite Hn2 in Hn1. now inversion Hn1.
  - right. split; [reflexivity|]. eexists m, total, _, n2.
    repeat split; [exact Ht|exact Hres|].
    intros Hw. apply (Hrel Hw). exact Hn2.
Qed.


(** ** Accumulation *)

Lemma submits_valid (user_id month_year : string)
  (formData : Home.ModalFormData) (delta : Z) :
  user_id <> "" -> submits user_id month_year formData delta ->
  Home.validateForm formData = true.
Proof.
  intros Hu (Hid & Hm & Hd & Hpos). apply home_validateForm_true.
  split; [congruence|split].
  - apply connectionsError_None. unfold JS.parseInt. rewrite Hd.
    now apply toNumber_nonneg_cases.
  - intros Hnone. rewrite Hnone in Hm. discriminate.
Qed.

(** Every list of non-negative deltas can be submitted, with texts of
    digits such as the field of the form holds. *)
Lemma deltas_submittable (user_id : string) (t : UTCFields) (deltas : list Z) :
  Forall (fun d => 0 <= d) deltas ->
  exists forms,
    Forall2 (submits user_id (Home.monthString t)) forms deltas
    /\ Forall (fun f => JS.all JS.isDigit (Home.connections f) = true) forms.
Proof.
  induction 1 as [|d deltas Hd _ (forms & IH1 & IH2)].
  - exists []. split; constructor.
  - destruct (delta_text d Hd) as (text & Htext & Hparse).
    exists (filledForm user_id text t :: forms).
    split; constructor; try assumption.
    now repeat split.
Qed.

(** Within [2 ^ 53] the new total is the sum. *)
Lemma newTotal_exact (w : World) (user_id month_year : string)
  (formData : Home.ModalFormData) (delta : Z) :
  submits user_id month_year formData delta ->
  0 <= default 0 (storedConnections w user_id month_year) ->
  default 0 (storedConnections w user_id month_year) + delta <= maxExact ->
  newTotal w formData month_year
  = JS.Finite (default 0 (storedConnections w user_id month_year) + delta).
Proof.
  intros (Hid & _ & Hd & Hpos) Hlo Hhi. unfold newTotal, JS.parseInt.
  rewrite Hid, Hd. unfold maxExact in *.
  rewrite !toNumber_exact by lia. cbn [JS.add].
  apply toNumber_exact. lia.
Qed.

(** A submission to a store that serves its requests is saved when its
    total is finite. *)
Lemma handleSubmit_saves (w : World) (user_id month_year : string)
  (formData : Home.ModalFormData) (delta total : Z) :
  reliable w -> user_id <> "" -> submits user_id month_year formData delta ->
  newTotal w formData month_year = JS.Finite total ->
  exists refresh n,
    Home.handleSubmit formData w
    = (Home.Saved refresh, set_net n (savedWorld formData month_year total w))
    /\ Forall (fun f => f = None) n.
Proof.
  intros Hrel Hu Hs Ht. pose proof (submits_valid _ _ _ _ Hu Hs) as Hv.
  destruct Hs as (Hid & Hm & Hd & Hpos).
  destruct (handleSubmit_cases formData w)
    as [[Hv' _]|[(_ & n & _ & Hwhy)|(_ & m & t & r & n & Hm' & Ht' & Hh & Hn)]].
  - congruence.
  - destruct (Hwhy Hrel) as [Hno|(m & Hm' & Hnull)]; [congruence|].
    assert (m = month_year) by congruence. subst m.
    rewrite Ht in Hnull. discriminate.
  - assert (m = month_year) by congruence. subst m.
    assert (t = total) by congruence. subst t.
    exists r, n. split; [exact Hh|now apply Hn].
Qed.

Lemma storedConnections_saved (w : World) (formData : Home.ModalFormData)
  (month_year : string) (total : Z) (n : list (option Fault)) :
  storedConnections (set_net n (savedWorld formData month_year total w))
    (Home.user_id formData) month_year
  = Some total.
Proof.
  unfold storedConnections at 1, savedWorld; cbn [db set_net set_db sales].
  now rewrite lookup_insert_eq.
Qed.

Lemma sum_nonneg (user_id month_year : string)
  (forms : list Home.ModalFormData) (deltas : list Z) :
  Forall2 (submits user_id month_year) forms deltas ->
  0 <= foldr Z.add 0 deltas.
Proof.
  induction 1 as [|f d forms deltas (_ & _ & _ & Hd) _ IH]; simpl; lia.
Qed.

Lemma submitAll_sum (user_id month_year : string)
  (forms : list Home.ModalFormData) (deltas : list Z) :
  user_id <> "" ->
  Forall2 (submits user_id month_year) forms deltas ->
  forall w, reliable w ->
    0 <= default 0 (storedConnections w user_id month_year) ->
    default 0 (storedConnections w user_id month_year)
    + foldr Z.add 0 deltas <= maxExact ->
    default 0 (storedConnections (Home.submitAll forms w).2 user_id month_year)
    = default 0 (storedConnections w user_id month_year) + foldr Z.add 0 deltas
    /\ (forms <> [] ->
        is_Some (storedConnections (Home.submitAll forms w).2
                   user_id month_year)).
Proof.
  intros Hu.
  induction 1 as [|formData delta forms deltas Hs Hrest IH];
    intros w Hrel Hlo Hhi.
  - simpl. split; [lia|congruence].
  - pose proof (sum_nonneg _ _ _ _ Hrest) as Hsum.
    assert (Hpos : 0 <= delta) by apply Hs.
    cbn [foldr] in Hhi.
    pose proof (newTotal_exact w _ _ _ _ Hs Hlo ltac:(lia)) as Ht.
    destruct (handleSubmit_saves w _ _ _ _ _ Hrel Hu Hs Ht) as (r & n & Hh & Hn).
    set (c := default 0 (storedConnections w user_id month_year)) in *.
    set (w1 := set_net n (savedWorld formData month_year (c + delta) w)) in *.
    assert (Hw2 : (Home.submitAll (formData :: forms) w).2
                  = (Home.submitAll forms w1).2).
    { cbn [Home.submitAll]. unfold bind. rewrite Hh.
      now destruct (Home.submitAll forms w1). }
    rewrite Hw2. clear Hw2.
    assert (Hid : Home.user_id formData = user_id) by apply Hs.
    assert (H1 : storedConnections w1 user_id month_year = Some (c + delta)).
    { subst w1. rewrite <- Hid. apply storedConnections_saved. }
    destruct (IH w1 Hn) as [IH1 IH2]; rewrite ?H1; simpl; try lia.
    rewrite H1 in IH1. simpl in IH1.
    split; [simpl; lia|]. intros _.
    destruct forms as [|f0 forms']; [|apply IH2; discriminate].
    simpl. rewrite H1. eauto.
Qed.

Lemma submitAll_stored (w : World) (user_id month_year : string)
  (forms : list Home.ModalFormData) (deltas : list Z) :
  reliable w -> user_id <> "" -> forms <> [] ->
  Forall2 (submits user_id month_year) forms deltas ->
  0 <= default 0 (storedConnections w user_id month_year) ->
  default 0 (storedConnections w user_id month_year)
  + foldr Z.add 0 deltas <= maxExact ->
  storedConnections (Home.submitAll forms w).2 user_id month_year
  = Some (default 0 (storedConnections w user_id month_year)
          + foldr Z.add 0 deltas).
Proof.
  intros Hrel Hu Hne Hs Hlo Hhi.
  destruct (submitAll_sum _ _ _ _ Hu Hs w Hrel Hlo Hhi) as [Hsum Hsome].
  destruct (Hsome Hne) as [c Hc]. rewrite Hc in *. simpl in Hsum.
  now rewrite Hsum.
Qed.

(** The sum of the deltas is not what is stored once the total passes
    [2 ^ 53]: after the deltas 9007199254740992 and 1, submitted one
    after the other to a key without a record, the record holds
    9007199254740992; and the one delta 9007199254740993 is itself read
    and stored as 9007199254740992. *)
Lemma serial_submissions_rounded :
  reliable emptyWorld
  /\ storedConnections emptyWorld "b" "2025-08" = None
  /\ Forall2 (submits "b" "2025-08") largeForms [9007199254740992; 1]
  /\ foldr Z.add 0 [9007199254740992; 1] = 9007199254740993
  /\ storedConnections (Home.submitAll largeForms emptyWorld).2 "b" "2025-08"
     = Some 9007199254740992
  /\ submits "b" "2025-08" (filledForm "b" "9007199254740993" sampleTime)
       9007199254740993
  /\ JS.parseInt "9007199254740993" = JS.Finite 9007199254740992
  /\ storedConnections
       (Home.handleSubmit (filledForm "b" "9007199254740993" sampleTime)
          emptyWorld).2 "b" "2025-08"
     = Some 9007199254740992.
Proof.
  split; [repeat constructor|].
  split; [reflexivity|].
  split; [repeat constructor; vm_compute; congruence|].
  split; [reflexivity|].
  split; [vm_compute; reflexivity|].
  split; [repeat split; vm_compute; congruence|].
  split; vm_compute; reflexivity.
Qed.

(** C1, within the integers that the numbers of the client hold: after
    the submissions of non-negative deltas to one key
    [(user_id, month_year)], made one after the other to a store that
    serves them, the record of the key holds the total that it had
    before (a count, which is not negative, and 0 when there was no
    record) plus the sum of the deltas, as long as that total is not
    above [2 ^ 53]; so from no record, the sum of the deltas. *)
Theorem serial_submissions_sum (w : World) (user_id month_year : string)
  (forms : list Home.ModalFormData) (deltas : list Z) :
  reliable w -> user_id <> "" -> forms <> [] ->
  Forall2 (submits user_id month_year) forms deltas ->
  0 <= default 0 (storedConnections w user_id month_year) ->
  default 0 (storedConnections w user_id month_year)
  + foldr Z.add 0 deltas <= maxExact ->
  storedConnections (Home.submitAll forms w).2 user_id month_year
  = Some (default 0 (storedConnections w user_id month_year)
          + foldr Z.add 0 deltas)
  /\ (storedConnections w user_id month_year = None ->
      storedConnections (Home.submitAll forms w).2 user_id month_year
      = Some (foldr Z.add 0 deltas)).
Proof.
  intros Hrel Hu Hne Hs Hlo Hhi.
  rewrite (submitAll_stored w user_id month_year forms deltas) by assumption.
  split; [reflexivity|]. now intros ->.
Qed.

Lemma serial_submissions_sum_witness :
  storedConnections
    (Home.submitAll [filledForm "b" "3" sampleTime;
                     filledForm "b" "4" sampleLater] sampleWorld).2
    "b" "2025-08"
  = Some (default 0 (storedConnections sampleWorld "b" "2025-08")
          + foldr Z.add 0 [3; 4]).
Proof.
  apply (serial_submissions_sum sampleWorld "b" "2025-08"
           [filledForm "b" "3" sampleTime; filledForm "b" "4" sampleLater]
           [3; 4]).
  - constructor.
  - discriminate.
  - discriminate.
  - repeat constructor; vm_compute; congruence.
  - vm_compute. discriminate.
  - vm_compute. discriminate.
Defined.

(** ** The month bucket *)








(** ** The agent of a submission *)

(** A submission for an identifier that no user has is saved: the
    client asks for no more than a non-empty [user_id]. *)
Lemma recordSale_unknown_user_saved :
  ~ ("ghost" ∈ (Users.id <$> users (db sampleWorld)))
  /\ (exists refresh,
        (Home.handleSubmit (filledForm "ghost" "5" sampleTime) sampleWorld).1
        = Home.Saved refresh)
  /\ storedConnections sampleWorld "ghost" "2025-08" = None
  /\ storedConnections
       (Home.handleSubmit (filledForm "ghost" "5" sampleTime) sampleWorld).2
       "ghost" "2025-08" = Some 5.
Proof.
  split; [apply (bool_decide_unpack _); vm_compute; reflexivity|].
  split; [eexists; vm_compute; reflexivity|].
  split; vm_compute; reflexivity.
Qed.

(** C6, as the code has it: a submission without an agent (an empty
    [user_id]) is rejected by validation and writes nothing; for another
    [user_id] the client makes no check against the users, and the
    submission fails without a write when the store refuses the upsert. *)
Theorem handleSubmit_user_id (formData : Home.ModalFormData) (w : World) :
  (Home.user_id formData = "" ->
   Home.handleSubmit formData w = (Home.Rejected, w))
  /\ (forall f n, net w = None :: Some f :: n ->
        (forall refresh,
           (Home.handleSubmit formData w).1 <> Home.Saved refresh)
        /\ db (Home.handleSubmit formData w).2 = db w).
Proof.
  split.
  - intros Hu.
    destruct (handleSubmit_cases formData w) as [[_ H]|[[Hv _]|[Hv _]]];
      [exact H| |]; apply home_validateForm_true in Hv; tauto.
  - intros f n Hnet.
    remember (Home.handleSubmit formData w) as res eqn:Hres.
    unfold Home.handleSubmit in Hres.
    destruct (Home.validateForm formData); cbn [negb] in Hres;
      [|subst res; split; [discriminate|reflexivity]].
    destruct (Home.date formData ≫= Home.monthOf) as [m|];
      [|subst res; split; [discriminate|reflexivity]].
    unfold bind at 1 in Hres. unfold select_sale_single, request in Hres.
    rewrite Hnet in Hres. cbn [db set_net sales net] in Hres.
    destruct (sales (db w) !! (Home.user_id formData, m));
      cbn [error ok failed code PGRST116 data] in Hres;
      unfold bind, upsert_sale, Home.newDate, request in Hres;
      cbn [net set_net] in Hres; subst res;
      (split; [discriminate|reflexivity]).
Qed.

Lemma handleSubmit_user_id_witness :
  Home.handleSubmit (filledForm "" "5" sampleTime) sampleWorld
  = (Home.Rejected, sampleWorld).
Proof.
  apply (proj1 (handleSubmit_user_id (filledForm "" "5" sampleTime)
                  sampleWorld)).
  reflexivity.
Defined.

(** ** Registration *)

Lemma filter_none {A : Type} (P : A -> Prop) `{!forall x, Decision (P x)}
  (l : list A) :
  (forall x, x ∈ l -> ~ P x) -> filter P l = [].
Proof.
  induction l as [|a l IH]; intros Hl; [reflexivity|].
  rewrite filter_cons_False by (apply Hl, list_elem_of_here).
  apply IH. intros x Hx. apply Hl. now apply list_elem_of_further.
Qed.

Lemma filter_unique {A : Type} (column : A -> string) (value : string)
  (rows : list A) :
  NoDup (column <$> rows) -> value ∈ (column <$> rows) ->
  exists r, filter (fun u => column u = value) rows = [r].
Proof.
  induction rows as [|a rows IH]; simpl; intros Hnd Hin.
  - now apply elem_of_nil in Hin.
  - apply NoDup_cons in Hnd as [Ha Hnd]. rewrite filter_cons.
    destruct (decide (column a = value)) as [Heq|Hne].
    + exists a. f_equal. apply filter_none.
      intros u Hu Hcol. apply Ha. rewrite Heq, <- Hcol.
      now apply list_elem_of_fmap_2.
    + apply IH; [exact Hnd|].
      apply elem_of_cons in Hin as [Hin|Hin]; [congruence|exact Hin].
Qed.

Lemma select_user_single_found (column : Users.row -> string) (value : string)
  (w : World) :
  served w -> NoDup (column <$> users (db w)) ->
  value ∈ (column <$> users (db w)) ->
  exists r n, select_user_single column value w = (ok r, set_net n w).
Proof.
  intros Hs Hnd Hin. unfold select_user_single.
  match goal with
  | |- context [request ?s w] =>
      destruct (request_served s w Hs) as (n & _ & ->)
  end.
  cbn [db set_net].
  destruct (filter_unique column value _ Hnd Hin) as [r ->].
  now exists r, n.
Qed.

Ltac conflict :=
  split; [reflexivity|split; [tauto|split; reflexivity]].

(** With a store that answers and holds no duplicates, a registration
    with a phone number or an ID number that a user has ends in a
    conflict and writes nothing. *)
Lemma handleRegister_conflict (formData : Auth.FormData) (w : World) :
  reliable w -> uniqueUsers (db w) ->
  Auth.validateForm false formData = true ->
  Auth.fullPhoneNumber formData ∈ (Users.phone_number <$> users (db w))
  \/ JS.trim (Auth.idNumber formData) ∈ (Users.id_number <$> users (db w)) ->
  exists outcome w',
    Auth.handleRegister formData w = (outcome, w')
    /\ (outcome = Auth.PhoneTaken \/ outcome = Auth.IdNumberTaken)
    /\ db w' = db w /\ session w' = session w.
Proof.
  intros Hrel [Hphones Hids] Hv Hex. unfold Auth.handleRegister.
  rewrite Hv. cbn [negb]. unfold bind at 1.
  destruct (decide (Auth.fullPhoneNumber formData
                    ∈ (Users.phone_number <$> users (db w)))) as [Hp|Hp].
  { destruct (select_user_single_found Users.phone_number _ w
                (reliable_served w Hrel) Hphones Hp) as (r & n & ->).
    cbn [data ok]. exists Auth.PhoneTaken, (set_net n w). conflict. }
  destruct Hex as [Hex|Hid]; [contradiction|].
  unfold select_user_single at 1.
  match goal with
  | |- context [request ?s w] =>
      destruct (request_served s w (reliable_served w Hrel)) as (n & Hn & ->)
  end.
  cbn [db set_net].
  destruct (single _) as [[r|] e].
  { cbn [data]. exists Auth.PhoneTaken, (set_net n w). conflict. }
  cbn [data]. unfold bind at 1.
  assert (Hrel' : reliable (set_net n w)) by exact (reliable_rest w n Hrel Hn).
  destruct (select_user_single_found Users.id_number
              (JS.trim (Auth.idNumber formData)) (set_net n w)
              (reliable_served _ Hrel') Hids Hid) as (r & n' & ->).
  cbn [data ok]. exists Auth.IdNumberTaken, (set_net n' (set_net n w)).
  conflict.
Qed.

(** C5 fails on the code: the lookup of the phone number is not served,
    its error is not looked at, and the registration goes on to insert a
    second user with a phone number that a user already has. *)
Theorem handleRegister_lookup_error_ignored :
  uniqueUsers (db lookupFails)
  /\ Auth.validateForm false duplicateForm = true
  /\ Auth.fullPhoneNumber duplicateForm
     ∈ (Users.phone_number <$> users (db lookupFails))
  /\ (Auth.handleRegister duplicateForm lookupFails).1
     = Auth.Registered "user-0000"
  /\ users (db (Auth.handleRegister duplicateForm lookupFails).2)
     = (users (db lookupFails)
        ++ [{| Users.id := "user-0000"; Users.name := "Amina";
               Users.phone_number := "+254711111111";
               Users.id_number := "87654321"; Users.password := "secret";
               Users.is_admin := false |}])%list
  /\ ~ uniqueUsers (db (Auth.handleRegister duplicateForm lookupFails).2).
Proof.
  split; [split; apply (bool_decide_unpack _); vm_compute; reflexivity|].
  split; [vm_compute; reflexivity|].
  split; [apply (bool_decide_unpack _); vm_compute; reflexivity|].
  split; [vm_compute; reflexivity|].
  split; [vm_compute; reflexivity|].
  intros [H _]. revert H. apply (bool_decide_unpack _). vm_compute. reflexivity.
Qed.

(** The same slip with a store that answers: two users already have the
    phone number, [.single()] answers with an error and no data, and a
    third user with that phone number is inserted. *)
Lemma handleRegister_multiple_rows :
  (Auth.handleRegister duplicateForm twiceWorld).1 = Auth.Registered "user-0000"
  /\ List.length (users (db (Auth.handleRegister duplicateForm twiceWorld).2))
     = S (List.length (users (db twiceWorld))).
Proof. split; vm_compute; reflexivity. Qed.

(** * More properties of the screens *)

(** ** Lookups of one user *)

Lemma select_user_single_cases (column : Users.row -> string)
  (value : string) (w : World) :
  (exists f n, net w = Some f :: n
               /\ select_user_single column value w
                  = (failed (fault_error f), set_net n w))
  \/ (exists n, servedRest w n
                /\ select_user_single column value w
                   = (single (filter (fun u => column u = value)
                                (users (db w))), set_net n w)).
Proof.
  unfold select_user_single.
  match goal with
  | |- context [request ?s w] =>
      destruct (request_cases s w) as [(f & n & Hn & ->)|(n & Hn & ->)]
  end.
  - left. now exists f, n.
  - right. exists n. now split.
Qed.

Lemma single_found {A : Type} (rows : list A) (r : A) :
  error (single rows) = None -> data (single rows) = Some r -> rows = [r].
Proof.
  destruct rows as [|a [|b rows]]; simpl; try discriminate.
  now intros _ [= ->].
Qed.

Lemma single_data {A : Type} (rows : list A) (r : A) :
  data (single rows) = Some r -> rows = [r].
Proof.
  destruct rows as [|a [|b rows]]; simpl; try discriminate.
  now intros [= ->].
Qed.

Lemma filter_singleton_elem {A : Type} (P : A -> Prop)
  `{!forall x, Decision (P x)} (l : list A) (r : A) :
  filter P l = [r] -> r ∈ l /\ P r.
Proof.
  intros Hf. assert (Hr : r ∈ filter P l) by (rewrite Hf; apply list_elem_of_here).
  apply list_elem_of_filter in Hr. tauto.
Qed.

Lemma servedRest_reliable (w : World) (n : list (option Fault)) :
  reliable w -> servedRest w n -> reliable (set_net n w).
Proof. intros Hrel Hn. exact (reliable_rest w n Hrel Hn). Qed.

(** ** Login *)

(** The ways of [handleLogin], with the world after each. *)
Lemma handleLogin_cases (formData : Auth.FormData) (w : World) :
  (Auth.validateForm true formData = false
   /\ AuthPage.handleLogin formData w = (AuthPage.LoginInvalid, w))
  \/ (Auth.validateForm true formData = true
      /\ exists n,
           AuthPage.handleLogin formData w
           = (AuthPage.PhoneNotFound, set_net n w)
           /\ (served w ->
               servedRest w n
               /\ forall u, filter (fun u => Users.phone_number u
                                             = Auth.fullPhoneNumber formData)
                              (users (db w)) <> [u]))
  \/ (Auth.validateForm true formData = true
      /\ exists n u,
           servedRest w n
           /\ filter (fun u => Users.phone_number u
                               = Auth.fullPhoneNumber formData)
                (users (db w)) = [u]
           /\ (Users.password u <> Auth.password formData
               /\ AuthPage.handleLogin formData w
                  = (AuthPage.WrongPassword, set_net n w)
               \/ Users.password u = Auth.password formData
                  /\ AuthPage.handleLogin formData w
                     = (AuthPage.LoggedIn (Users.id u),
                        loggedInSession u (set_net n w)))).
Proof.
  remember (AuthPage.handleLogin formData w) as res eqn:Hres.
  unfold AuthPage.handleLogin in Hres.
  destruct (Auth.validateForm true formData) eqn:Hv; cbn [negb] in Hres;
    [right|left; now split].
  unfold bind at 1 in Hres.
  destruct (select_user_single_cases Users.phone_number
              (Auth.fullPhoneNumber formData) w)
    as [(f & n & Hn & Hr)|(n & Hn & Hr)]; rewrite Hr in Hres; clear Hr.
  { left. split; [reflexivity|]. exists n. split; [exact Hres|].
    intros Hs. unfold served in Hs. now rewrite Hn in Hs. }
  assert (Hnone : forall o : AuthPage.LoginOutcome,
            res = (AuthPage.PhoneNotFound, set_net n w) ->
            (forall u, single (filter (fun u => Users.phone_number u
                                               = Auth.fullPhoneNumber formData)
                                 (users (db w))) <> ok u) ->
            exists n0, res = (AuthPage.PhoneNotFound, set_net n0 w)
                       /\ (served w ->
                           servedRest w n0
                           /\ forall u,
                                filter (fun u => Users.phone_number u
                                          = Auth.fullPhoneNumber formData)
                                  (users (db w)) <> [u])).
  { intros _ Hr Hno. exists n. split; [exact Hr|]. intros _.
    split; [exact Hn|]. intros u Hu. apply (Hno u). now rewrite Hu. }
  destruct (single _) as [[u|] [e|]] eqn:Hsingle; cbn [error data] in Hres.
  - left. split; [reflexivity|].
    apply (Hnone AuthPage.PhoneNotFound Hres). discriminate.
  - right. split; [reflexivity|]. exists n, u.
    assert (Hf : filter (fun u => Users.phone_number u
                                  = Auth.fullPhoneNumber formData)
                   (users (db w)) = [u]).
    { apply single_found; now rewrite Hsingle. }
    split; [exact Hn|split; [exact Hf|]].
    destruct (decide (Users.password u = Auth.password formData)) as [Hpw|Hpw].
    + right. split; [exact Hpw|].
      rewrite bool_decide_eq_true_2 in Hres by exact Hpw. exact Hres.
    + left. split; [exact Hpw|].
      rewrite bool_decide_eq_false_2 in Hres by exact Hpw. exact Hres.
  - left. split; [reflexivity|].
    apply (Hnone AuthPage.PhoneNotFound Hres). discriminate.
  - left. split; [reflexivity|].
    apply (Hnone AuthPage.PhoneNotFound Hres). discriminate.
Qed.

(** ** Registration *)

(** The ways of [handleRegister], with the world after each: only a
    registration that succeeds changes the store or the session. *)
Lemma handleRegister_cases (formData : Auth.FormData) (w : World) :
  (Auth.validateForm false formData = false
   /\ Auth.handleRegister formData w = (Auth.Invalid, w))
  \/ (Auth.validateForm false formData = true
      /\ exists outcome w',
           Auth.handleRegister formData w = (outcome, w')
           /\ (forall id, outcome <> Auth.Registered id)
           /\ outcome <> Auth.Invalid
           /\ db w' = db w /\ session w' = session w)
  \/ (Auth.validateForm false formData = true
      /\ exists n,
           Auth.handleRegister formData w
           = (Auth.Registered (uuids w (issued w)),
              set_net n (registeredWorld formData w))
           /\ ~ (uuids w (issued w) ∈ (Users.id <$> users (db w)))
           /\ (reliable w ->
               Forall (fun f => f = None) n
               /\ (forall u, filter (fun u => Users.phone_number u
                                              = Auth.fullPhoneNumber formData)
                               (users (db w)) <> [u])
               /\ (forall u, filter (fun u => Users.id_number u
                                              = JS.trim (Auth.idNumber formData))
                               (users (db w)) <> [u]))).
Proof.
  remember (Auth.handleRegister formData w) as res eqn:Hres.
  unfold Auth.handleRegister in Hres.
  destruct (Auth.validateForm false formData) eqn:Hv; cbn [negb] in Hres;
    [right|left; now split].
  assert (Hfail : forall (o : Auth.RegisterOutcome) (w' : World),
            res = (o, w') -> (forall id, o <> Auth.Registered id) ->
            o <> Auth.Invalid -> db w' = db w -> session w' = session w ->
            true = true
            /\ exists outcome w'0,
                 res = (outcome, w'0)
                 /\ (forall id, outcome <> Auth.Registered id)
                 /\ outcome <> Auth.Invalid
                 /\ db w'0 = db w /\ session w'0 = session w).
  { intros o w' ? ? ? ? ?. split; [reflexivity|]. now exists o, w'. }
  unfold bind at 1 in Hres.
  destruct (select_user_single_cases Users.phone_number
              (Auth.fullPhoneNumber formData) w)
    as [(f1 & n1 & Hn1 & Hr)|(n1 & Hn1 & Hr)]; rewrite Hr in Hres; clear Hr;
    cbn [data failed] in Hres.
  - (* the lookup of the phone number is not served *)
    unfold bind at 1 in Hres.
    destruct (select_user_single_cases Users.id_number
                (JS.trim (Auth.idNumber formData)) (set_net n1 w))
      as [(f2 & n2 & Hn2 & Hr)|(n2 & Hn2 & Hr)]; rewrite Hr in Hres; clear Hr;
      cbn [data failed db set_net] in Hres.
    + unfold bind at 1, insert_user, request in Hres.
      cbn [net set_net] in Hres.
      destruct n2 as [|[f3|] n3]; cbn [db set_net issued uuids] in Hres.
      * case_bool_decide as Hid; cbn [error data ok failed] in Hres.
        -- left. eapply Hfail; [exact Hres|discriminate|discriminate| |];
             reflexivity.
        -- right. split; [reflexivity|]. exists []. split; [exact Hres|].
           split; [exact Hid|]. intros Hrel.
           now apply not_reliable_fault in Hn1.
      * left. eapply Hfail; [exact Hres|discriminate|discriminate| |];
          reflexivity.
      * case_bool_decide as Hid; cbn [error data ok failed] in Hres.
        -- left. eapply Hfail; [exact Hres|discriminate|discriminate| |];
             reflexivity.
        -- right. split; [reflexivity|]. exists n3. split; [exact Hres|].
           split; [exact Hid|]. intros Hrel.
           now apply not_reliable_fault in Hn1.
    + destruct (single (filter (fun u => Users.id_number u
                                       = JS.trim (Auth.idNumber formData))
                          (users (db w)))) as [[u2|] e2] eqn:Hs2;
        cbn [data] in Hres.
      * left. eapply Hfail; [exact Hres|discriminate|discriminate| |];
          reflexivity.
      * unfold bind at 1, insert_user, request in Hres.
        cbn [net set_net] in Hres.
        destruct n2 as [|[f3|] n3]; cbn [db set_net issued uuids] in Hres.
        -- case_bool_decide as Hid; cbn [error data ok failed] in Hres.
           ++ left. eapply Hfail; [exact Hres|discriminate|discriminate| |];
                reflexivity.
           ++ right. split; [reflexivity|]. exists []. split; [exact Hres|].
              split; [exact Hid|]. intros Hrel.
              now apply not_reliable_fault in Hn1.
        -- left. eapply Hfail; [exact Hres|discriminate|discriminate| |];
             reflexivity.
        -- case_bool_decide as Hid; cbn [error data ok failed] in Hres.
           ++ left. eapply Hfail; [exact Hres|discriminate|discriminate| |];
                reflexivity.
           ++ right. split; [reflexivity|]. exists n3. split; [exact Hres|].
              split; [exact Hid|]. intros Hrel.
              now apply not_reliable_fault in Hn1.
  - (* the lookup of the phone number is served *)
    destruct (single _) as [[u1|] e1] eqn:Hs1; cbn [data] in Hres.
    { left. eapply Hfail; [exact Hres|discriminate|discriminate| |];
        reflexivity. }
    unfold bind at 1 in Hres.
    destruct (select_user_single_cases Users.id_number
                (JS.trim (Auth.idNumber formData)) (set_net n1 w))
      as [(f2 & n2 & Hn2 & Hr)|(n2 & Hn2 & Hr)]; rewrite Hr in Hres; clear Hr;
      cbn [data failed db set_net] in Hres.
    + unfold bind at 1, insert_user, request in Hres.
      cbn [net set_net] in Hres.
      assert (Hnot : ~ reliable w).
      { intros Hrel. apply (servedRest_reliable w n1) in Hrel; [|exact Hn1].
        now apply not_reliable_fault in Hn2. }
      destruct n2 as [|[f3|] n3]; cbn [db set_net issued uuids] in Hres.
      * case_bool_decide as Hid; cbn [error data ok failed] in Hres.
        -- left. eapply Hfail; [exact Hres|discriminate|discriminate| |];
             reflexivity.
        -- right. split; [reflexivity|]. exists []. split; [exact Hres|].
           split; [exact Hid|]. intros Hrel. contradiction.
      * left. eapply Hfail; [exact Hres|discriminate|discriminate| |];
          reflexivity.
      * case_bool_decide as Hid; cbn [error data ok failed] in Hres.
        -- left. eapply Hfail; [exact Hres|discriminate|discriminate| |];
             reflexivity.
        -- right. split; [reflexivity|]. exists n3. split; [exact Hres|].
           split; [exact Hid|]. intros Hrel. contradiction.
    + destruct (single (filter (fun u => Users.id_number u
                                       = JS.trim (Auth.idNumber formData))
                          (users (db w)))) as [[u2|] e2] eqn:Hs2;
        cbn [data] in Hres.
      { left. eapply Hfail; [exact Hres|discriminate|discriminate| |];
          reflexivity. }
      assert (Hlook :
        (forall u, filter (fun u => Users.phone_number u
                                    = Auth.fullPhoneNumber formData)
                     (users (db w)) <> [u])
        /\ (forall u, filter (fun u => Users.id_number u
                                       = JS.trim (Auth.idNumber formData))
                        (users (db w)) <> [u])).
      { split; intros u Hu; [rewrite Hu in Hs1|rewrite Hu in Hs2];
          discriminate. }
      unfold bind at 1, insert_user, request in Hres.
      cbn [net set_net] in Hres.
      destruct n2 as [|[f3|] n3] eqn:Hn3; cbn [db set_net issued uuids] in Hres.
      * case_bool_decide as Hid; cbn [error data ok failed] in Hres.
        -- left. eapply Hfail; [exact Hres|discriminate|discriminate| |];
             reflexivity.
        -- right. split; [reflexivity|]. exists []. split; [exact Hres|].
           split; [exact Hid|]. intros Hrel. split; [constructor|exact Hlook].
      * left. eapply Hfail; [exact Hres|discriminate|discriminate| |];
          reflexivity.
      * case_bool_decide as Hid; cbn [error data ok failed] in Hres.
        -- left. eapply Hfail; [exact Hres|discriminate|discriminate| |];
             reflexivity.
        -- right. split; [reflexivity|]. exists n3. split; [exact Hres|].
           split; [exact Hid|]. intros Hrel. split; [|exact Hlook].
           apply (servedRest_reliable w n1) in Hrel; [|exact Hn1].
           apply (servedRest_reliable (set_net n1 w) (None :: n3)) in Hrel;
             [|exact Hn2].
           unfold reliable in Hrel. cbn [net set_net] in Hrel.
           now inversion Hrel.
Qed.

(** What a registration does to the users: nothing, or, for a form that
    passes validation, one more user, with the phone number of the form,
    which has the pattern of a stored phone number. *)
Lemma handleRegister_users (formData : Auth.FormData) (w : World) :
  users (db (Auth.handleRegister formData w).2) = users (db w)
  \/ Auth.validateForm false formData = true
     /\ isStoredPhone (Auth.fullPhoneNumber formData) = true
     /\ exists u,
          users (db (Auth.handleRegister formData w).2)
          = (users (db w) ++ [u])%list
          /\ Users.phone_number u = Auth.fullPhoneNumber formData.
Proof.
  destruct (handleRegister_cases formData w)
    as [[_ H]|[(_ & o & w' & H & _ & _ & Hdb & _)|(Hv & n & H & _)]];
    rewrite H; cbn [snd].
  - now left.
  - left. now rewrite Hdb.
  - right. split; [exact Hv|].
    split; [now apply (validateForm_stored_phone false)|].
    now exists (newUser formData w).
Qed.

(** C4, as the code has it.  Registration is what stores a phone number,
    and it stores one only for a form that passes validation; the
    stored value is then [+254] followed by nine digits of which the
    first is 1 or 7, so that the phone numbers of the store keep this
    pattern.  The field holds what [formatPhoneNumber] made of the typed
    text, and that is what is stored; a text that has the pattern is
    kept as it is and passes the phone check; a field that has not the
    pattern (the bare prefix, fewer than nine digits after it) fails
    validation, and the registration ends before any request or write.
    A text without the prefix [+254], such as [0712345678], is not
    converted: the field becomes the bare prefix, and validation
    fails. *)
Theorem stored_phone_matches (text : string) (formData : Auth.FormData)
  (w : World) :
  let typed := Auth.typePhone text formData in
  (users (db (Auth.handleRegister formData w).2) = users (db w)
   \/ Auth.validateForm false formData = true
      /\ isStoredPhone (Auth.fullPhoneNumber formData) = true
      /\ exists u,
           users (db (Auth.handleRegister formData w).2)
           = (users (db w) ++ [u])%list
           /\ Users.phone_number u = Auth.fullPhoneNumber formData)
  /\ (Forall (fun u => isStoredPhone (Users.phone_number u) = true)
        (users (db w)) ->
      Forall (fun u => isStoredPhone (Users.phone_number u) = true)
        (users (db (Auth.handleRegister formData w).2)))
  /\ Auth.phoneNumber typed = formatPhoneNumber text
  /\ Auth.fullPhoneNumber typed = formatPhoneNumber text
  /\ (Auth.phoneNumberError typed = None <->
      isStoredPhone (formatPhoneNumber text) = true)
  /\ (isStoredPhone (formatPhoneNumber text) = false ->
      Auth.validateForm false typed = false
      /\ Auth.handleRegister typed w = (Auth.Invalid, w))
  /\ (isStoredPhone text = true ->
      formatPhoneNumber text = text /\ Auth.phoneNumberError typed = None)
  /\ (JS.startsWith text "+254" = false ->
      formatPhoneNumber text = "+254"
      /\ Auth.handleRegister typed w = (Auth.Invalid, w)).
Proof.
  cbv zeta.
  assert (Hreject : isStoredPhone (formatPhoneNumber text) = false ->
            Auth.validateForm false (Auth.typePhone text formData) = false
            /\ Auth.handleRegister (Auth.typePhone text formData) w
               = (Auth.Invalid, w)).
  { intros Hno.
    pose proof (validateForm_typed_rejects false text formData Hno) as Hv.
    split; [exact Hv|]. unfold Auth.handleRegister. now rewrite Hv. }
  split; [apply handleRegister_users|].
  split.
  { intros Hall.
    destruct (handleRegister_users formData w)
      as [->|(_ & Hp & u & -> & Hu)]; [exact Hall|].
    apply Forall_app. split; [exact Hall|].
    constructor; [now rewrite Hu|constructor]. }
  split; [reflexivity|].
  split; [apply fullPhoneNumber_typed|].
  split; [apply phoneNumberError_typed|].
  split; [exact Hreject|].
  split.
  { intros Hstored.
    assert (Hkept : formatPhoneNumber text = text).
    { unfold isStoredPhone in Hstored.
      apply andb_true_iff in Hstored as [Hpre Hd].
      pose proof (startsWith_skip text "+254" Hpre) as Htext.
      cbn [String.length] in Htext. rewrite Htext.
      apply test_17_d8_digits in Hd as [Hlen Hall].
      apply formatPhoneNumber_fixed; [lia|exact Hall]. }
    split; [exact Hkept|]. apply phoneNumberError_typed. now rewrite Hkept. }
  intros Hpre.
  assert (Hf : formatPhoneNumber text = "+254")
    by (unfold formatPhoneNumber; now rewrite Hpre).
  split; [exact Hf|]. apply Hreject. now rewrite Hf.
Qed.

Lemma stored_phone_matches_witness :
  Auth.handleRegister (Auth.typePhone "+25471" sampleForm) sampleWorld
  = (Auth.Invalid, sampleWorld)
  /\ Forall (fun u => isStoredPhone (Users.phone_number u) = true)
       (users (db (Auth.handleRegister sampleForm sampleWorld).2)).
Proof.
  destruct (stored_phone_matches "+25471" sampleForm sampleWorld)
    as (_ & Hkept & _ & _ & _ & Hrejected & _ & _).
  split; [apply Hrejected; reflexivity|apply Hkept; repeat constructor].
Defined.

Lemma login_valid_of_register (formData : Auth.FormData) :
  Auth.validateForm false formData = true ->
  Auth.validateForm true formData = true.
Proof.
  rewrite !auth_validateForm_true. simpl. tauto.
Qed.

Lemma not_found_of_unique {A : Type} (column : A -> string) (value : string)
  (rows : list A) :
  NoDup (column <$> rows) ->
  (forall r, filter (fun u => column u = value) rows <> [r]) ->
  ~ (value ∈ (column <$> rows)).
Proof.
  intros Hnd Hno Hin.
  destruct (filter_unique column value rows Hnd Hin) as [r Hr].
  exact (Hno r Hr).
Qed.

Lemma filter_absent {A : Type} (column : A -> string) (value : string)
  (rows : list A) :
  ~ (value ∈ (column <$> rows)) ->
  filter (fun u => column u = value) rows = [].
Proof.
  intros Hno. apply filter_none. intros u Hu Hcol. apply Hno.
  rewrite <- Hcol. now apply list_elem_of_fmap_2.
Qed.

(** Login opens a session only for a user of the store who has the phone
    number and the password of the form, and then the session holds the
    identifier and the name of that user. *)
Theorem handleLogin_sound (formData : Auth.FormData) (w : World)
  (id : string) :
  (AuthPage.handleLogin formData w).1 = AuthPage.LoggedIn id ->
  exists u,
    u ∈ users (db w)
    /\ Users.id u = id
    /\ Users.phone_number u = Auth.fullPhoneNumber formData
    /\ Users.password u = Auth.password formData
    /\ isStoredPhone (Users.phone_number u) = true
    /\ session (AuthPage.handleLogin formData w).2 !! "userId" = Some id
    /\ session (AuthPage.handleLogin formData w).2 !! "userName"
       = Some (Users.name u).
Proof.
  intros Hin.
  destruct (handleLogin_cases formData w)
    as [[_ H]|[(_ & n & H & _)|(Hv & n & u & _ & Hf & [[_ H]|[Hpw H]])]];
    rewrite H in Hin |- *; try discriminate.
  injection Hin as <-.
  apply filter_singleton_elem in Hf as [Hu Hp].
  exists u. repeat split; try assumption.
  - rewrite Hp. apply auth_validateForm_true in Hv as (_ & Hphone & _).
    apply phoneNumberError_None in Hphone.
    unfold Auth.fullPhoneNumber. now rewrite isStoredPhone_prefixed.
  - cbn. rewrite lookup_insert_ne by discriminate. apply lookup_insert_eq.
  - cbn. apply lookup_insert_eq.
Qed.

Lemma handleLogin_sound_witness :
  exists u, u ∈ users (db sampleWorld) /\ Users.id u = "a"
            /\ Users.password u = "secret".
Proof.
  destruct (handleLogin_sound (sampleLogin "+254711111111" "secret")
              sampleWorld "a") as (u & Hu & Hid & _ & Hpw & _).
  - vm_compute. reflexivity.
  - exists u. repeat split; assumption.
Defined.

(** Login never writes to the store, and a login that fails leaves the
    session as it was. *)
Theorem handleLogin_readonly (formData : Auth.FormData) (w : World) :
  db (AuthPage.handleLogin formData w).2 = db w
  /\ ((forall id, (AuthPage.handleLogin formData w).1 <> AuthPage.LoggedIn id) ->
      session (AuthPage.handleLogin formData w).2 = session w).
Proof.
  destruct (handleLogin_cases formData w)
    as [[_ H]|[(_ & n & H & _)|(Hv & n & u & _ & Hf & [[_ H]|[Hpw H]])]];
    rewrite H; split; try reflexivity.
  intros Hno. now destruct (Hno (Users.id u)).
Qed.

Lemma handleLogin_readonly_witness :
  session (AuthPage.handleLogin (sampleLogin "+254711111111" "wrong1")
             sampleWorld).2 = session sampleWorld.
Proof.
  apply (proj2 (handleLogin_readonly (sampleLogin "+254711111111" "wrong1")
                  sampleWorld)).
  intros id. vm_compute. discriminate.
Defined.

Lemma handleLogin_found (formData : Auth.FormData) (w : World)
  (u : Users.row) :
  served w -> NoDup (Users.phone_number <$> users (db w)) ->
  Auth.validateForm true formData = true ->
  u ∈ users (db w) ->
  Users.phone_number u = Auth.fullPhoneNumber formData ->
  (AuthPage.handleLogin formData w).1
  = if decide (Users.password u = Auth.password formData)
    then AuthPage.LoggedIn (Users.id u) else AuthPage.WrongPassword.
Proof.
  intros Hs Hnd Hv Hu Hp.
  assert (Hin : Auth.fullPhoneNumber formData
                ∈ (Users.phone_number <$> users (db w))).
  { rewrite <- Hp. now apply list_elem_of_fmap_2. }
  destruct (filter_unique _ _ _ Hnd Hin) as [r Hr].
  assert (Hur : u = r).
  { assert (Hmem : u ∈ filter (fun u => Users.phone_number u
                                        = Auth.fullPhoneNumber formData)
                         (users (db w)))
      by (apply list_elem_of_filter; now split).
    rewrite Hr in Hmem. now apply list_elem_of_singleton in Hmem. }
  subst r.
  destruct (handleLogin_cases formData w)
    as [[Hv' _]|[(_ & n & _ & Hno)|(_ & n & u' & _ & Hf & Hout)]].
  - congruence.
  - destruct (Hno Hs) as [_ Hno']. now destruct (Hno' u).
  - rewrite Hr in Hf. injection Hf as <-.
    destruct Hout as [[Hpw ->]|[Hpw ->]]; simpl;
      destruct (decide _); congruence.
Qed.

(** With a store that answers and in which no phone number is held
    twice, the login of a valid form with the phone number of a user
    succeeds when the password is that of the user, and is refused as a
    wrong password otherwise. *)
Theorem handleLogin_complete (formData : Auth.FormData) (w : World)
  (u : Users.row) :
  served w -> NoDup (Users.phone_number <$> users (db w)) ->
  Auth.validateForm true formData = true ->
  u ∈ users (db w) ->
  Users.phone_number u = Auth.fullPhoneNumber formData ->
  (AuthPage.handleLogin formData w).1
  = if decide (Users.password u = Auth.password formData)
    then AuthPage.LoggedIn (Users.id u) else AuthPage.WrongPassword.
Proof.
  intros Hs Hnd Hv Hu Hp.
  now apply handleLogin_found.
Qed.

Lemma handleLogin_complete_witness :
  (AuthPage.handleLogin (sampleLogin "+254711111111" "secret") sampleWorld).1
  = AuthPage.LoggedIn "a".
Proof.
  apply (handleLogin_complete (sampleLogin "+254711111111" "secret")
           sampleWorld (sampleUser "a" "Ann" "+254711111111" "11111111")).
  - exact I.
  - apply (bool_decide_unpack _). vm_compute. reflexivity.
  - vm_compute. reflexivity.
  - apply list_elem_of_here.
  - reflexivity.
Defined.

(** A registration either succeeds, and then exactly one user is added:
    not an administrator, with the phone number of the form in the stored
    pattern, and the session is the session of that user; or it does not
    succeed, and then neither the store nor the session has changed. *)
Theorem handleRegister_atomic (formData : Auth.FormData) (w : World) :
  ((Auth.handleRegister formData w).1 = Auth.Registered (uuids w (issued w))
   /\ users (db (Auth.handleRegister formData w).2)
      = (users (db w) ++ [newUser formData w])%list
   /\ sales (db (Auth.handleRegister formData w).2) = sales (db w)
   /\ Users.is_admin (newUser formData w) = false
   /\ isStoredPhone (Users.phone_number (newUser formData w)) = true
   /\ ~ (uuids w (issued w) ∈ (Users.id <$> users (db w)))
   /\ session (Auth.handleRegister formData w).2 !! "userId"
      = Some (uuids w (issued w)))
  \/ ((forall id, (Auth.handleRegister formData w).1 <> Auth.Registered id)
      /\ db (Auth.handleRegister formData w).2 = db w
      /\ session (Auth.handleRegister formData w).2 = session w).
Proof.
  destruct (handleRegister_cases formData w)
    as [[_ H]|[(_ & o & w' & H & Hno & _ & Hdb & Hse)|(Hv & n & H & Hid & _)]];
    rewrite H.
  - right. repeat split. discriminate.
  - right. now repeat split.
  - left. repeat split; try assumption.
    + apply auth_validateForm_true in Hv as (_ & Hphone & _).
      apply phoneNumberError_None in Hphone. cbn [newUser Users.phone_number].
      unfold Auth.fullPhoneNumber. now rewrite isStoredPhone_prefixed.
    + cbn. rewrite lookup_insert_ne by discriminate. apply lookup_insert_eq.
Qed.

(** With a store that answers, registration keeps the invariant of the
    users: no phone number and no ID number held by two users. *)
Theorem handleRegister_unique (formData : Auth.FormData) (w : World) :
  reliable w -> uniqueUsers (db w) ->
  uniqueUsers (db (Auth.handleRegister formData w).2).
Proof.
  intros Hrel [Hphones Hids].
  destruct (handleRegister_cases formData w)
    as [[_ H]|[(_ & o & w' & H & _ & _ & Hdb & _)|(Hv & n & H & _ & Hn)]];
    rewrite H; cbn [snd].
  - now split.
  - rewrite Hdb. now split.
  - destruct (Hn Hrel) as (_ & Hp & Hi).
    unfold uniqueUsers. cbn [db set_net registeredWorld set_session set_issued
                              set_db users].
    rewrite !fmap_app. cbn [fmap list_fmap newUser Users.phone_number
                              Users.id_number].
    split; apply NoDup_app; (split; [assumption|split; [|apply NoDup_singleton]]).
    + intros x Hx Hx'. apply list_elem_of_singleton in Hx'. subst x.
      revert Hx. now apply not_found_of_unique.
    + intros x Hx Hx'. apply list_elem_of_singleton in Hx'. subst x.
      revert Hx. now apply not_found_of_unique.
Qed.

Lemma handleRegister_unique_witness :
  uniqueUsers (db (Auth.handleRegister sampleForm sampleWorld).2).
Proof.
  apply (handleRegister_unique sampleForm sampleWorld).
  - constructor.
  - split; apply (bool_decide_unpack _); vm_compute; reflexivity.
Defined.

(** With a store that answers and holds no duplicates, a user who has
    just registered can log in with the same form. *)
Theorem register_then_login (formData : Auth.FormData) (w : World)
  (id : string) :
  reliable w -> uniqueUsers (db w) ->
  (Auth.handleRegister formData w).1 = Auth.Registered id ->
  (AuthPage.handleLogin formData (Auth.handleRegister formData w).2).1
  = AuthPage.LoggedIn id.
Proof.
  intros Hrel [Hphones _] Hreg.
  destruct (handleRegister_cases formData w)
    as [[_ H]|[(_ & o & w' & H & Hno & _)|(Hv & n & H & _ & Hn)]];
    rewrite H in Hreg |- *; cbn [fst snd] in *;
    [discriminate|now destruct (Hno id)|].
  injection Hreg as <-.
  destruct (Hn Hrel) as (Hnrel & Hp & _).
  set (w1 := set_net n (registeredWorld formData w)).
  assert (Hf : filter (fun u => Users.phone_number u
                                = Auth.fullPhoneNumber formData)
                 (users (db w1)) = [newUser formData w]).
  { subst w1. cbn [db set_net registeredWorld set_session set_issued set_db
                   users].
    rewrite filter_app, filter_absent
      by (now apply not_found_of_unique).
    now rewrite filter_cons_True, filter_nil by reflexivity. }
  destruct (handleLogin_cases formData w1)
    as [[Hv' _]|[(_ & n' & _ & Hno)|(_ & n' & u & _ & Hf' & Hout)]].
  - apply login_valid_of_register in Hv. congruence.
  - assert (Hs : served w1) by (apply reliable_served; exact Hnrel).
    destruct (Hno Hs) as [_ Hno']. now destruct (Hno' (newUser formData w)).
  - rewrite Hf in Hf'. injection Hf' as <-.
    destruct Hout as [[Hpw _]|[_ ->]]; [now destruct Hpw|reflexivity].
Qed.

Lemma register_then_login_witness :
  (AuthPage.handleLogin sampleForm
     (Auth.handleRegister sampleForm sampleWorld).2).1
  = AuthPage.LoggedIn "user-0000".
Proof.
  apply (register_then_login sampleForm sampleWorld "user-0000").
  - constructor.
  - split; apply (bool_decide_unpack _); vm_compute; reflexivity.
  - vm_compute. reflexivity.
Defined.

(** ** The profile page *)

Lemma update_user_cases (patch : Users.row -> Users.row) (id : string)
  (w : World) :
  (exists f n, net w = Some f :: n
               /\ update_user patch id w
                  = (failed (fault_error f), set_net n w))
  \/ (exists n, servedRest w n
                /\ update_user patch id w
                   = ({| data := None; error := None |},
                      set_net n
                        (set_db {| users := patchedUsers patch id
                                              (users (db w));
                                   sales := sales (db w) |} w))).
Proof.
  unfold update_user.
  match goal with
  | |- context [request ?s w] =>
      destruct (request_cases s w) as [(f & n & Hn & ->)|(n & Hn & ->)]
  end.
  - left. now exists f, n.
  - right. exists n. now split.
Qed.

Lemma passwordErrors_empty (formData : Profile.FormData) :
  Profile.validatePasswordForm formData = true <->
  Profile.currentPassword formData <> ""
  /\ (6 <= String.length (Profile.newPassword formData))%nat
  /\ Profile.confirmPassword formData = Profile.newPassword formData
  /\ Profile.currentPassword formData <> Profile.newPassword formData.
Proof.
  unfold Profile.validatePasswordForm, Profile.passwordErrors.
  rewrite noKeys_true, !addError_empty.
  repeat case_bool_decide; simpl;
    destruct (Nat.ltb_spec (String.length (Profile.newPassword formData)) 6);
    split; intros Hyp; try (intuition congruence); try (intuition lia).
  all: destruct Hyp as (? & Hlen & ? & ?);
    destruct (Profile.newPassword formData) eqn:Hnew; simpl in *;
    try lia; intuition congruence.
Qed.

(** The password form is valid exactly when the current password is
    given, the new one has six characters or more, is confirmed, and
    differs from the current one. *)
Theorem validatePasswordForm_iff (formData : Profile.FormData) :
  Profile.validatePasswordForm formData = true <->
  Profile.currentPassword formData <> ""
  /\ (6 <= String.length (Profile.newPassword formData))%nat
  /\ Profile.confirmPassword formData = Profile.newPassword formData
  /\ Profile.currentPassword formData <> Profile.newPassword formData.
Proof.
  split.
  - intros Hv. now apply passwordErrors_empty in Hv.
  - intros Hform. now apply passwordErrors_empty.
Qed.

Lemma patchedUsers_column (patch : Users.row -> Users.row) (id : string)
  (column : Users.row -> string) (us : list Users.row) :
  (forall u, column (patch u) = column u) ->
  column <$> patchedUsers patch id us = column <$> us.
Proof.
  intros Hcol. unfold patchedUsers. rewrite <- list_fmap_compose.
  apply list_fmap_ext. intros i u _. simpl.
  case_bool_decide; [apply Hcol|reflexivity].
Qed.

Lemma patchedUsers_elem (patch : Users.row -> Users.row) (id : string)
  (us : list Users.row) (u : Users.row) :
  u ∈ us -> Users.id u = id -> patch u ∈ patchedUsers patch id us.
Proof.
  intros Hu Hid. unfold patchedUsers.
  apply list_elem_of_fmap. exists u. split; [|exact Hu].
  now rewrite bool_decide_eq_true_2.
Qed.

(** The ways of [handleChangePassword], with the world after each. *)
Lemma handleChangePassword_cases (userProfile : option Profile.UserProfile)
  (formData : Profile.FormData) (w : World) :
  (exists outcome n,
     Profile.handleChangePassword userProfile formData w
     = (outcome, set_net n w)
     /\ outcome <> Profile.PasswordChanged
     /\ (outcome = Profile.PasswordInvalid <->
         Profile.validatePasswordForm formData = false))
  \/ (exists profile u n,
        userProfile = Some profile
        /\ Profile.validatePasswordForm formData = true
        /\ filter (fun u => Users.id u = Profile.id profile) (users (db w))
           = [u]
        /\ Users.password u = Profile.currentPassword formData
        /\ Profile.handleChangePassword userProfile formData w
           = (Profile.PasswordChanged,
              set_net n
                (set_db {| users := patchedUsers
                                      (withPassword
                                         (Profile.newPassword formData))
                                      (Profile.id profile) (users (db w));
                           sales := sales (db w) |} w))
        /\ (reliable w -> Forall (fun f => f = None) n)).
Proof.
  remember (Profile.handleChangePassword userProfile formData w) as res
    eqn:Hres.
  unfold Profile.handleChangePassword in Hres.
  destruct (Profile.validatePasswordForm formData) eqn:Hv;
    cbn [negb] in Hres;
    [|left; exists Profile.PasswordInvalid, (net w);
      rewrite set_net_same; repeat split; auto; discriminate].
  assert (Hfail : forall (o : Profile.PasswordOutcome) n,
            res = (o, set_net n w) -> o <> Profile.PasswordChanged ->
            o <> Profile.PasswordInvalid ->
            exists outcome n0,
              res = (outcome, set_net n0 w)
              /\ outcome <> Profile.PasswordChanged
              /\ (outcome = Profile.PasswordInvalid <-> true = false)).
  { intros o n ? ? ?. exists o, n. repeat split; try assumption;
      intros; congruence. }
  destruct userProfile as [profile|];
    [|left; apply (Hfail Profile.PasswordChangeFailed (net w));
      [now rewrite set_net_same|discriminate|discriminate]].
  unfold bind at 1 in Hres.
  destruct (select_user_single_cases Users.id (Profile.id profile) w)
    as [(f & n & Hn & Hr)|(n & Hn & Hr)]; rewrite Hr in Hres; clear Hr.
  { left. now apply (Hfail Profile.PasswordChangeFailed n). }
  destruct (single _) as [[u|] [e|]] eqn:Hsingle; cbn [error data] in Hres;
    try (left; now apply (Hfail Profile.PasswordChangeFailed n)).
  assert (Hf : filter (fun u => Users.id u = Profile.id profile)
                 (users (db w)) = [u])
    by (apply single_found; now rewrite Hsingle).
  destruct (decide (Users.password u = Profile.currentPassword formData))
    as [Hpw|Hpw].
  2:{ rewrite bool_decide_eq_false_2 in Hres by exact Hpw.
      left. now apply (Hfail Profile.CurrentPasswordIncorrect n). }
  rewrite bool_decide_eq_true_2 in Hres by exact Hpw. cbn [negb] in Hres.
  unfold bind at 1 in Hres.
  destruct (update_user_cases (withPassword (Profile.newPassword formData))
              (Profile.id profile) (set_net n w))
    as [(f & n' & Hn' & Hr)|(n' & Hn' & Hr)]; rewrite Hr in Hres; clear Hr;
    cbn [error failed] in Hres.
  { left. now apply (Hfail Profile.PasswordChangeFailed n'). }
  right. exists profile, u, n'. repeat split; try assumption.
  intros Hrel. apply (servedRest_reliable w n) in Hrel; [|exact Hn].
  exact (servedRest_reliable _ n' Hrel Hn').
Qed.

(** The password is changed only for the user of the profile, only when
    the current password of the form is the stored one, and to the new
    password of the form; nothing else in the store changes.  When the
    password is not changed, the store is what it was. *)
Theorem handleChangePassword_atomic
  (userProfile : option Profile.UserProfile) (formData : Profile.FormData)
  (w : World) :
  (exists profile u,
     (Profile.handleChangePassword userProfile formData w).1
     = Profile.PasswordChanged
     /\ userProfile = Some profile
     /\ u ∈ users (db w) /\ Users.id u = Profile.id profile
     /\ Users.password u = Profile.currentPassword formData
     /\ Profile.newPassword formData <> Users.password u
     /\ users (db (Profile.handleChangePassword userProfile formData w).2)
        = patchedUsers (withPassword (Profile.newPassword formData))
            (Profile.id profile) (users (db w))
     /\ sales (db (Profile.handleChangePassword userProfile formData w).2)
        = sales (db w))
  \/ ((Profile.handleChangePassword userProfile formData w).1
      <> Profile.PasswordChanged
      /\ db (Profile.handleChangePassword userProfile formData w).2 = db w).
Proof.
  destruct (handleChangePassword_cases userProfile formData w)
    as [(o & n & -> & Ho & _)|(p & u & n & Hp & Hv & Hf & Hpw & -> & _)].
  - right. now split.
  - left. exists p, u. apply filter_singleton_elem in Hf as [Hu Hid].
    apply passwordErrors_empty in Hv as (_ & _ & _ & Hne).
    repeat split; try assumption. congruence.
Qed.

(** Once the password of a user is changed, with a store that answers
    and in which no phone number is held twice, a valid login form with
    the phone number of that user is accepted with the new password and
    refused with any other one, the old one included. *)
Theorem change_password_then_login
  (profile : Profile.UserProfile) (formData : Profile.FormData) (w : World)
  (u : Users.row) (login : Auth.FormData) :
  reliable w -> NoDup (Users.phone_number <$> users (db w)) ->
  u ∈ users (db w) -> Users.id u = Profile.id profile ->
  (Profile.handleChangePassword (Some profile) formData w).1
  = Profile.PasswordChanged ->
  Auth.validateForm true login = true ->
  Auth.fullPhoneNumber login = Users.phone_number u ->
  (AuthPage.handleLogin login
     (Profile.handleChangePassword (Some profile) formData w).2).1
  = if decide (Auth.password login = Profile.newPassword formData)
    then AuthPage.LoggedIn (Users.id u) else AuthPage.WrongPassword.
Proof.
  intros Hrel Hnd Hu Hid Hch Hv Hphone.
  destruct (handleChangePassword_cases (Some profile) formData w)
    as [(o & n & H & Ho & _)|(p & u' & n & Hp & _ & _ & _ & H & Hn)];
    rewrite H in Hch |- *; cbn [fst snd] in *; [congruence|].
  injection Hp as <-.
  set (w' := set_net n _).
  rewrite (handleLogin_found login w'
             (withPassword (Profile.newPassword formData) u)).
  - cbn [withPassword Users.password Users.id].
    destruct (decide _), (decide _); congruence.
  - apply reliable_served. exact (Hn Hrel).
  - subst w'. cbn [db set_net set_db users].
    now rewrite patchedUsers_column.
  - exact Hv.
  - subst w'. cbn [db set_net set_db users].
    now apply patchedUsers_elem.
  - now rewrite Hphone.
Qed.

Lemma change_password_then_login_witness :
  (AuthPage.handleLogin (sampleLogin "+254711111111" "secret")
     (Profile.handleChangePassword (Some sampleProfile) samplePasswordForm
        sampleWorld).2).1
  = AuthPage.WrongPassword.
Proof.
  apply (change_password_then_login sampleProfile samplePasswordForm
           sampleWorld (sampleUser "a" "Ann" "+254711111111" "11111111")
           (sampleLogin "+254711111111" "secret")).
  - constructor.
  - apply (bool_decide_unpack _). vm_compute. reflexivity.
  - apply list_elem_of_here.
  - reflexivity.
  - vm_compute. reflexivity.
  - vm_compute. reflexivity.
  - reflexivity.
Defined.

(** The password form does not trim: it accepts a new password of six
    or more characters that are all white space, and no login form with
    that password passes the validation of the login, whatever the
    store. *)
Theorem blank_password_locks_out (formData : Profile.FormData)
  (login : Auth.FormData) (w : World) :
  JS.all JS.isWhiteSpace (Profile.newPassword formData) = true ->
  (6 <= String.length (Profile.newPassword formData))%nat ->
  Profile.currentPassword formData <> "" ->
  Profile.currentPassword formData <> Profile.newPassword formData ->
  Profile.confirmPassword formData = Profile.newPassword formData ->
  Auth.password login = Profile.newPassword formData ->
  Profile.validatePasswordForm formData = true
  /\ AuthPage.handleLogin login w = (AuthPage.LoginInvalid, w).
Proof.
  intros Hblank Hlen Hcur Hne Hconf Hpw.
  split; [now apply passwordErrors_empty|].
  destruct (handleLogin_cases login w) as [[_ H]|[[Hv _]|[Hv _]]];
    [exact H| |];
    apply auth_validateForm_true in Hv as (_ & _ & _ & Hp & _);
    unfold Auth.passwordError in Hp; rewrite Hpw in Hp;
    rewrite bool_decide_eq_true_2 in Hp by (now apply trim_empty);
    discriminate.
Qed.

Lemma blank_password_locks_out_witness :
  Profile.validatePasswordForm blankPasswordForm = true
  /\ AuthPage.handleLogin (sampleLogin "+254711111111" "      ") sampleWorld
     = (AuthPage.LoginInvalid, sampleWorld).
Proof.
  apply (blank_password_locks_out blankPasswordForm
           (sampleLogin "+254711111111" "      ") sampleWorld);
    try reflexivity; try discriminate; simpl; lia.
Defined.

Lemma validateNameForm_true (formData : Profile.FormData) :
  Profile.validateNameForm formData = true <->
  (2 <= String.length (JS.trim (Profile.formName formData)) <= 50)%nat.
Proof.
  unfold Profile.validateNameForm, Profile.nameError.
  rewrite noKeys_true, addError_empty.
  case_bool_decide as Hempty.
  - rewrite Hempty. simpl. split; [intros [? _]; discriminate|lia].
  - destruct (Nat.ltb_spec (String.length (JS.trim (Profile.formName formData))) 2);
      [split; [intros [? _]; discriminate|lia]|].
    destruct (Nat.ltb_spec 50 (String.length (JS.trim (Profile.formName formData))));
      [split; [intros [? _]; discriminate|lia]|].
    split; [lia|now split].
Qed.

(** The name of the profile is changed only to a trimmed name of 2 to 50
    characters, only in the rows of the user of the profile, and no
    phone number, ID number or password changes with it; when the name
    is not changed the store is what it was. *)
Theorem handleUpdateName_atomic (userProfile : option Profile.UserProfile)
  (formData : Profile.FormData) (w : World) :
  (exists profile,
     (Profile.handleUpdateName userProfile formData w).1 = Profile.NameUpdated
     /\ userProfile = Some profile
     /\ (2 <= String.length (JS.trim (Profile.formName formData)) <= 50)%nat
     /\ users (db (Profile.handleUpdateName userProfile formData w).2)
        = patchedUsers (withName (JS.trim (Profile.formName formData)))
            (Profile.id profile) (users (db w))
     /\ sales (db (Profile.handleUpdateName userProfile formData w).2)
        = sales (db w)
     /\ Users.phone_number
          <$> users (db (Profile.handleUpdateName userProfile formData w).2)
        = Users.phone_number <$> users (db w)
     /\ Users.id_number
          <$> users (db (Profile.handleUpdateName userProfile formData w).2)
        = Users.id_number <$> users (db w)
     /\ Users.password
          <$> users (db (Profile.handleUpdateName userProfile formData w).2)
        = Users.password <$> users (db w))
  \/ ((Profile.handleUpdateName userProfile formData w).1
      <> Profile.NameUpdated
      /\ db (Profile.handleUpdateName userProfile formData w).2 = db w).
Proof.
  remember (Profile.handleUpdateName userProfile formData w) as res eqn:Hres.
  unfold Profile.handleUpdateName in Hres.
  destruct (Profile.validateNameForm formData) eqn:Hv; cbn [negb] in Hres;
    [|right; subst res; split; [discriminate|reflexivity]].
  destruct userProfile as [profile|];
    [|right; subst res; split; [discriminate|reflexivity]].
  unfold bind at 1 in Hres.
  destruct (update_user_cases
              (withName (JS.trim (Profile.formName formData)))
              (Profile.id profile) w)
    as [(f & n & Hn & Hr)|(n & Hn & Hr)]; rewrite Hr in Hres; clear Hr;
    cbn [error failed] in Hres; subst res.
  - right. split; [discriminate|reflexivity].
  - left. exists profile. apply validateNameForm_true in Hv.
    cbn [ret fst snd db set_net set_db users sales].
    rewrite !patchedUsers_column by reflexivity.
    repeat split; try reflexivity; apply Hv.
Qed.

(** ** The session *)

Lemma truthy_Some (s : option string) :
  truthy s = true -> exists v, s = Some v /\ v <> "".
Proof.
  destruct s as [v|]; simpl; [|discriminate].
  case_bool_decide; [discriminate|]. intros _. now exists v.
Qed.

(** [loadUserProfile] never writes to the store.  Without an identifier
    in the session it changes nothing; it loads the profile of the user
    whose identifier the session holds; and when the lookup gives no
    user, which is also what it does when the request is not served, it
    removes the identifier from the session. *)
Theorem loadUserProfile_session (w : World) :
  db (Profile.loadUserProfile w).2 = db w
  /\ match (Profile.loadUserProfile w).1 with
     | Profile.NoSession =>
         truthy (session w !! "userId") = false
         /\ session (Profile.loadUserProfile w).2 = session w
     | Profile.ProfileLoadFailed =>
         truthy (session w !! "userId") = true
         /\ session (Profile.loadUserProfile w).2
            = delete "userId" (session w)
     | Profile.ProfileLoaded userProfile =>
         session (Profile.loadUserProfile w).2 = session w
         /\ exists u, u ∈ users (db w)
                      /\ session w !! "userId" = Some (Users.id u)
                      /\ userProfile
                         = {| Profile.id := Users.id u;
                              Profile.name := Users.name u;
                              Profile.is_admin := Users.is_admin u |}
     end
  /\ (forall f n, net w = Some f :: n ->
        truthy (session w !! "userId") = true ->
        (Profile.loadUserProfile w).1 = Profile.ProfileLoadFailed).
Proof.
  remember (Profile.loadUserProfile w) as res eqn:Hres.
  unfold Profile.loadUserProfile, bind, getItem in Hres.
  cbv beta iota in Hres.
  destruct (truthy (session w !! "userId")) eqn:Ht; cbn [negb] in Hres;
    [|subst res; repeat split; intros; discriminate].
  destruct (truthy_Some _ Ht) as (sid & Hsid & Hne).
  rewrite Hsid in Hres. cbn [default id] in Hres.
  destruct (select_user_single_cases Users.id sid w)
    as [(f & n & Hn & Hr)|(n & Hn & Hr)]; rewrite Hr in Hres; clear Hr.
  - subst res. cbn. repeat split.
  - destruct (single _) as [[u|] [e|]] eqn:Hsingle; cbn [error data] in Hres;
      subst res; cbn; try (repeat split; fail).
    assert (Hf : filter (fun u => Users.id u = sid) (users (db w)) = [u])
      by (apply single_found; now rewrite Hsingle).
    apply filter_singleton_elem in Hf as [Hu Hid].
    split; [reflexivity|split; [split; [reflexivity|]|]].
    + exists u. rewrite Hid. now repeat split.
    + intros f n' Hn'. destruct Hn as [Hn|[Hn _]];
        rewrite Hn in Hn'; discriminate.
Qed.

Lemma loadUserProfile_session_witness :
  (Profile.loadUserProfile offlineWorld).1 = Profile.ProfileLoadFailed.
Proof.
  apply (proj2 (proj2 (loadUserProfile_session offlineWorld))
           Unreachable []); reflexivity.
Defined.

Lemma rootCheckSession_cases (w : World) :
  exists n,
    (RootLayout.checkSession w = ("auth", set_net n w))
    \/ (exists sid u,
          session w !! "userId" = Some sid /\ sid <> ""
          /\ filter (fun u => Users.id u = sid) (users (db w)) = [u]
          /\ RootLayout.checkSession w = ("(tabs)", set_net n w)).
Proof.
  remember (RootLayout.checkSession w) as res eqn:Hres.
  unfold RootLayout.checkSession, bind, getItem in Hres.
  cbv beta iota in Hres.
  destruct (truthy (session w !! "userId")) eqn:Ht;
    [|exists (net w); left; now rewrite set_net_same].
  destruct (truthy_Some _ Ht) as (sid & Hsid & Hne).
  rewrite Hsid in Hres. cbn [default id] in Hres.
  destruct (select_user_single_cases Users.id sid w)
    as [(f & n & Hn & Hr)|(n & Hn & Hr)]; rewrite Hr in Hres; clear Hr;
    exists n; [now left|].
  destruct (single _) as [[u|] [e|]] eqn:Hsingle; cbn [error data] in Hres;
    [now left| |now left|now left].
  right. exists sid, u. repeat split; try assumption.
  apply single_found; now rewrite Hsingle.
Qed.

(** The start of the application never changes the store or the
    session; it opens the tabs only when the session holds the non-empty
    identifier of a user of the store, and the login screen otherwise. *)
Theorem rootCheckSession_route (w : World) :
  db (RootLayout.checkSession w).2 = db w
  /\ session (RootLayout.checkSession w).2 = session w
  /\ ((RootLayout.checkSession w).1 = "auth"
      \/ (RootLayout.checkSession w).1 = "(tabs)"
         /\ exists u, u ∈ users (db w) /\ Users.id u <> ""
                      /\ session w !! "userId" = Some (Users.id u)).
Proof.
  destruct (rootCheckSession_cases w)
    as (n & [->|(sid & u & Hsid & Hne & Hf & ->)]).
  - repeat split. now left.
  - repeat split. right. split; [reflexivity|].
    apply filter_singleton_elem in Hf as [Hu Hid].
    exists u. rewrite Hid. now repeat split.
Qed.

(** After a logout, from the tabs or from the profile page, the start
    of the application opens the login screen, whatever the store holds;
    a logout does not touch the store; the logout of the tabs removes
    the name from the session too, the logout of the profile page leaves
    it. *)
Theorem logout_then_checkSession (w : World) :
  (RootLayout.checkSession (TabLayout.handleLogout w).2).1 = "auth"
  /\ (RootLayout.checkSession (Profile.handleLogout w).2).1 = "auth"
  /\ db (TabLayout.handleLogout w).2 = db w
  /\ db (Profile.handleLogout w).2 = db w
  /\ session (TabLayout.handleLogout w).2 !! "userName" = None
  /\ session (Profile.handleLogout w).2 !! "userName"
     = session w !! "userName".
Proof.
  assert (Hout : forall w', session w' !! "userId" = None ->
                   (RootLayout.checkSession w').1 = "auth").
  { intros w' Hnone.
    destruct (rootCheckSession_cases w')
      as (n & [->|(sid & u & Hsid & _)]); [reflexivity|congruence]. }
  repeat split.
  - apply Hout. cbn. rewrite lookup_delete_ne by discriminate.
    apply lookup_delete_eq.
  - apply Hout. cbn. apply lookup_delete_eq.
  - cbn. apply lookup_delete_eq.
  - cbn. now rewrite lookup_delete_ne by discriminate.
Qed.

Lemma session_lookup_found (w : World) (u : Users.row) :
  served w -> NoDup (Users.id <$> users (db w)) -> u ∈ users (db w) ->
  exists n, servedRest w n
            /\ select_user_single Users.id (Users.id u) w
               = (ok u, set_net n w).
Proof.
  intros Hs Hnd Hu.
  destruct (select_user_single_cases Users.id (Users.id u) w)
    as [(f & n & Hn & _)|(n & Hn & ->)].
  - unfold served in Hs. now rewrite Hn in Hs.
  - exists n. split; [exact Hn|].
    assert (Hin : Users.id u ∈ (Users.id <$> users (db w)))
      by now apply list_elem_of_fmap_2.
    destruct (filter_unique Users.id _ _ Hnd Hin) as [r Hr].
    assert (Hmem : u ∈ filter (fun v => Users.id v = Users.id u)
                         (users (db w)))
      by (apply list_elem_of_filter; now split).
    rewrite Hr in Hmem |- *. apply list_elem_of_singleton in Hmem.
    now subst r.
Qed.

(** With a store that answers and in which no identifier is held twice,
    the start of the application after a login opens the tabs. *)
Theorem login_then_checkSession (formData : Auth.FormData) (w : World)
  (id : string) :
  reliable w -> NoDup (Users.id <$> users (db w)) -> id <> "" ->
  (AuthPage.handleLogin formData w).1 = AuthPage.LoggedIn id ->
  (RootLayout.checkSession (AuthPage.handleLogin formData w).2).1 = "(tabs)".
Proof.
  intros Hrel Hnd Hne Hin.
  destruct (handleLogin_cases formData w)
    as [[_ H]|[(_ & n & H & _)|(Hv & n & u & Hn & Hf & [[_ H]|[Hpw H]])]];
    rewrite H in Hin |- *; try discriminate.
  injection Hin as <-. cbn [snd].
  apply filter_singleton_elem in Hf as [Hu _].
  set (w1 := loggedInSession u (set_net n w)).
  assert (Hs : served w1).
  { apply reliable_served. exact (servedRest_reliable w n Hrel Hn). }
  destruct (session_lookup_found w1 u Hs Hnd Hu) as (n' & _ & Hsel).
  unfold RootLayout.checkSession, bind, getItem. cbv beta iota.
  assert (Hsid : session w1 !! "userId" = Some (Users.id u)).
  { subst w1. cbn. rewrite lookup_insert_ne by discriminate.
    apply lookup_insert_eq. }
  rewrite Hsid. cbn [truthy default id].
  rewrite bool_decide_eq_false_2 by exact Hne. cbn [negb].
  now rewrite Hsel.
Qed.

Lemma login_then_checkSession_witness :
  (RootLayout.checkSession
     (AuthPage.handleLogin (sampleLogin "+254711111111" "secret")
        sampleWorld).2).1 = "(tabs)".
Proof.
  apply (login_then_checkSession (sampleLogin "+254711111111" "secret")
           sampleWorld "a").
  - constructor.
  - apply (bool_decide_unpack _). vm_compute. reflexivity.
  - discriminate.
  - vm_compute. reflexivity.
Defined.

(** ** The session of the leaderboard page *)

Section CollationFacts.

Context (collate : relation string) `{!RelDecision collate}.

Lemma fetchUsers_cases (w : World) :
  exists n,
    HomePage.fetchUsers collate w = (HomePage.UsersFailed, set_net n w)
    \/ (servedRest w n
        /\ HomePage.fetchUsers collate w
           = (HomePage.UsersLoaded
                (merge_sort (HomePage.byName collate)
                   ((fun u => {| HomePage.id := Users.id u;
                                 HomePage.name := Users.name u |})
                      <$> users (db w))),
              set_net n w)).
Proof.
  unfold HomePage.fetchUsers, bind, HomePage.select_users.
  match goal with
  | |- context [request ?s w] =>
      destruct (request_cases s w) as [(f & n & Hn & ->)|(n & Hn & ->)]
  end; exists n; [now left|right; now split].
Qed.

(** The ways of [checkSession] of the leaderboard page. *)
Lemma homeCheckSession_cases (w : World) :
  (truthy (session w !! "userId") = false
   /\ HomePage.checkSession collate w = (HomePage.SessionExpired, w))
  \/ (truthy (session w !! "userId") = true
      /\ exists n,
           HomePage.checkSession collate w
           = (HomePage.UserLoadFailed,
              set_session (delete "userId" (session w)) (set_net n w)))
  \/ (exists sid u leaderboard us n,
        session w !! "userId" = Some sid /\ sid <> ""
        /\ filter (fun u => Users.id u = sid) (users (db w)) = [u]
        /\ HomePage.checkSession collate w
           = (HomePage.SessionChecked
                (bool_decide (Users.is_admin u = true)) leaderboard us,
              set_net n w)).
Proof.
  remember (HomePage.checkSession collate w) as res eqn:Hres.
  unfold HomePage.checkSession in Hres. unfold bind at 1, getItem in Hres.
  cbv beta iota in Hres.
  destruct (truthy (session w !! "userId")) eqn:Ht; cbn [negb] in Hres;
    [right|left; now split].
  destruct (truthy_Some _ Ht) as (sid & Hsid & Hne).
  rewrite Hsid in Hres. cbn [default id] in Hres.
  unfold bind at 1 in Hres.
  destruct (select_user_single_cases Users.id sid w)
    as [(f & n & Hn & Hr)|(n & Hn & Hr)]; rewrite Hr in Hres; clear Hr.
  { left. split; [reflexivity|]. now exists n. }
  destruct (single _) as [[u|] [e|]] eqn:Hsingle; cbn [error data] in Hres;
    try (left; split; [reflexivity|]; now exists n).
  right.
  assert (Hf : filter (fun u => Users.id u = sid) (users (db w)) = [u])
    by (apply single_found; now rewrite Hsingle).
  unfold bind at 1 in Hres.
  destruct (fetchLeaderboard_cases (set_net n w))
    as (n1 & [(f & _ & Hr)|(_ & Hr)]); rewrite Hr in Hres; clear Hr;
    unfold bind at 1 in Hres;
    destruct (fetchUsers_cases (set_net n1 (set_net n w)))
      as (n2 & [Hr|[_ Hr]]); rewrite Hr in Hres; clear Hr;
    eexists sid, u, _, _, n2; repeat split; try assumption; exact Hres.
Qed.

(** The leaderboard page shows the controls of an administrator only
    when the user whose identifier the session holds is one in the
    store; it never writes to the store, and it changes the session only
    when it finds no such user, by removing the identifier. *)
Theorem homeCheckSession_admin (w : World) :
  db (HomePage.checkSession collate w).2 = db w
  /\ match (HomePage.checkSession collate w).1 with
     | HomePage.SessionExpired =>
         session (HomePage.checkSession collate w).2 = session w
     | HomePage.UserLoadFailed =>
         session (HomePage.checkSession collate w).2
         = delete "userId" (session w)
     | HomePage.SessionChecked isAdmin _ _ =>
         session (HomePage.checkSession collate w).2 = session w
         /\ exists u, u ∈ users (db w)
                      /\ session w !! "userId" = Some (Users.id u)
                      /\ isAdmin = Users.is_admin u
     end.
Proof.
  destruct (homeCheckSession_cases w)
    as [[_ ->]|[(_ & n & ->)|(sid & u & lb & us & n & Hsid & _ & Hf & ->)]];
    cbn; repeat split.
  apply filter_singleton_elem in Hf as [Hu Hid].
  exists u. rewrite Hid. repeat split; try assumption.
  now destruct (Users.is_admin u).
Qed.

(** With a store that answers and in which no identifier is held twice,
    a user who has just registered is not shown the controls of an
    administrator. *)
Theorem registered_user_is_not_admin (formData : Auth.FormData) (w : World)
  (id : string) :
  reliable w -> NoDup (Users.id <$> users (db w)) -> id <> "" ->
  (Auth.handleRegister formData w).1 = Auth.Registered id ->
  exists leaderboard us,
    (HomePage.checkSession collate (Auth.handleRegister formData w).2).1
    = HomePage.SessionChecked false leaderboard us.
Proof.
  intros Hrel Hnd Hne Hreg.
  destruct (handleRegister_cases formData w)
    as [[_ H]|[(_ & o & w' & H & Hno & _)|(Hv & n & H & Hid & Hn)]];
    rewrite H in Hreg |- *; cbn [fst snd] in *;
    [discriminate|now destruct (Hno id)|].
  injection Hreg as <-.
  destruct (Hn Hrel) as (Hnrel & _).
  set (w1 := set_net n (registeredWorld formData w)).
  assert (Hf : filter (fun u => Users.id u = uuids w (issued w))
                 (users (db w1)) = [newUser formData w]).
  { subst w1. cbn [db set_net registeredWorld set_session set_issued set_db
                   users].
    rewrite filter_app, filter_absent by exact Hid.
    now rewrite filter_cons_True, filter_nil by reflexivity. }
  assert (Hsid : session w1 !! "userId" = Some (uuids w (issued w))).
  { subst w1. cbn. rewrite lookup_insert_ne by discriminate.
    apply lookup_insert_eq. }
  destruct (homeCheckSession_cases w1)
    as [[Ht _]|[(_ & n' & Hfail)|(sid & u & lb & us & n' & Hsid' & _ & Hf'
                                 & ->)]].
  - rewrite Hsid in Ht. cbn in Ht.
    rewrite bool_decide_eq_false_2 in Ht by exact Hne. discriminate.
  - exfalso. revert Hfail.
    unfold HomePage.checkSession. unfold bind at 1, getItem.
    cbv beta iota. rewrite Hsid. cbn [truthy default id].
    rewrite bool_decide_eq_false_2 by exact Hne. cbn [negb].
    unfold bind at 1.
    destruct (select_user_single_cases Users.id (uuids w (issued w)) w1)
      as [(f & n2 & Hn2 & _)|(n2 & _ & ->)].
    + apply (not_reliable_fault w1 f n2) in Hn2. now destruct Hn2.
    + rewrite Hf. cbn [single error data ok]. unfold bind at 1.
      destruct (Home.fetchLeaderboard _) as [lb w2].
      unfold bind at 1.
      destruct (HomePage.fetchUsers collate w2) as [us w3].
      discriminate.
  - rewrite Hsid in Hsid'. injection Hsid' as <-.
    rewrite Hf in Hf'. injection Hf' as <-.
    now exists lb, us.
Qed.

(** The picker of agents, when it is loaded, lists every user of the
    store once, in the order of the names when the collation is total;
    an agent selected from it gives the form the identifier of a user of
    the store. *)
Theorem fetchUsers_picker (w : World) (us : list HomePage.User)
  (user : HomePage.User) (formData : Home.ModalFormData) :
  (HomePage.fetchUsers collate w).1 = HomePage.UsersLoaded us ->
  us ≡ₚ (fun u => {| HomePage.id := Users.id u;
                     HomePage.name := Users.name u |}) <$> users (db w)
  /\ (Total collate -> Sorted (HomePage.byName collate) us)
  /\ (user ∈ us ->
      Home.user_id (HomePage.selectUser user formData)
      ∈ (Users.id <$> users (db w))).
Proof.
  intros Hl.
  destruct (fetchUsers_cases w) as (n & [H|[_ H]]); rewrite H in Hl;
    [discriminate|].
  injection Hl as <-.
  split; [apply merge_sort_Permutation|split].
  - intros Htot. apply Sorted_merge_sort.
    intros a b. apply Htot.
  - intros Hu. rewrite merge_sort_Permutation in Hu.
    apply list_elem_of_fmap in Hu as (u & -> & Hu).
    cbn. now apply list_elem_of_fmap_2.
Qed.

End CollationFacts.

Lemma fetchUsers_picker_witness :
  [{| HomePage.id := "a"; HomePage.name := "Ann" |};
   {| HomePage.id := "b"; HomePage.name := "Bob" |};
   {| HomePage.id := "c"; HomePage.name := "Cy" |}]
  ≡ₚ (fun u => {| HomePage.id := Users.id u; HomePage.name := Users.name u |})
       <$> users (db sampleWorld).
Proof.
  apply (fetchUsers_picker String.le sampleWorld _
           {| HomePage.id := "a"; HomePage.name := "Ann" |}
           (filledForm "" "" sampleTime)).
  vm_compute. reflexivity.
Defined.

Lemma registered_user_is_not_admin_witness :
  exists leaderboard us,
    (HomePage.checkSession String.le
       (Auth.handleRegister sampleForm sampleWorld).2).1
    = HomePage.SessionChecked false leaderboard us.
Proof.
  apply (registered_user_is_not_admin String.le sampleForm sampleWorld
           "user-0000").
  - constructor.
  - apply (bool_decide_unpack _). vm_compute. reflexivity.
  - discriminate.
  - vm_compute. reflexivity.
Defined.

(** ** The fields that keep digits only *)

Lemma isDigit_not_space (c : ascii) :
  JS.isDigit c = true -> JS.isWhiteSpace c = false.
Proof.
  unfold JS.isDigit, JS.isWhiteSpace.
  intros [H1 H2]%andb_true_iff. apply Z.leb_le in H1, H2. lia.
Qed.

Lemma trimStart_digits (s : string) :
  JS.all JS.isDigit s = true -> JS.trimStart s = s.
Proof.
  destruct s as [|c r]; [reflexivity|]. cbn [JS.all JS.trimStart].
  intros [Hc _]%andb_true_iff. now rewrite isDigit_not_space.
Qed.

Lemma trimEnd_digits (s : string) :
  JS.all JS.isDigit s = true -> JS.trimEnd s = s.
Proof.
  induction s as [|c r IH]; [reflexivity|]. cbn [JS.all JS.trimEnd].
  intros [Hc Hr]%andb_true_iff. rewrite IH by exact Hr.
  destruct r; [now rewrite isDigit_not_space|reflexivity].
Qed.

Lemma trim_digits (s : string) :
  JS.all JS.isDigit s = true -> JS.trim s = s.
Proof.
  intros Hs. unfold JS.trim. rewrite trimStart_digits by exact Hs.
  now apply trimEnd_digits.
Qed.

Lemma parseDigits_from (r : string) :
  JS.all JS.isDigit r = true ->
  forall a, 0 <= a ->
    exists d, JS.parseDigits 10 (Some a) r = Some d /\ 0 <= d.
Proof.
  induction r as [|c r IH]; intros Hr a Ha.
  - exists a. now split.
  - cbn [JS.all] in Hr. apply andb_true_iff in Hr as [Hc Hr].
    apply isDigit_cases in Hc as (e & He & ->).
    cbn [JS.parseDigits]. rewrite digitValue_digitChar by exact He.
    apply IH; [exact Hr|]. simpl. lia.
Qed.

(** The integer that a text of digits writes. *)
Lemma parseDigits_field (s : string) :
  JS.all JS.isDigit s = true -> s <> "" ->
  exists z, JS.parseDigits 10 None s = Some z /\ 0 <= z.
Proof.
  intros Hs Hne. destruct s as [|c r]; [congruence|].
  cbn [JS.all] in Hs. apply andb_true_iff in Hs as [Hc Hr].
  apply isDigit_cases in Hc as (e & He & ->).
  cbn [JS.parseDigits]. rewrite digitValue_digitChar by exact He.
  apply parseDigits_from; [exact Hr|]. simpl. lia.
Qed.

(** A text of digits is read as a number that is not negative. *)
Lemma parseInt_field (s : string) :
  JS.all JS.isDigit s = true -> s <> "" ->
  (exists d, JS.parseInt s = JS.Finite d /\ 0 <= d)
  \/ JS.parseInt s = JS.Infinity.
Proof.
  intros Hs Hne. rewrite parseInt_digits by exact Hs.
  destruct (parseDigits_field s Hs Hne) as (z & -> & Hz).
  now apply toNumber_nonneg_cases.
Qed.

(** The connections field holds digits only, so a text typed into it is
    accepted as soon as the field is not empty, and it is read as a
    decimal number that is not negative: no sign, no white space and no
    prefix [0x] reaches [parseInt].  The number is that of the integer
    that the digits write: the integer itself up to [2 ^ 53], the
    nearest double beyond, [Infinity] from [2 ^ 1024] on. *)
Theorem typed_connections_valid (text : string)
  (formData : Home.ModalFormData) :
  let typed := HomePage.typeConnections text formData in
  (Home.connectionsError typed = None <-> Home.connections typed <> "")
  /\ JS.mathInt (Home.connections typed)
     = JS.parseDigits 10 None (Home.connections typed)
  /\ JS.parseInt (Home.connections typed)
     = match JS.parseDigits 10 None (Home.connections typed) with
       | Some z => JS.toNumber z
       | None => JS.NaN
       end
  /\ (Home.connections typed <> "" ->
      exists z,
        JS.parseDigits 10 None (Home.connections typed) = Some z
        /\ 0 <= z
        /\ (z <= maxExact ->
            JS.parseInt (Home.connections typed) = JS.Finite z)
        /\ (2 ^ 1024 <= z ->
            JS.parseInt (Home.connections typed) = JS.Infinity)
        /\ ((exists d, JS.parseInt (Home.connections typed) = JS.Finite d
                       /\ 0 <= d)
            \/ JS.parseInt (Home.connections typed) = JS.Infinity)).
Proof.
  cbn [HomePage.typeConnections Home.connections].
  pose proof (all_keep JS.isDigit text) as Hall.
  split; [|split; [now apply mathInt_digits|split;
                     [now apply parseInt_digits|]]].
  - rewrite connectionsError_None.
    cbn [HomePage.typeConnections Home.connections].
    split.
    + intros [(d & Hd & _)|Hd] Hempty; rewrite Hempty in Hd; discriminate.
    + now apply parseInt_field.
  - intros Hne.
    destruct (parseDigits_field _ Hall Hne) as (z & Hz & Hpos).
    exists z. split; [exact Hz|]. split; [exact Hpos|].
    split; [|split].
    + intros Hle. rewrite parseInt_digits, Hz by exact Hall.
      apply toNumber_exact. unfold maxExact in Hle. lia.
    + intros Hge. rewrite parseInt_digits, Hz by exact Hall.
      now apply toNumber_infinite.
    + now apply parseInt_field.
Qed.

Lemma typed_connections_valid_witness :
  JS.parseInt (Home.connections
                 (HomePage.typeConnections "-0x1f"
                    (filledForm "a" "" sampleTime))) = JS.Finite 1.
Proof.
  destruct (typed_connections_valid "-0x1f" (filledForm "a" "" sampleTime))
    as (_ & _ & _ & H).
  destruct H as (z & Hz & _ & Hexact & _); [discriminate|].
  vm_compute in Hz. injection Hz as <-. apply Hexact. vm_compute. discriminate.
Defined.

(** The ID number field holds digits only, so the ID number of a form
    typed into it is valid exactly when it has eight digits or more; the
    error of an ID number that has other characters cannot arise. *)
Theorem typed_idNumber_valid (text : string) (formData : Auth.FormData) :
  let typed := AuthPage.typeIdNumber text formData in
  (Auth.idNumberError typed = None <->
   (8 <= String.length (JS.removeNonDigits text))%nat)
  /\ Auth.idNumberError typed <> Some "ID number must contain only digits"
  /\ JS.trim (Auth.idNumber typed) = JS.removeNonDigits text.
Proof.
  cbn [AuthPage.typeIdNumber Auth.idNumber]. unfold Auth.idNumberError.
  cbn [AuthPage.typeIdNumber Auth.idNumber].
  pose proof (all_keep JS.isDigit text) as Hall.
  fold (JS.removeNonDigits text) in Hall.
  rewrite !trim_digits by exact Hall.
  case_bool_decide as Hempty.
  - rewrite Hempty. simpl. repeat split; try discriminate. lia.
  - destruct (Nat.ltb_spec (String.length (JS.removeNonDigits text)) 8).
    + repeat split; try discriminate. lia.
    + unfold test_digits. rewrite Hall, bool_decide_eq_false_2 by exact Hempty.
      simpl. split; [tauto|split; [discriminate|reflexivity]].
Qed.

Lemma typed_idNumber_valid_witness :
  Auth.idNumberError (AuthPage.typeIdNumber "12-34 56x78" sampleForm) = None.
Proof.
  apply (proj1 (typed_idNumber_valid "12-34 56x78" sampleForm)).
  vm_compute. lia.
Defined.

(** ** The date of the form *)

Lemma take_take (n m : nat) (s : string) :
  (n <= m)%nat -> JS.take n (JS.take m s) = JS.take n s.
Proof.
  revert m s; induction n as [|n IH]; intros [|m] [|c r] H; simpl; auto;
    try lia.
  f_equal. apply IH. lia.
Qed.

(** The month bucket of a submission is the month of the date that the
    form displays: the first seven characters of what [formatDate]
    shows; for a valid date of the years 0 to 9999 the form shows
    [YYYY-MM-DD]. *)
Theorem formatDate_bucket (d : Date) :
  JS.slice 0 7 <$> HomePage.formatDate (Some d) = Home.monthOf d
  /\ (forall t, d = TimeValue t -> 0 <= year t <= 9999 ->
        HomePage.formatDate (Some d)
        = Some (yearMonth t ++ "-" ++ padDigits 2 (day t))).
Proof.
  split.
  - unfold HomePage.formatDate, Home.monthOf.
    destruct (toISOString d) as [iso|]; [|reflexivity]. simpl. f_equal.
    unfold JS.slice. cbn [JS.skip Nat.sub]. now apply take_take; lia.
  - intros t -> Hy. unfold HomePage.formatDate; simpl. f_equal.
    unfold isoString, isoYear, yearMonth.
    replace ((0 <=? year t) && (year t <=? 9999)) with true
      by (symmetry; apply andb_true_intro; split; apply Z.leb_le; lia).
    reflexivity.
Qed.

Lemma formatDate_bucket_witness :
  HomePage.formatDate (Some (TimeValue sampleTime)) = Some "2025-08-03".
Proof.
  apply (proj2 (formatDate_bucket (TimeValue sampleTime)) sampleTime).
  - reflexivity.
  - simpl. lia.
Defined.

(** ** Who is on the leaderboard *)

Lemma joinUser_Some (us : list Users.row) (month_year : string)
  (kv : string * string * Sales.row) (row : Home.Joined.row) :
  Home.joinUser us month_year kv = Some row <->
  kv.1.2 = month_year
  /\ Home.Joined.user_id row = kv.1.1
  /\ Home.Joined.connections row = Sales.connections kv.2
  /\ exists u, List.find (fun u => bool_decide (Users.id u = kv.1.1)) us
               = Some u
               /\ Home.Joined.users row = Some (Users.name u).
Proof.
  destruct kv as [[uid my] r]. unfold Home.joinUser. cbn [fst snd].
  case_bool_decide as Hmy.
  - destruct (List.find _ us) as [u|] eqn:Hfind.
    + split.
      * intros [= <-]. repeat split; try assumption. now exists u.
      * intros (_ & H1 & H2 & u' & [= <-] & H3).
        destruct row; simpl in *. now subst.
    + split; [discriminate|]. now intros (_ & _ & _ & u & Hu & _).
  - split; [discriminate|]. intros [? _]. contradiction.
Qed.

Lemma find_id (us : list Users.row) (uid : string) :
  (exists u, List.find (fun u => bool_decide (Users.id u = uid)) us = Some u)
  <-> uid ∈ (Users.id <$> us).
Proof.
  split.
  - intros [u Hu]. apply find_some in Hu as [Hin Hid].
    apply bool_decide_eq_true in Hid. subst uid.
    apply list_elem_of_fmap_2. now apply list_elem_of_In.
  - intros (u & -> & Hu)%list_elem_of_fmap.
    destruct (List.find (fun v => bool_decide (Users.id v = Users.id u)) us)
      as [u'|] eqn:Hfind; [now exists u'|].
    apply list_elem_of_In in Hu.
    pose proof (find_none _ _ Hfind u Hu) as Hno. simpl in Hno.
    rewrite bool_decide_eq_true_2 in Hno by reflexivity. discriminate.
Qed.

Lemma NoDup_joined (us : list Users.row) (month_year : string)
  (l : list (string * string * Sales.row)) :
  NoDup (l.*1) ->
  NoDup (Home.Joined.user_id <$> omap (Home.joinUser us month_year) l).
Proof.
  induction l as [|kv l IH]; intros Hnd; [constructor|].
  cbn [fmap list_fmap] in Hnd. apply NoDup_cons in Hnd as [Hkv Hnd].
  cbn [omap list_omap].
  destruct (Home.joinUser us month_year kv) as [row|] eqn:Hrow;
    [|now apply IH].
  cbn [fmap list_fmap]. apply NoDup_cons. split; [|now apply IH].
  intros (row' & Hid & Hin)%list_elem_of_fmap.
  apply list_elem_of_omap in Hin as (kv' & Hkv' & Hrow').
  apply joinUser_Some in Hrow as (Hm & Hu & _).
  apply joinUser_Some in Hrow' as (Hm' & Hu' & _).
  apply Hkv. apply list_elem_of_fmap. exists kv'. split; [|exact Hkv'].
  destruct kv as [[a b] r], kv' as [[a' b'] r']. cbn [fst snd] in *.
  congruence.
Qed.

Lemma leaderboardPairs_rankedData (data : list Home.Joined.row) :
  leaderboardPairs (Home.rankedData (Some data))
  = (fun r => (Home.Joined.user_id r, JS.toNumber (Home.Joined.connections r)))
      <$> data.
Proof.
  unfold leaderboardPairs, Home.rankedData; simpl.
  rewrite fmap_imap. apply imap_ignore. intros i x; simpl.
  now rewrite orZero_id.
Qed.

(** The rows of the leaderboard of a store, for the current month. *)
Lemma leaderboardRows_rows (w : World) (uid : string) (z : Z) :
  (uid, z) ∈ ((fun r => (Home.Joined.user_id r, Home.Joined.connections r))
                <$> Home.leaderboardRows (db w) (Home.monthString (now w)))
  <-> storedConnections w uid (Home.monthString (now w)) = Some z
      /\ uid ∈ (Users.id <$> users (db w)).
Proof.
  unfold Home.leaderboardRows, storedConnections.
  rewrite list_elem_of_fmap. split.
  - intros (row & [= -> ->] & Hrow).
    rewrite merge_sort_Permutation in Hrow.
    apply list_elem_of_omap in Hrow as ([[a b] r] & Hkv & Hjoin).
    apply elem_of_map_to_list in Hkv.
    apply joinUser_Some in Hjoin as (Hm & Hu & Hc & u & Hfind & _).
    cbn [fst snd] in *. subst b. rewrite Hu, Hc, Hkv. split; [reflexivity|].
    apply find_id. now exists u.
  - intros [Hc Hu].
    destruct (sales (db w) !! (uid, Home.monthString (now w))) as [r|] eqn:Hr;
      [|discriminate].
    injection Hc as <-.
    apply find_id in Hu as [u Hu].
    exists {| Home.Joined.user_id := uid;
              Home.Joined.connections := Sales.connections r;
              Home.Joined.users := Some (Users.name u) |}.
    split; [reflexivity|]. rewrite merge_sort_Permutation.
    apply list_elem_of_omap. exists (uid, Home.monthString (now w), r).
    split; [now apply elem_of_map_to_list|].
    apply joinUser_Some. cbn [fst snd]. repeat split. now exists u.
Qed.

(** The entries of the leaderboard of a store, for the current month:
    the users with a record of the month, each with the number that the
    client reads for the total of the record. *)
Lemma leaderboardRows_pairs (w : World) (uid : string) (c : JS.number) :
  (uid, c) ∈ leaderboardPairs
               (Home.rankedData
                  (Some (Home.leaderboardRows (db w)
                           (Home.monthString (now w)))))
  <-> exists z, storedConnections w uid (Home.monthString (now w)) = Some z
                /\ c = JS.toNumber z
                /\ uid ∈ (Users.id <$> users (db w)).
Proof.
  rewrite leaderboardPairs_rankedData, list_elem_of_fmap. split.
  - intros (row & [= -> ->] & Hrow).
    exists (Home.Joined.connections row).
    assert (Hin : (Home.Joined.user_id row, Home.Joined.connections row)
                  ∈ ((fun r => (Home.Joined.user_id r,
                                Home.Joined.connections r))
                       <$> Home.leaderboardRows (db w)
                             (Home.monthString (now w))))
      by (apply list_elem_of_fmap; now exists row).
    apply leaderboardRows_rows in Hin as [Hz Hu]. now repeat split.
  - intros (z & Hz & -> & Hu).
    assert (Hin : (uid, z)
                  ∈ ((fun r => (Home.Joined.user_id r,
                                Home.Joined.connections r))
                       <$> Home.leaderboardRows (db w)
                             (Home.monthString (now w))))
      by (apply leaderboardRows_rows; now split).
    apply list_elem_of_fmap in Hin as (row & [= -> ->] & Hrow).
    now exists row.
Qed.

Lemma leaderboardRows_NoDup (d : Db) (month_year : string) :
  NoDup (Home.Joined.user_id <$> Home.leaderboardRows d month_year).
Proof.
  unfold Home.leaderboardRows. rewrite merge_sort_Permutation.
  apply NoDup_joined, NoDup_fst_map_to_list.
Qed.

(** C2: when its request is served, [fetchLeaderboard] loads a
    leaderboard that has an entry for exactly the users with a sales
    record of the current month, each once and with the number read for
    the total of the record; the entries are in descending order of
    [connections], in the order of the fetched rows, which the order
    clause of the query has sorted; the rank of an entry is its position
    plus one, so the ranks are 1, 2, 3, ... without a gap, ties
    included: rows fetched with the connections 30, 30, 10 get the ranks
    1, 2, 3 in the order in which they were fetched. *)
Theorem fetchLeaderboard_ranks (w : World) :
  served w ->
  exists leaderboard,
    (Home.fetchLeaderboard w).1 = Home.Loaded leaderboard
    /\ (forall uid c,
          (uid, c) ∈ leaderboardPairs leaderboard <->
          exists z,
            storedConnections w uid (Home.monthString (now w)) = Some z
            /\ c = JS.toNumber z
            /\ uid ∈ (Users.id <$> users (db w)))
    /\ NoDup (Home.Item.user_id <$> leaderboard)
    /\ StronglySorted Home.itemsDescending leaderboard
    /\ (forall i item, leaderboard !! i = Some item ->
                       Home.Item.rank item = Z.of_nat i + 1)
    /\ StronglySorted Home.descending
         (Home.leaderboardRows (db w) (Home.monthString (now w)))
    /\ Home.Item.user_id <$> leaderboard
       = Home.Joined.user_id
           <$> Home.leaderboardRows (db w) (Home.monthString (now w))
    /\ (forall data : list Home.Joined.row,
          Home.Joined.connections <$> data = [30; 30; 10] ->
          Home.Item.rank <$> Home.rankedData (Some data) = [1; 2; 3]
          /\ Home.Item.user_id <$> Home.rankedData (Some data)
             = Home.Joined.user_id <$> data
          /\ Home.Item.connections <$> Home.rankedData (Some data)
             = [JS.Finite 30; JS.Finite 30; JS.Finite 10]).
Proof.
  intros Hs.
  destruct (fetchLeaderboard_cases w) as (n & [(f & Hn & _)|(_ & Hw)]).
  { unfold served in Hs. now rewrite Hn in Hs. }
  eexists. rewrite Hw. split; [reflexivity|].
  assert (Hsorted : StronglySorted Home.descending
                      (Home.leaderboardRows (db w) (Home.monthString (now w))))
    by (unfold Home.leaderboardRows; apply StronglySorted_merge_sort; apply _).
  split; [intros uid c; apply leaderboardRows_pairs|].
  split; [rewrite rankedData_user_id; apply leaderboardRows_NoDup|].
  split; [now apply rankedData_sorted|].
  split; [intros i item; apply rankedData_rank|].
  split; [exact Hsorted|].
  split; [apply rankedData_user_id|].
  intros data Hd. split; [|split; [apply rankedData_user_id|]].
  - destruct data as [|a [|b [|c [|? ?]]]]; try discriminate. reflexivity.
  - rewrite rankedData_connections.
    destruct data as [|a [|b [|c [|? ?]]]]; try discriminate.
    cbn [fmap list_fmap] in Hd |- *.
    injection Hd as Ha Hb Hc. now rewrite Ha, Hb, Hc.
Qed.

Lemma fetchLeaderboard_ranks_witness :
  StronglySorted Home.itemsDescending sampleLeaderboard
  /\ Home.Item.rank <$> sampleLeaderboard = [1; 2; 3]
  /\ (Home.fetchLeaderboard sampleWorld).1 = Home.Loaded sampleLeaderboard.
Proof.
  destruct (fetchLeaderboard_ranks sampleWorld I)
    as (leaderboard & Hl & _ & _ & Hsorted & _).
  assert (Heq : leaderboard = sampleLeaderboard).
  { vm_compute in Hl. now injection Hl as <-. }
  subst leaderboard. split; [exact Hsorted|split; [reflexivity|exact Hl]].
Defined.

(** The leaderboard that is loaded has an entry for exactly the users of
    the store who have a sales record of the current month, with the
    number that the client reads for the total of that record, and no
    user has two entries. *)
Theorem leaderboard_entries (w : World)
  (leaderboard : list Home.Item.LeaderboardItem) :
  (Home.fetchLeaderboard w).1 = Home.Loaded leaderboard ->
  NoDup (Home.Item.user_id <$> leaderboard)
  /\ forall uid c,
       (uid, c) ∈ leaderboardPairs leaderboard <->
       exists z,
         storedConnections w uid (Home.monthString (now w)) = Some z
         /\ c = JS.toNumber z
         /\ uid ∈ (Users.id <$> users (db w)).
Proof.
  intros Hl.
  destruct (fetchLeaderboard_cases w) as (n & [(f & _ & Hw)|(_ & Hw)]);
    rewrite Hw in Hl; simpl in Hl; [discriminate|].
  injection Hl as <-. split.
  - rewrite rankedData_user_id. apply leaderboardRows_NoDup.
  - intros uid c. apply leaderboardRows_pairs.
Qed.

Lemma leaderboard_entries_witness :
  NoDup (Home.Item.user_id <$> sampleLeaderboard).
Proof.
  apply (leaderboard_entries sampleWorld sampleLeaderboard).
  vm_compute. reflexivity.
Defined.

(** ** A submission and the leaderboard *)

(** The refresh of a saved submission is the leaderboard of the store
    after the upsert. *)
Lemma handleSubmit_refresh (formData : Home.ModalFormData) (w : World)
  (refresh : Home.FetchOutcome) :
  (Home.handleSubmit formData w).1 = Home.Saved refresh ->
  exists month_year total n,
    Home.date formData ≫= Home.monthOf = Some month_year
    /\ newTotal w formData month_year = JS.Finite total
    /\ refresh
       = (Home.fetchLeaderboard
            (set_net n (savedWorld formData month_year total w))).1.
Proof.
  remember (Home.handleSubmit formData w) as res eqn:Hres.
  unfold Home.handleSubmit in Hres.
  destruct (Home.validateForm formData); cbn [negb] in Hres;
    [|subst res; discriminate].
  destruct (Home.date formData ≫= Home.monthOf) as [m|];
    [|subst res; discriminate].
  unfold bind at 1 in Hres. unfold select_sale_single in Hres.
  match type of Hres with
  | context [request ?s w] =>
      destruct (request_cases s w) as [(f & n & Hn & Hr)|(n & Hn & Hr)];
      rewrite Hr in Hres; clear Hr
  end.
  { subst res. destruct f; discriminate. }
  cbv beta iota in Hres. cbn [db set_net sales] in Hres.
  assert (Hc : forall r0 : Response Z,
    r0 = match sales (db w) !! (Home.user_id formData, m) with
         | Some r => ok (Sales.connections r)
         | None => failed PGRST116
         end ->
    match error r0 with
    | Some fetchError => negb (bool_decide (code fetchError = "PGRST116"))
    | None => false
    end = false
    /\ JS.add match data r0 with
              | Some c => JS.toNumber c
              | None => JS.Finite 0
              end (JS.parseInt (Home.connections formData))
       = newTotal w formData m).
  { intros r0 ->. unfold newTotal, storedConnections.
    now destruct (sales (db w) !! _). }
  destruct (Hc _ eq_refl) as [Hc1 Hc2]. rewrite Hc1, Hc2 in Hres.
  clear Hc Hc1 Hc2.
  unfold bind at 1, Home.newDate, upsert_sale in Hres.
  unfold bind at 1 in Hres.
  match type of Hres with
  | context [request ?s ?w0] =>
      destruct (request_cases s w0) as [(f & n1 & Hn1 & Hr)|(n1 & Hn1 & Hr)];
      rewrite Hr in Hres; clear Hr
  end.
  { subst res. discriminate. }
  cbv beta iota in Hres.
  destruct (JS.toJSON (newTotal w formData m)) as [total|] eqn:Htotal;
    cbn [error failed] in Hres; [|subst res; discriminate].
  assert (Ht : newTotal w formData m = JS.Finite total).
  { destruct (newTotal w formData m); try discriminate.
    now injection Htotal as ->. }
  unfold bind at 1 in Hres.
  intros Hsaved. exists m, total, n1. repeat split; [exact Ht|].
  match type of Hres with
  | context [Home.fetchLeaderboard ?w1] =>
      change (Home.fetchLeaderboard
                (set_net n1 (savedWorld formData m total w)))
        with (Home.fetchLeaderboard w1);
      destruct (Home.fetchLeaderboard w1) as [o w2]
  end.
  subst res. cbn [fst ret] in Hsaved. now injection Hsaved as <-.
Qed.

(** A finite sum is a double. *)
Lemma add_finite (a b : JS.number) (total : Z) :
  JS.add a b = JS.Finite total ->
  exists x y, a = JS.Finite x /\ b = JS.Finite y
              /\ JS.toNumber (x + y) = JS.Finite total
              /\ isDouble total.
Proof.
  destruct a as [|x| |], b as [|y| |]; try discriminate.
  cbn [JS.add]. intros Ht. exists x, y. repeat split; [exact Ht|].
  exact (toNumber_idempotent _ _ Ht).
Qed.

(** When a submission is saved and its refresh loads the leaderboard:
    if the date of the submission is of the current month and the agent
    is a user of the store, the leaderboard shows the agent with the new
    total; if the date is of another month, the leaderboard shows what
    it showed before. *)
Theorem saved_submission_on_leaderboard (formData : Home.ModalFormData)
  (w : World) (leaderboard : list Home.Item.LeaderboardItem) :
  (Home.handleSubmit formData w).1 = Home.Saved (Home.Loaded leaderboard) ->
  (Home.date formData ≫= Home.monthOf = Some (Home.monthString (now w)) ->
   Home.user_id formData ∈ (Users.id <$> users (db w)) ->
   exists total,
     JS.add
       (JS.toNumber
          (default 0 (storedConnections w (Home.user_id formData)
                        (Home.monthString (now w)))))
       (JS.parseInt (Home.connections formData)) = JS.Finite total
     /\ (Home.user_id formData, JS.Finite total)
        ∈ leaderboardPairs leaderboard)
  /\ (Home.date formData ≫= Home.monthOf <> Some (Home.monthString (now w)) ->
      forall uid c,
        (uid, c) ∈ leaderboardPairs leaderboard <->
        exists z,
          storedConnections w uid (Home.monthString (now w)) = Some z
          /\ c = JS.toNumber z
          /\ uid ∈ (Users.id <$> users (db w))).
Proof.
  intros Hsaved.
  destruct (handleSubmit_refresh formData w _ Hsaved)
    as (m & t & n & Hm & Ht & Hrefresh).
  set (w1 := set_net n (savedWorld formData m t w)) in *.
  assert (Hpairs : forall uid c,
            (uid, c) ∈ leaderboardPairs leaderboard <->
            exists z,
              storedConnections w1 uid (Home.monthString (now w)) = Some z
              /\ c = JS.toNumber z
              /\ uid ∈ (Users.id <$> users (db w))).
  { destruct (fetchLeaderboard_cases w1) as (n' & [(f & _ & Hw)|(_ & Hw)]);
      rewrite Hw in Hrefresh; cbn [fst] in Hrefresh; [discriminate|].
    injection Hrefresh as ->. intros uid c.
    apply (leaderboardRows_pairs w1). }
  split.
  - intros Hcur Hu. rewrite Hm in Hcur. injection Hcur as Hcur. subst m.
    exists t. split; [exact Ht|]. apply Hpairs. exists t.
    split; [subst w1; apply storedConnections_saved|].
    split; [|exact Hu].
    destruct (add_finite _ _ _ Ht) as (_ & _ & _ & _ & _ & Hdouble).
    symmetry. exact Hdouble.
  - intros Hother uid c. rewrite Hpairs.
    assert (Hsame : storedConnections w1 uid (Home.monthString (now w))
                    = storedConnections w uid (Home.monthString (now w))).
    { subst w1. unfold storedConnections, savedWorld.
      cbn [db set_net set_db sales].
      rewrite lookup_insert_ne; [reflexivity|]. intros [= _ Heq].
      apply Hother. now rewrite Hm, Heq. }
    now rewrite Hsame.
Qed.

Lemma saved_submission_on_leaderboard_witness :
  exists total,
    JS.add (JS.toNumber (default 0 (storedConnections sampleWorld "b" "2025-08")))
      (JS.parseInt "5") = JS.Finite total
    /\ ("b", JS.Finite total)
       ∈ leaderboardPairs
           [{| Home.Item.user_id := "c"; Home.Item.name := "Cy";
               Home.Item.connections := JS.Finite 30; Home.Item.rank := 1 |};
            {| Home.Item.user_id := "a"; Home.Item.name := "Ann";
               Home.Item.connections := JS.Finite 30; Home.Item.rank := 2 |};
            {| Home.Item.user_id := "b"; Home.Item.name := "Bob";
               Home.Item.connections := JS.Finite 15; Home.Item.rank := 3 |}].
Proof.
  apply (saved_submission_on_leaderboard (filledForm "b" "5" sampleTime)
           sampleWorld).
  - vm_compute. reflexivity.
  - vm_compute. reflexivity.
  - apply (bool_decide_unpack _). vm_compute. reflexivity.
Defined.


(** A total that is not a double is replaced by the double that the
    client has read for it, which can be lower: a submission of 0 to a
    record that holds [2 ^ 53 + 1] leaves [2 ^ 53]. *)
Lemma total_read_as_double :
  ~ isDouble 9007199254740993
  /\ storedConnections oddWorld "b" "2025-08" = Some 9007199254740993
  /\ storedConnections
       (Home.handleSubmit (filledForm "b" "0" sampleTime) oddWorld).2
       "b" "2025-08" = Some 9007199254740992.
Proof.
  split; [vm_compute; discriminate|]. split; vm_compute; reflexivity.
Qed.



Lemma sum_deltas_permutation (l l' : list Z) :
  l ≡ₚ l' -> foldr Z.add 0 l = foldr Z.add 0 l'.
Proof. induction 1; simpl; lia. Qed.

(** The delta of a form that submits one. *)
Lemma submits_deltaOf (user_id month_year : string)
  (forms : list Home.ModalFormData) (deltas : list Z) :
  Forall2 (submits user_id month_year) forms deltas ->
  deltas = deltaOf <$> forms.
Proof.
  induction 1 as [|f d forms deltas (_ & _ & Hd & _) _ IH]; [reflexivity|].
  cbn [fmap list_fmap]. unfold deltaOf at 1. rewrite Hd. now f_equal.
Qed.

Lemma submits_permutation (user_id month_year : string)
  (forms forms' : list Home.ModalFormData) (deltas : list Z) :
  forms ≡ₚ forms' ->
  Forall2 (submits user_id month_year) forms deltas ->
  Forall2 (submits user_id month_year) forms' (deltaOf <$> forms')
  /\ foldr Z.add 0 (deltaOf <$> forms') = foldr Z.add 0 deltas.
Proof.
  intros Hperm Hs.
  pose proof (submits_deltaOf _ _ _ _ Hs) as ->.
  split; [|apply sum_deltas_permutation; now rewrite Hperm].
  assert (Hall : Forall (fun f => submits user_id month_year f (deltaOf f))
                   forms).
  { clear Hperm. remember (deltaOf <$> forms) as ds eqn:Hds.
    revert Hds. induction Hs as [|f d l ds Hf _ IH]; intros Hds;
      [constructor|].
    cbn [fmap list_fmap] in Hds. injection Hds as -> ->.
    constructor; [exact Hf|now apply IH]. }
  rewrite Hperm in Hall. clear Hperm Hs.
  induction Hall as [|f l Hf _ IH]; constructor; assumption.
Qed.

(** The total that submissions to one key leave does not depend on the
    order in which they are made, as long as it is not above [2 ^ 53];
    beyond, it can: the deltas 9007199254740992, 1 and 1 leave
    9007199254740992 in this order, and 9007199254740994 when the two 1
    come first. *)
Theorem submission_order :
  (forall (w : World) (user_id month_year : string)
     (forms forms' : list Home.ModalFormData) (deltas : list Z),
     reliable w -> user_id <> "" -> forms ≡ₚ forms' ->
     Forall2 (submits user_id month_year) forms deltas ->
     0 <= default 0 (storedConnections w user_id month_year) ->
     default 0 (storedConnections w user_id month_year)
     + foldr Z.add 0 deltas <= maxExact ->
     storedConnections (Home.submitAll forms w).2 user_id month_year
     = storedConnections (Home.submitAll forms' w).2 user_id month_year)
  /\ (largeFirst ≡ₚ largeLast
      /\ storedConnections (Home.submitAll largeFirst emptyWorld).2
           "b" "2025-08" = Some 9007199254740992
      /\ storedConnections (Home.submitAll largeLast emptyWorld).2
           "b" "2025-08" = Some 9007199254740994).
Proof.
  split.
  - intros w user_id month_year forms forms' deltas Hrel Hu Hperm Hs Hlo Hhi.
    destruct (submits_permutation _ _ _ _ _ Hperm Hs) as [Hs' Hsum].
    destruct forms as [|f forms].
    + apply Permutation_nil_l in Hperm. now subst forms'.
    + assert (Hne' : forms' <> []).
      { intros ->. now apply Permutation_nil_r in Hperm. }
      rewrite (submitAll_stored w user_id month_year (f :: forms) deltas)
        by (assumption || discriminate).
      rewrite (submitAll_stored w user_id month_year forms'
                 (deltaOf <$> forms'))
        by (assumption || (rewrite Hsum; assumption)).
      now rewrite Hsum.
  - split; [|split; vm_compute; reflexivity].
    unfold largeFirst, largeLast.
    rewrite (Permutation_cons_append [_; _]). reflexivity.
Qed.

Lemma submission_order_witness :
  storedConnections
    (Home.submitAll [filledForm "b" "3" sampleTime;
                     filledForm "b" "4" sampleLater] sampleWorld).2
    "b" "2025-08"
  = storedConnections
      (Home.submitAll [filledForm "b" "4" sampleLater;
                       filledForm "b" "3" sampleTime] sampleWorld).2
      "b" "2025-08".
Proof.
  apply (proj1 submission_order sampleWorld "b" "2025-08" _ _ [3; 4]).
  - constructor.
  - discriminate.
  - apply perm_swap.
  - repeat constructor; vm_compute; congruence.
  - vm_compute. discriminate.
  - vm_compute. discriminate.
Defined.
